(** * mindful-pages: the entry pipeline, the statistics recomputation and the
      weekly-insight route, embedded and checked against their specification.

    Sources embedded here:
    - [server/fallbacks.ts]  : the keyword mood classifier;
    - [server/gemini.ts]     : the four AI client operations (they rethrow);
    - [server/storage.ts]    : [DatabaseStorage], over in-memory tables;
    - [server/routes.ts]     : the journal-entry and weekly-insight handlers,
                               the prompt routes and the search route.

    Conventions of the embedding.
    - A JavaScript string is a [string] of code units below 256 (Latin-1):
      every statement about texts is a statement about such texts. Outside
      that range [toLowerCase] is not character-wise (it can depend on the
      neighbours of a letter and change the length of the text); nothing
      here covers those texts.
    - A JavaScript number that holds a count or a time value is a [Z]; a
      time value is the number of milliseconds since the epoch.
    - A nullable column is an [option]; [x || d] is written out with [match].
    - The server's local time zone is a fixed offset [tz] (milliseconds east
      of UTC), so every local day lasts 24 hours. A zone with daylight
      saving has days of 23 and 25 hours; a statement that needs the fixed
      offset says so.
    - A row holds what was written to it. The database does more on two
      kinds of column: an [integer] column takes 32-bit values only, and a
      [decimal(3,2)] column rejects a value of magnitude 10 or more and
      gives every other one back with two decimals (['0'] as ['0.00']), so
      the [sentimentScore] of a row is the text written, not the text read
      back. A general statement about what a request stores names, as
      hypotheses, the conditions under which the database accepts the row.
    - [orderBy(desc(createdAt))] leaves the order of rows with the same
      [createdAt] to the database. The embedding sorts stably; no statement
      below relies on the order among such rows.
    - One request reads the clock once: [now] is the same for every
      [new Date()] of the request.
    - The text-generation provider is an oracle ([Provider]); each call
      either yields the decoded JSON object or throws. *)

From Stdlib Require Import String Ascii List ZArith Lia Bool DecimalString.
From Stdlib Require Import Sorting.Permutation Sorting.Sorted.
Import ListNotations.
Local Open Scope string_scope.
Local Open Scope Z_scope.

(** ** JavaScript strings *)

Module JsString.

(** Code unit of a character. *)
Definition code (c : ascii) : Z := Z.of_N (N_of_ascii c).

(** [String.prototype.toLowerCase] on one code unit below 256: the basic
    Latin capitals and the Latin-1 capitals (all of U+00C0..U+00DE but the
    multiplication sign U+00D7) move up by 32; everything else stays. On
    texts of such code units the function works character by character. *)
Definition lowerChar (c : ascii) : ascii :=
  let n := code c in
  if ((65 <=? n) && (n <=? 90)) || ((192 <=? n) && (n <=? 222) && negb (n =? 215))
  then ascii_of_N (Z.to_N (n + 32))
  else c.

Fixpoint toLowerCase (s : string) : string :=
  match s with
  | EmptyString => EmptyString
  | String c rest => String (lowerChar c) (toLowerCase rest)
  end.

(** [text.includes(word)]: [word] occurs in [text] at some position. *)
Fixpoint includes (text word : string) : bool :=
  if String.prefix word text then true
  else match text with
       | EmptyString => false
       | String _ rest => includes rest word
       end.

(** White space of [/\s/] and of [trim] among the code units below 256:
    TAB, LF, VT, FF, CR, SPACE and NO-BREAK SPACE. *)
Definition isSpace (c : ascii) : bool :=
  let n := code c in
  ((9 <=? n) && (n <=? 13)) || (n =? 32) || (n =? 160).

Fixpoint trimStart (s : string) : string :=
  match s with
  | EmptyString => EmptyString
  | String c rest => if isSpace c then trimStart rest else s
  end.

Fixpoint rev_acc (s acc : string) : string :=
  match s with
  | EmptyString => acc
  | String c rest => rev_acc rest (String c acc)
  end.

Definition rev (s : string) : string := rev_acc s EmptyString.

Definition trim (s : string) : string := rev (trimStart (rev (trimStart s))).

(** [s.split(/\s+/)]: the pieces between the maximal runs of white space.
    [cur] is the piece being read (reversed); [inGap] tells that the last
    character read was white space. A string that starts with white space
    yields an empty first piece, one that ends with it an empty last one,
    and the empty string yields one empty piece, as in JavaScript. *)
Fixpoint splitWs (s : string) (cur : string) (inGap : bool) : list string :=
  match s with
  | EmptyString => [rev cur]
  | String c rest =>
      if isSpace c then
        if inGap then splitWs rest cur true
        else rev cur :: splitWs rest EmptyString true
      else splitWs rest (String c cur) false
  end.

Definition split_ws (s : string) : list string := splitWs s EmptyString false.

End JsString.

(** ** server/fallbacks.ts *)

Module Fallbacks.
Import JsString.

Definition positiveWords : list string :=
  ["happy"; "excited"; "good"; "great"; "amazing"; "wonderful"; "love"; "joy";
   "grateful"; "blessed"; "awesome"; "fantastic"; "pleased"; "delighted";
   "optimistic"].

Definition negativeWords : list string :=
  ["sad"; "angry"; "frustrated"; "upset"; "disappointed"; "worried"; "anxious";
   "stressed"; "terrible"; "awful"; "hate"; "depressed"; "annoyed"; "irritated";
   "overwhelmed"].

Definition neutralWords : list string :=
  ["okay"; "fine"; "normal"; "regular"; "usual"; "average"].

(** [words.forEach(word => { if (text.includes(word)) count++; })] with
    [count] starting at 0. *)
Definition countHits (text : string) (words : list string) : Z :=
  fold_left (fun count word => if includes text word then count + 1 else count)
            words 0.

Definition detectMoodFromKeywords (content : string) : string :=
  let text := toLowerCase content in
  let positiveCount := countHits text positiveWords in
  let negativeCount := countHits text negativeWords in
  let neutralCount := countHits text neutralWords in
  if (positiveCount >? negativeCount) && (positiveCount >? neutralCount) then
    "positive"
  else if (negativeCount >? positiveCount) && (negativeCount >? neutralCount) then
    "negative"
  else if (negativeCount >? 0) && (positiveCount =? 0) then
    "anxious"
  else if (positiveCount >? 0) && (negativeCount =? 0) then
    "content"
  else "neutral".

End Fallbacks.

(** ** Time values and calendar days *)

Module Clock.

Definition msPerDay : Z := 1000 * 60 * 60 * 24.

Section Zone.
(** Offset of the server's local time from UTC, in milliseconds. *)
Variable tz : Z.

(** Number of the local calendar day that holds the instant [t]. *)
Definition dayIndex (t : Z) : Z := (t + tz) / msPerDay.

(** [d.setHours(0, 0, 0, 0)]: local midnight of the day of [t], in a zone
    of fixed offset. *)
Definition startOfDay (t : Z) : Z := dayIndex t * msPerDay - tz.

(** [d.setDate(d.getDate() + k)]: same local time of day, [k] days on. *)
Definition addDays (t k : Z) : Z := t + k * msPerDay.

(** [d.setHours(23, 59, 59, 999)]: last millisecond of the day of [t]. *)
Definition endOfDay (t : Z) : Z := startOfDay t + (msPerDay - 1).

(** [d.getDay()]: 0 is Sunday; day 0 of the epoch was a Thursday. *)
Definition getDay (t : Z) : Z := (dayIndex t + 4) mod 7.
End Zone.

End Clock.

(** ** shared/schema.ts

    Only the columns that the embedded operations read or write are kept.
    [createdAt] has [defaultNow()] and is omitted from the insert schema, so
    a stored row always carries one: the source asserts it with [createdAt!]. *)

Module User.
Record t : Type := mk {
  id : string;
  currentStreak : option Z;
  longestStreak : option Z;
  totalEntries : option Z;
  wordsWritten : option Z;
  lastEntryDate : option Z;
  updatedAt : option Z
}.
End User.

Module JournalEntry.
Record t : Type := mk {
  id : string;
  userId : string;
  title : option string;
  content : string;
  wordCount : option Z;
  sentimentScore : option string;
  sentimentLabel : option string;
  aiPrompt : option string;
  mood : option string;
  themes : option (list string);
  isCompleted : option bool;
  createdAt : Z;
  updatedAt : option Z
}.
End JournalEntry.

(** [InsertJournalEntry]: the row without [id], [createdAt], [updatedAt];
    [None] is a property left out (the column then takes its default). *)
Module InsertJournalEntry.
Record t : Type := mk {
  userId : string;
  title : option string;
  content : string;
  wordCount : option Z;
  sentimentScore : option string;
  sentimentLabel : option string;
  aiPrompt : option string;
  mood : option string;
  themes : option (list string);
  isCompleted : option bool
}.
End InsertJournalEntry.

(** One property of a [Partial<...>] object aimed at a nullable column. *)
Inductive Patch (A : Type) : Type :=
| Absent : Patch A
| Null : Patch A
| Value : A -> Patch A.
Arguments Absent {A}.
Arguments Null {A}.
Arguments Value {A} _.

(** [.set({ ...patch })] on one nullable column. *)
Definition applyPatch {A : Type} (p : Patch A) (old : option A) : option A :=
  match p with
  | Absent => old
  | Null => None
  | Value a => Some a
  end.

(** The same on a column that is [notNull()]. *)
Definition applySet {A : Type} (p : option A) (old : A) : A :=
  match p with
  | None => old
  | Some a => a
  end.

(** [Partial<InsertJournalEntry>]. *)
Module EntryPatch.
Record t : Type := mk {
  userId : option string;
  title : Patch string;
  content : option string;
  wordCount : Patch Z;
  sentimentScore : Patch string;
  sentimentLabel : Patch string;
  aiPrompt : Patch string;
  mood : Patch string;
  themes : Patch (list string);
  isCompleted : Patch bool
}.
End EntryPatch.

Module WeeklyInsight.
Record t : Type := mk {
  id : string;
  userId : string;
  weekStart : Z;
  weekEnd : Z;
  summary : option string;
  keyThemes : option (list string);
  moodTrend : option string;
  averageSentiment : option string;
  entryCount : option Z;
  createdAt : Z
}.
End WeeklyInsight.

Module InsertWeeklyInsight.
Record t : Type := mk {
  userId : string;
  weekStart : Z;
  weekEnd : Z;
  summary : option string;
  keyThemes : option (list string);
  moodTrend : option string;
  averageSentiment : option string;
  entryCount : option Z
}.
End InsertWeeklyInsight.

(** The database: one list of rows per table, in the order in which a
    [select] without [orderBy] returns them, and the generator behind
    [gen_random_uuid()] with the number of keys drawn so far. *)
Record Store : Type := mkStore {
  users : list User.t;
  journalEntries : list JournalEntry.t;
  weeklyInsights : list WeeklyInsight.t;
  gen_random_uuid : nat -> string;
  drawn : nat
}.

(** [x || 0] on a nullable integer column. *)
Definition orZero (x : option Z) : Z :=
  match x with
  | Some n => n
  | None => 0
  end.

(** Truthiness of a nullable boolean column. *)
Definition truthy (b : option bool) : bool :=
  match b with
  | Some true => true
  | _ => false
  end.

(** ** server/storage.ts *)

(** The loop variables of the streak walk in [updateUserStats]. *)
Module Streak.
Record t : Type := mk {
  currentStreak : Z;
  longestStreak : Z;
  streakCount : Z;
  lastDate : option Z
}.
End Streak.

Module Storage.
Import Clock.

(** [array.sort((a, b) => b.createdAt.getTime() - a.createdAt.getTime())] and
    SQL's [orderBy(desc(createdAt))]: newest first. The array sort is
    stable; the database may give rows with the same time value in any
    order, of which this is one. *)
Fixpoint insertDesc (x : JournalEntry.t) (l : list JournalEntry.t) : list JournalEntry.t :=
  match l with
  | [] => [x]
  | y :: rest =>
      if JournalEntry.createdAt x <? JournalEntry.createdAt y
      then y :: insertDesc x rest
      else x :: y :: rest
  end.

Definition sortDesc (l : list JournalEntry.t) : list JournalEntry.t :=
  fold_right insertDesc [] l.

Section Request.
(** Time zone offset of the server and the clock reading of this request. *)
Variable tz : Z.
Variable now : Z.

Definition isToday (date : Z) : bool :=
  date =? startOfDay tz now.

Definition isYesterday (date : Z) : bool :=
  date =? startOfDay tz (addDays now (-1)).

(** Body of [for (const entry of completedEntries)]. *)
Definition streakStep (s : Streak.t) (entry : JournalEntry.t) : Streak.t :=
  let entryDate := startOfDay tz (JournalEntry.createdAt entry) in
  match Streak.lastDate s with
  | None =>
      (* First entry *)
      Streak.mk
        (if isToday entryDate || isYesterday entryDate then 1
         else Streak.currentStreak s)
        (Streak.longestStreak s)
        1
        (Some entryDate)
  | Some lastDate =>
      let daysDiff := (lastDate - entryDate) / msPerDay in
      if daysDiff =? 1 then
        (* Consecutive day *)
        let streakCount := Streak.streakCount s + 1 in
        Streak.mk
          (if (Streak.currentStreak s =? 0)
              && (isToday entryDate || isYesterday entryDate)
           then streakCount else Streak.currentStreak s)
          (Streak.longestStreak s)
          streakCount
          (Some entryDate)
      else
        (* Streak broken *)
        Streak.mk
          (Streak.currentStreak s)
          (Z.max (Streak.longestStreak s) (Streak.streakCount s))
          1
          (Some entryDate)
  end.

Definition streakInit : Streak.t := Streak.mk 0 0 0 None.

Definition streakLoop (completedEntries : list JournalEntry.t) : Streak.t :=
  fold_left streakStep completedEntries streakInit.

(** The rows of [journalEntries] that belong to [userId]. *)
Definition entriesOf (st : Store) (userId : string) : list JournalEntry.t :=
  filter (fun entry => String.eqb (JournalEntry.userId entry) userId)
         (journalEntries st).

Definition totalEntries (entries : list JournalEntry.t) : Z :=
  Z.of_nat (length (filter (fun entry => truthy (JournalEntry.isCompleted entry)) entries)).

(** The sum as [reduce] computes it. The column [words_written] that takes
    it is a 32-bit [integer]: see [aggregatesFit]. *)
Definition wordsWritten (entries : list JournalEntry.t) : Z :=
  fold_left (fun sum entry => sum + orZero (JournalEntry.wordCount entry)) entries 0.

Definition completedEntries (entries : list JournalEntry.t) : list JournalEntry.t :=
  sortDesc (filter (fun entry => truthy (JournalEntry.isCompleted entry)) entries).

(** The value of [longestStreak] after the final [Math.max]. *)
Definition finalLongest (s : Streak.t) : Z :=
  Z.max (Streak.longestStreak s) (Streak.streakCount s).

(** [completedEntries[0]?.createdAt || null] *)
Definition lastEntryDate (completed : list JournalEntry.t) : option Z :=
  match completed with
  | [] => None
  | entry :: _ => Some (JournalEntry.createdAt entry)
  end.

Definition updateUserStats (st : Store) (userId : string) : Store :=
  let entries := entriesOf st userId in
  let completed := completedEntries entries in
  let s := streakLoop completed in
  mkStore
    (map (fun u =>
            if String.eqb (User.id u) userId then
              User.mk (User.id u)
                      (Some (Streak.currentStreak s))
                      (Some (finalLongest s))
                      (Some (totalEntries entries))
                      (Some (wordsWritten entries))
                      (lastEntryDate completed)
                      (Some now)
            else u)
         (users st))
    (journalEntries st)
    (weeklyInsights st)
    (gen_random_uuid st)
    (drawn st).

Definition getUser (st : Store) (id : string) : option User.t :=
  find (fun u => String.eqb (User.id u) id) (users st).

(** The row that [insert(journalEntries).values(entry).returning()] adds,
    with [sentimentScore] as it was written (the [decimal(3,2)] column
    gives it back with two decimals, and rejects what does not fit). *)
Definition insertedEntry (st : Store) (entry : InsertJournalEntry.t) : JournalEntry.t :=
  JournalEntry.mk
    (gen_random_uuid st (drawn st))
    (InsertJournalEntry.userId entry)
    (InsertJournalEntry.title entry)
    (InsertJournalEntry.content entry)
    (match InsertJournalEntry.wordCount entry with
     | None => Some 0
     | w => w
     end)
    (InsertJournalEntry.sentimentScore entry)
    (InsertJournalEntry.sentimentLabel entry)
    (InsertJournalEntry.aiPrompt entry)
    (InsertJournalEntry.mood entry)
    (InsertJournalEntry.themes entry)
    (match InsertJournalEntry.isCompleted entry with
     | None => Some false
     | b => b
     end)
    now
    (Some now).

Definition createJournalEntry (st : Store) (entry : InsertJournalEntry.t)
  : JournalEntry.t * Store :=
  let journalEntry := insertedEntry st entry in
  let st1 := mkStore (users st) (journalEntries st ++ [journalEntry])
                     (weeklyInsights st) (gen_random_uuid st) (S (drawn st)) in
  (* Update user stats *)
  (journalEntry, updateUserStats st1 (InsertJournalEntry.userId entry)).

(** [.set({ ...entry, updatedAt: new Date() })] on one row, with
    [sentimentScore] as it was written, as in [insertedEntry]. *)
Definition patchedEntry (entry : EntryPatch.t) (row : JournalEntry.t) : JournalEntry.t :=
  JournalEntry.mk
    (JournalEntry.id row)
    (applySet (EntryPatch.userId entry) (JournalEntry.userId row))
    (applyPatch (EntryPatch.title entry) (JournalEntry.title row))
    (applySet (EntryPatch.content entry) (JournalEntry.content row))
    (applyPatch (EntryPatch.wordCount entry) (JournalEntry.wordCount row))
    (applyPatch (EntryPatch.sentimentScore entry) (JournalEntry.sentimentScore row))
    (applyPatch (EntryPatch.sentimentLabel entry) (JournalEntry.sentimentLabel row))
    (applyPatch (EntryPatch.aiPrompt entry) (JournalEntry.aiPrompt row))
    (applyPatch (EntryPatch.mood entry) (JournalEntry.mood row))
    (applyPatch (EntryPatch.themes entry) (JournalEntry.themes row))
    (applyPatch (EntryPatch.isCompleted entry) (JournalEntry.isCompleted row))
    (JournalEntry.createdAt row)
    (Some now).

Definition updateJournalEntry (st : Store) (id : string) (entry : EntryPatch.t)
  : option JournalEntry.t * Store :=
  let rows :=
    map (fun row => if String.eqb (JournalEntry.id row) id
                    then patchedEntry entry row else row)
        (journalEntries st) in
  let st1 := mkStore (users st) rows (weeklyInsights st)
                     (gen_random_uuid st) (drawn st) in
  match find (fun row => String.eqb (JournalEntry.id row) id) rows with
  | Some journalEntry =>
      (Some journalEntry, updateUserStats st1 (JournalEntry.userId journalEntry))
  | None => (None, st1)
  end.

Definition deleteJournalEntry (st : Store) (id : string) : Store :=
  mkStore (users st)
          (filter (fun row => negb (String.eqb (JournalEntry.id row) id))
                  (journalEntries st))
          (weeklyInsights st) (gen_random_uuid st) (drawn st).

Definition getJournalEntry (st : Store) (id : string) : option JournalEntry.t :=
  find (fun row => String.eqb (JournalEntry.id row) id) (journalEntries st).

Definition getUserJournalEntries (st : Store) (userId : string) (limit : nat)
  : list JournalEntry.t :=
  firstn limit
    (sortDesc
       (filter (fun row => String.eqb (JournalEntry.userId row) userId
                           && match JournalEntry.isCompleted row with
                              | Some true => true
                              | _ => false
                              end)
               (journalEntries st))).

Definition getJournalEntriesByDateRange (st : Store) (userId : string)
  (startDate endDate : Z) : list JournalEntry.t :=
  sortDesc
    (filter (fun row => String.eqb (JournalEntry.userId row) userId
                        && (startDate <=? JournalEntry.createdAt row)
                        && (JournalEntry.createdAt row <=? endDate))
            (journalEntries st)).

Definition createWeeklyInsight (st : Store) (insight : InsertWeeklyInsight.t)
  : WeeklyInsight.t * Store :=
  let weeklyInsight :=
    WeeklyInsight.mk
      (gen_random_uuid st (drawn st))
      (InsertWeeklyInsight.userId insight)
      (InsertWeeklyInsight.weekStart insight)
      (InsertWeeklyInsight.weekEnd insight)
      (InsertWeeklyInsight.summary insight)
      (InsertWeeklyInsight.keyThemes insight)
      (InsertWeeklyInsight.moodTrend insight)
      (InsertWeeklyInsight.averageSentiment insight)
      (match InsertWeeklyInsight.entryCount insight with
       | None => Some 0
       | n => n
       end)
      now in
  (weeklyInsight,
   mkStore (users st) (journalEntries st) (weeklyInsights st ++ [weeklyInsight])
           (gen_random_uuid st) (S (drawn st))).

Definition getWeeklyInsight (st : Store) (userId : string) (weekStart : Z)
  : option WeeklyInsight.t :=
  find (fun row => String.eqb (WeeklyInsight.userId row) userId
                   && (WeeklyInsight.weekStart row =? weekStart))
       (weeklyInsights st).

Definition deleteWeeklyInsight (st : Store) (insightId : string) : Store :=
  mkStore (users st) (journalEntries st)
          (filter (fun row => negb (String.eqb (WeeklyInsight.id row) insightId))
                  (weeklyInsights st))
          (gen_random_uuid st) (drawn st).

End Request.
End Storage.

(** ** Exceptions *)

(** Result of an [async] call: a value, or a thrown error with its message. *)
Inductive Outcome (A : Type) : Type :=
| Returned : A -> Outcome A
| Thrown : string -> Outcome A.
Arguments Returned {A} _.
Arguments Thrown {A} _.

Definition bind {A B : Type} (c : Outcome A) (k : A -> Outcome B) : Outcome B :=
  match c with
  | Returned a => k a
  | Thrown e => Thrown e
  end.

(** [try { c } catch (error) { handler(error) }] *)
Definition tryCatch {A : Type} (c : Outcome A) (handler : string -> A) : A :=
  match c with
  | Returned a => a
  | Thrown e => handler e
  end.

Declare Scope outcome_scope.
Delimit Scope outcome_scope with outcome.
Notation "x <- c ;; k" := (bind c (fun x => k))
  (at level 61, c at next level, right associativity) : outcome_scope.

(** [s || d] on a string that may be missing. *)
Definition orText (s : option string) (d : string) : string :=
  match s with
  | None => d
  | Some EmptyString => d
  | Some t => t
  end.

(** ** server/gemini.ts *)

Module Gemini.

(** The object decoded from the provider's sentiment reply. A property that
    is missing or falsy is [None]. The two numbers are carried as the decimal
    text of their clamped values ([Math.max(-1, Math.min(1, score || 0))]
    and its sibling): floating-point arithmetic is not modelled. *)
Record SentimentJson : Type := mkSentimentJson {
  jsonScore : string;
  jsonLabel : option string;
  jsonMood : option string;
  jsonConfidence : string
}.

Record WeeklyJson : Type := mkWeeklyJson {
  jsonInsights : option string;
  jsonMoodTrend : option string;
  jsonThemes : option (list string);
  jsonRecommendations : option (list string)
}.

(** [genai.models.generateContent] followed by the clean-up of code fences
    and [JSON.parse], for three of the prompts; each may throw. *)
Record Provider : Type := mkProvider {
  sentimentReply : string -> Outcome SentimentJson;
  themesReply : list string -> Outcome (option (list string));
  weeklyReply : list (string * string * Z) -> Outcome WeeklyJson
}.

Record SentimentResult : Type := mkSentimentResult {
  score : string;
  label : string;
  mood : string;
  confidence : string
}.

Record WeeklyInsightResult : Type := mkWeeklyInsightResult {
  insights : string;
  moodTrend : string;
  themes : list string;
  recommendations : list string
}.

Section Client.
Variable ai : Provider.

(** The [catch] of each operation logs and rethrows. *)
Definition analyzeSentiment (content : string) : Outcome SentimentResult :=
  match sentimentReply ai content with
  | Returned result =>
      Returned (mkSentimentResult
                  (jsonScore result)
                  (orText (jsonLabel result) "neutral")
                  (orText (jsonMood result) "neutral")
                  (jsonConfidence result))
  | Thrown error => Thrown error
  end.

Definition extractThemes (entries : list (string * Z)) : Outcome (list string) :=
  match entries with
  | [] => Returned []
  | _ =>
      match themesReply ai (map fst entries) with
      | Returned (Some themes) => Returned themes
      | Returned None => Returned []
      | Thrown error => Thrown error
      end
  end.

Definition generateWeeklyInsight (entries : list (string * string * Z))
  : Outcome WeeklyInsightResult :=
  match entries with
  | [] =>
      Returned (mkWeeklyInsightResult
                  "No entries this week to analyze."
                  "No data"
                  []
                  ["Start journaling to track your progress!"])
  | _ =>
      match weeklyReply ai entries with
      | Returned result =>
          Returned (mkWeeklyInsightResult
                      (orText (jsonInsights result)
                              "Your journaling journey is developing beautifully.")
                      (orText (jsonMoodTrend result) "Stable")
                      (match jsonThemes result with
                       | Some t => t
                       | None => []
                       end)
                      (match jsonRecommendations result with
                       | Some r => r
                       | None => ["Keep writing regularly to track your growth."]
                       end))
      | Thrown error => Thrown error
      end
  end.

End Client.
End Gemini.

(** ** server/routes.ts *)

(** [req.body] of [POST /api/journal-entries], already decoded; a property
    may be missing. The schema requires [content]. *)
Module EntryBody.
Record t : Type := mk {
  title : option string;
  content : option string;
  wordCount : option Z;
  sentimentScore : option string;
  sentimentLabel : option string;
  aiPrompt : option string;
  mood : option string;
  themes : option (list string);
  isCompleted : option bool
}.
End EntryBody.

(** What [res.json(...)] is given. *)
Inductive Json : Type :=
| JsonEntry : JournalEntry.t -> Json
| JsonInsight : WeeklyInsight.t -> Json
| JsonMessage : string -> Json
| JsonUndefined : Json.

Record Response : Type := mkResponse {
  status : Z;
  json : Json
}.

Module Routes.
Import JsString.

(** [text.trim().split(/\s+/).filter(word => word.length > 0).length] *)
Definition countWords (text : string) : Z :=
  Z.of_nat (length (filter (fun word => negb (String.eqb word EmptyString))
                           (split_ws (trim text)))).

(** [insertJournalEntrySchema.parse({ ...req.body, userId })] *)
Definition parseEntry (body : EntryBody.t) (userId : string)
  : Outcome InsertJournalEntry.t :=
  match EntryBody.content body with
  | None => Thrown "content: Required"
  | Some content =>
      Returned (InsertJournalEntry.mk
                  userId
                  (EntryBody.title body)
                  content
                  (EntryBody.wordCount body)
                  (EntryBody.sentimentScore body)
                  (EntryBody.sentimentLabel body)
                  (EntryBody.aiPrompt body)
                  (EntryBody.mood body)
                  (EntryBody.themes body)
                  (EntryBody.isCompleted body))
  end.

Definition withWordCount (e : InsertJournalEntry.t) (wordCount : Z)
  : InsertJournalEntry.t :=
  InsertJournalEntry.mk
    (InsertJournalEntry.userId e) (InsertJournalEntry.title e)
    (InsertJournalEntry.content e) (Some wordCount)
    (InsertJournalEntry.sentimentScore e) (InsertJournalEntry.sentimentLabel e)
    (InsertJournalEntry.aiPrompt e) (InsertJournalEntry.mood e)
    (InsertJournalEntry.themes e) (InsertJournalEntry.isCompleted e).

(** The four assignments to [entryData] of either branch of the analysis. *)
Definition withAnalysis (e : InsertJournalEntry.t)
  (sentimentScore sentimentLabel mood : string) (themes : list string)
  : InsertJournalEntry.t :=
  InsertJournalEntry.mk
    (InsertJournalEntry.userId e) (InsertJournalEntry.title e)
    (InsertJournalEntry.content e) (InsertJournalEntry.wordCount e)
    (Some sentimentScore) (Some sentimentLabel)
    (InsertJournalEntry.aiPrompt e) (Some mood)
    (Some themes) (InsertJournalEntry.isCompleted e).

(** Number to text inside a template string, for an integer. *)
Definition showZ (n : Z) : string := NilZero.string_of_int (Z.to_int n).

(** [Math.round(sum / count)] for integers with [count > 0]: the quotient
    rounded to the nearest integer, halves upwards. *)
Definition roundDiv (sum count : Z) : Z := (2 * sum + count) / (2 * count).

(** [entry.mood || 'neutral'] *)
Definition moodOf (entry : JournalEntry.t) : string :=
  orText (JournalEntry.mood entry) "neutral".

(** [acc[key] = (acc[key] || 0) + 1] on an object used as a count table; the
    properties are kept in the order of their creation, which is the order
    of [Object.keys] for keys that are not array indices. This is the table
    for keys that are neither array indices nor names that every object
    inherits ([constructor], [toString], [__proto__], ...): see [plainKey]. *)
Fixpoint bump (key : string) (acc : list (string * Z)) : list (string * Z) :=
  match acc with
  | [] => [(key, 1)]
  | (k, n) :: rest =>
      if String.eqb k key then (k, n + 1) :: rest
      else (k, n) :: bump key rest
  end.

Definition moodCounts (completedEntries : list JournalEntry.t) : list (string * Z) :=
  fold_left (fun acc entry => bump (moodOf entry) acc) completedEntries [].

(** [moodCounts[key]] *)
Fixpoint countOf (counts : list (string * Z)) (key : string) : option Z :=
  match counts with
  | [] => None
  | (k, n) :: rest => if String.eqb k key then Some n else countOf rest key
  end.

(** [a > b] where either side may be [undefined]. *)
Definition greater (a b : option Z) : bool :=
  match a, b with
  | Some x, Some y => x >? y
  | _, _ => false
  end.

(** [Object.keys(moodCounts).reduce((a, b) => moodCounts[a] > moodCounts[b] ? a : b)] *)
Definition dominantMood (counts : list (string * Z)) : Outcome string :=
  match map fst counts with
  | [] => Thrown "Reduce of empty array with no initial value"
  | first :: rest =>
      Returned (fold_left
                  (fun a b => if greater (countOf counts a) (countOf counts b)
                              then a else b)
                  rest first)
  end.

Section Handlers.
Variable ai : Gemini.Provider.
(** The mean of [parseFloat(entry.sentimentScore || '0')] over the entries,
    as the text that [toString()] gives: floating point, left abstract. *)
Variable averageText : list (option string) -> string.
Variable tz : Z.
Variable now : Z.

Local Open Scope outcome_scope.

(** The inner [try] of the POST handler and its [catch]. *)
Definition analyzeNewEntry (st : Store) (userId : string)
  (entryData : InsertJournalEntry.t) : InsertJournalEntry.t :=
  let content := InsertJournalEntry.content entryData in
  tryCatch
    (sentiment <- Gemini.analyzeSentiment ai content ;;
     (* Extract themes from recent entries including this one *)
     let recentEntries := Storage.getUserJournalEntries st userId 5 in
     let allEntries :=
       (content, now)
         :: map (fun entry => (JournalEntry.content entry, JournalEntry.createdAt entry))
                recentEntries in
     themes <- Gemini.extractThemes ai allEntries ;;
     Returned (withAnalysis entryData
                 (Gemini.score sentiment) (Gemini.label sentiment)
                 (Gemini.mood sentiment) themes))
    (fun _ =>
       (* Use simple keyword-based mood detection as fallback *)
       let mood := Fallbacks.detectMoodFromKeywords content in
       withAnalysis entryData "0" mood mood []).

(** [app.post("/api/journal-entries", ...)] for the authenticated [userId]. *)
Definition postJournalEntry (st : Store) (userId : string) (body : EntryBody.t)
  : Response * Store :=
  match parseEntry body userId with
  | Thrown _ => (mkResponse 500 (JsonMessage "Failed to create journal entry"), st)
  | Returned parsed =>
      (* Calculate word count *)
      let wordCount := countWords (InsertJournalEntry.content parsed) in
      let entryData := withWordCount parsed wordCount in
      (* Analyze sentiment if content is substantial *)
      let entryData :=
        if wordCount >? 10 then analyzeNewEntry st userId entryData
        else entryData in
      let (entry, st') := Storage.createJournalEntry tz now st entryData in
      (mkResponse 200 (JsonEntry entry), st')
  end.

Definition setWordCount (u : EntryPatch.t) (wordCount : Z) : EntryPatch.t :=
  EntryPatch.mk
    (EntryPatch.userId u) (EntryPatch.title u) (EntryPatch.content u)
    (Value wordCount)
    (EntryPatch.sentimentScore u) (EntryPatch.sentimentLabel u)
    (EntryPatch.aiPrompt u) (EntryPatch.mood u) (EntryPatch.themes u)
    (EntryPatch.isCompleted u).

Definition setSentiment (u : EntryPatch.t) (sentiment : Gemini.SentimentResult)
  : EntryPatch.t :=
  EntryPatch.mk
    (EntryPatch.userId u) (EntryPatch.title u) (EntryPatch.content u)
    (EntryPatch.wordCount u)
    (Value (Gemini.score sentiment)) (Value (Gemini.label sentiment))
    (EntryPatch.aiPrompt u) (Value (Gemini.mood sentiment)) (EntryPatch.themes u)
    (EntryPatch.isCompleted u).

(** The part of the PATCH handler between the ownership check and the
    update: it may throw, out of [analyzeSentiment]. *)
Definition prepareUpdate (existingEntry : JournalEntry.t) (updateData : EntryPatch.t)
  : Outcome EntryPatch.t :=
  match EntryPatch.content updateData with
  | None | Some EmptyString => Returned updateData
  | Some content =>
      (* Recalculate word count if content changed *)
      let wordCount := countWords content in
      let updateData := setWordCount updateData wordCount in
      (* Re-analyze sentiment for substantial changes *)
      if (wordCount >? 10)
         && negb (String.eqb content (JournalEntry.content existingEntry))
      then
        sentiment <- Gemini.analyzeSentiment ai content ;;
        Returned (setSentiment updateData sentiment)
      else Returned updateData
  end.

(** [app.patch("/api/journal-entries/:id", ...)] *)
Definition patchJournalEntry (st : Store) (userId entryId : string)
  (body : EntryPatch.t) : Response * Store :=
  (* Verify ownership *)
  match Storage.getJournalEntry st entryId with
  | None => (mkResponse 404 (JsonMessage "Entry not found"), st)
  | Some existingEntry =>
      if negb (String.eqb (JournalEntry.userId existingEntry) userId) then
        (mkResponse 404 (JsonMessage "Entry not found"), st)
      else
        match prepareUpdate existingEntry body with
        | Thrown _ =>
            (mkResponse 500 (JsonMessage "Failed to update journal entry"), st)
        | Returned updateData =>
            match Storage.updateJournalEntry tz now st entryId updateData with
            | (Some entry, st') => (mkResponse 200 (JsonEntry entry), st')
            | (None, st') => (mkResponse 200 JsonUndefined, st')
            end
        end
  end.

(** [app.delete("/api/journal-entries/:id", ...)] *)
Definition deleteJournalEntryRoute (st : Store) (userId entryId : string)
  : Response * Store :=
  (* Verify ownership *)
  match Storage.getJournalEntry st entryId with
  | None => (mkResponse 404 (JsonMessage "Entry not found"), st)
  | Some existingEntry =>
      if negb (String.eqb (JournalEntry.userId existingEntry) userId) then
        (mkResponse 404 (JsonMessage "Entry not found"), st)
      else
        let st' := Storage.deleteJournalEntry st entryId in
        (mkResponse 200 (JsonMessage "Entry deleted successfully"), st')
  end.

(** The two ways of replacing the week's insight: delete the stored one,
    if any, then insert. *)
Definition replaceInsight (st : Store) (insight : option WeeklyInsight.t)
  (fresh : InsertWeeklyInsight.t) : WeeklyInsight.t * Store :=
  let st1 :=
    match insight with
    | Some old => Storage.deleteWeeklyInsight st (WeeklyInsight.id old)
    | None => st
    end in
  Storage.createWeeklyInsight now st1 fresh.

(** [app.get("/api/insights/weekly", ...)] *)
Definition weeklyInsightRoute (st : Store) (userId : string) : Response * Store :=
  let weekStart := Clock.startOfDay tz (Clock.addDays now (- Clock.getDay tz now)) in
  (* Check for existing insight *)
  let insight := Storage.getWeeklyInsight st userId weekStart in
  let weekEnd := Clock.endOfDay tz (Clock.addDays weekStart 6) in
  let weekEntries := Storage.getJournalEntriesByDateRange st userId weekStart weekEnd in
  let completedEntries :=
    filter (fun entry => truthy (JournalEntry.isCompleted entry)) weekEntries in
  let entryCount := Z.of_nat (length completedEntries) in
  let stale :=
    match insight with
    | None => true
    | Some stored => entryCount >? orZero (WeeklyInsight.entryCount stored)
    end in
  let (insight, st') :=
    if stale && (entryCount >? 0) then
      let (fresh, st') :=
        tryCatch
          (_ <- Gemini.extractThemes ai
                  (map (fun entry => (JournalEntry.content entry,
                                      JournalEntry.createdAt entry))
                       completedEntries) ;;
           weeklyData <- Gemini.generateWeeklyInsight ai
                  (map (fun entry => (JournalEntry.content entry, moodOf entry,
                                      JournalEntry.createdAt entry))
                       completedEntries) ;;
           let averageSentiment :=
             averageText (map JournalEntry.sentimentScore completedEntries) in
           dominant <- dominantMood (moodCounts completedEntries) ;;
           Returned
             (replaceInsight st insight
                (InsertWeeklyInsight.mk userId weekStart weekEnd
                   (Some (Gemini.insights weeklyData))
                   (Some (Gemini.themes weeklyData))
                   (Some dominant)
                   (Some averageSentiment)
                   (Some entryCount))))
          (fun _ =>
             let avgWordCount :=
               roundDiv (fold_left (fun sum e => sum + orZero (JournalEntry.wordCount e))
                                   completedEntries 0)
                        entryCount in
             replaceInsight st insight
               (InsertWeeklyInsight.mk userId weekStart weekEnd
                  (Some ("You wrote " ++ showZ entryCount
                         ++ " entries this week with an average of "
                         ++ showZ avgWordCount
                         ++ " words. Your journaling shows thoughtful reflection on your experiences."))
                  (Some ["personal reflection"; "self-awareness"])
                  (Some "Reflective")
                  (Some "0")
                  (Some entryCount)))
      in (Some fresh, st')
    else (insight, st) in
  (mkResponse 200
     (match insight with
      | Some stored => JsonInsight stored
      | None => JsonUndefined
      end),
   st').

End Handlers.
End Routes.

(** ** Notions used in the statements *)

(** The sum of [wordCount], [null] counting for 0, over a list of entries. *)
Definition sumWordCounts (entries : list JournalEntry.t) : Z :=
  fold_right (fun entry acc => orZero (JournalEntry.wordCount entry) + acc) 0 entries.


(** The aggregates of a user row. *)
Definition aggregates (u : User.t)
  : option Z * option Z * option Z * option Z * option Z :=
  (User.currentStreak u, User.longestStreak u, User.totalEntries u,
   User.wordsWritten u, User.lastEntryDate u).

(** The four derived fields of an entry. *)
Definition analysisFields (e : JournalEntry.t)
  : option string * option string * option string * option (list string) :=
  (JournalEntry.sentimentScore e, JournalEntry.sentimentLabel e,
   JournalEntry.mood e, JournalEntry.themes e).

(** The values of a 32-bit [integer] column. *)
Definition int32 (n : Z) : Prop := -2147483648 <= n <= 2147483647.

(** Whether the aggregates of the user fit the [integer] columns of the
    users table: the sum of the word counts, and the number of entries,
    which bounds [totalEntries] and both streaks. Otherwise the [UPDATE] of
    [updateUserStats] is rejected and the row keeps its former values. *)
Definition aggregatesFit (st : Store) (userId : string) : Prop :=
  int32 (sumWordCounts (Storage.entriesOf st userId))
  /\ int32 (Z.of_nat (length (Storage.entriesOf st userId))).

(** Whether a word count that a request may carry fits its column. *)
Definition wordCountFits (wordCount : option Z) : Prop :=
  match wordCount with
  | Some n => int32 n
  | None => True
  end.

(** A text column takes every character but NUL. *)
Fixpoint noNul (s : string) : bool :=
  match s with
  | EmptyString => true
  | String c rest => negb (Ascii.eqb c Ascii.zero) && noNul rest
  end.

Definition optNoNul (s : option string) : bool :=
  match s with
  | Some text => noNul text
  | None => true
  end.

Definition isDigit (c : ascii) : bool :=
  (48 <=? JsString.code c) && (JsString.code c <=? 57).

(** A decimal with one digit before the point and at most two behind it:
    such a text fits a [decimal(3,2)] column whatever its digits are. *)
Definition unsignedDecimal (s : string) : bool :=
  match s with
  | String d EmptyString => isDigit d
  | String d (String "." (String a EmptyString)) => isDigit d && isDigit a
  | String d (String "." (String a (String b EmptyString))) =>
      isDigit d && isDigit a && isDigit b
  | _ => false
  end.

Definition decimalText (s : string) : bool :=
  match s with
  | String "-" rest => unsignedDecimal rest
  | _ => unsignedDecimal s
  end.

Definition scoreStorable (score : option string) : bool :=
  match score with
  | Some text => decimalText text
  | None => true
  end.

(** What the table [journal_entries] requires of the values of a row; the
    score may also be any other numeric text of magnitude below 9.995, this
    is the part of them that needs no arithmetic. *)
Definition rowStorable (row : JournalEntry.t) : Prop :=
  noNul (JournalEntry.content row) = true
  /\ optNoNul (JournalEntry.title row) = true
  /\ optNoNul (JournalEntry.sentimentLabel row) = true
  /\ optNoNul (JournalEntry.aiPrompt row) = true
  /\ optNoNul (JournalEntry.mood row) = true
  /\ match JournalEntry.themes row with
     | Some themes => forallb noNul themes = true
     | None => True
     end
  /\ scoreStorable (JournalEntry.sentimentScore row) = true
  /\ wordCountFits (JournalEntry.wordCount row).

(** Whether the database accepts what a request writes, given the answer
    and the store that the handler computes: the row it writes is
    storable, its owner is a stored user (the foreign key), and the
    aggregates recomputed for the owner fit their columns. A request that
    writes no entry asks nothing of the database. *)
Definition databaseAccepts (r : Response * Store) : Prop :=
  match json (fst r) with
  | JsonEntry row =>
      rowStorable row
      /\ Storage.getUser (snd r) (JournalEntry.userId row) <> None
      /\ aggregatesFit (snd r) (JournalEntry.userId row)
  | _ => True
  end.

(** ** The case of letters, stated apart from [toLowerCase] *)

(** The capital letters among the code units below 256, each with its small
    letter 32 places on: A to Z (65..90), and the Latin-1 capitals 192..214
    and 216..222 (215 is the multiplication sign). *)
Definition letterPairs : list (ascii * ascii) :=
  map (fun n => (ascii_of_nat n, ascii_of_nat (n + 32)))
      (seq 65 26 ++ seq 192 23 ++ seq 216 7)%list.

(** Two characters that are the same letter, in whatever case. *)
Definition caseVariant (a b : ascii) : bool :=
  Ascii.eqb a b
  || existsb (fun p => (Ascii.eqb a (fst p) && Ascii.eqb b (snd p))
                       || (Ascii.eqb a (snd p) && Ascii.eqb b (fst p)))
             letterPairs.

(** Two texts that differ at most in the case of their letters. *)
Fixpoint sameLetters (s t : string) : bool :=
  match s, t with
  | EmptyString, EmptyString => true
  | String a s', String b t' => caseVariant a b && sameLetters s' t'
  | _, _ => false
  end.

(** All the characters. *)
Definition allAscii : list ascii := map ascii_of_nat (seq 0 256).

(** The result of the classifier as a function of its three counts. *)
Definition moodOfCounts (positiveCount negativeCount neutralCount : Z) : string :=
  if (positiveCount >? negativeCount) && (positiveCount >? neutralCount) then "positive"
  else if (negativeCount >? positiveCount) && (negativeCount >? neutralCount) then "negative"
  else if (negativeCount >? 0) && (positiveCount =? 0) then "anxious"
  else if (positiveCount >? 0) && (negativeCount =? 0) then "content"
  else "neutral".

(** Newest first. *)
Definition Descending : list JournalEntry.t -> Prop :=
  StronglySorted (fun a b => JournalEntry.createdAt b <= JournalEntry.createdAt a).

(** Calendar day of an entry, and of the request. *)
Definition day (tz : Z) (e : JournalEntry.t) : Z :=
  Clock.dayIndex tz (JournalEntry.createdAt e).

Definition today (tz now : Z) : Z := Clock.dayIndex tz now.

(** Whether the day of [e] is today or yesterday. *)
Definition recent (tz now : Z) (e : JournalEntry.t) : bool :=
  (day tz e =? today tz now) || (day tz e =? today tz now - 1).

(** ** Concrete histories *)

Module Examples.

Definition uuid (n : nat) : string := "uuid-" ++ Routes.showZ (Z.of_nat n).

(** 2024-01-01T00:00:00Z, and an instant of the [k]-th day after it. *)
Definition jan1 : Z := 1704067200000.
Definition hour : Z := 1000 * 60 * 60.
Definition at_ (k h : Z) : Z := jan1 + k * Clock.msPerDay + h * hour.

Definition alice : User.t :=
  User.mk "alice" (Some 0) (Some 0) (Some 0) (Some 0) None None.

Definition entryOn (id : string) (createdAt : Z) (isCompleted : bool) (wordCount : Z)
  : JournalEntry.t :=
  JournalEntry.mk id "alice" None "a day worth some words" (Some wordCount)
                  None None None None None (Some isCompleted) createdAt (Some createdAt).

Definition storeOf (rows : list JournalEntry.t) : Store :=
  mkStore [alice] rows [] uuid (length rows).

(** One completed entry on each of 2024-01-01, 2024-01-02, 2024-01-03. *)
Definition threeDays : Store :=
  storeOf [entryOn "e1" (at_ 0 12) true 5;
           entryOn "e2" (at_ 1 12) true 5;
           entryOn "e3" (at_ 2 12) true 5].

(** 2024-01-03T18:00:00Z *)
Definition jan3evening : Z := at_ 2 18.

(** Days d, d+1, d+1, d+2 with d = 2024-01-01. *)
Definition doubledDay : Store :=
  storeOf [entryOn "e1" (at_ 0 12) true 5;
           entryOn "e2" (at_ 1 9) true 5;
           entryOn "e3" (at_ 1 21) true 5;
           entryOn "e4" (at_ 2 12) true 5].


(** A provider that is down: every call throws. *)
Definition providerDown : Gemini.Provider :=
  Gemini.mkProvider (fun _ => Thrown "503 Service Unavailable")
                    (fun _ => Thrown "503 Service Unavailable")
                    (fun _ => Thrown "503 Service Unavailable").

Definition emptyStore : Store := mkStore [alice] [] [] uuid 0.

Definition shortBody : EntryBody.t :=
  EntryBody.mk None (Some "Walked by the river") None None None None None None
               (Some true).

(** The store after alice has posted [shortBody] on 2024-01-03. *)
Definition afterPost : Store :=
  snd (Routes.postJournalEntry providerDown 0 jan3evening emptyStore "alice" shortBody).

Definition longText : string :=
  "Today I walked by the river and thought about my work and family".

Definition noPatch : EntryPatch.t :=
  EntryPatch.mk None Absent None Absent Absent Absent Absent Absent Absent Absent.

Definition contentPatch (content : string) : EntryPatch.t :=
  EntryPatch.mk None Absent (Some content) Absent Absent Absent Absent Absent
                Absent Absent.

(** An analysed entry of alice. *)
Definition analysed : JournalEntry.t :=
  JournalEntry.mk "e1" "alice" None longText (Some 13)
                  (Some "0.8") (Some "positive") None (Some "happy")
                  (Some ["work"; "family"]) (Some true) (at_ 2 9) (Some (at_ 2 9)).

Definition analysedStore : Store := storeOf [analysed].

End Examples.

(** ** Words and white space *)

(** Every character of [s] is white space. *)
Fixpoint allSpace (s : string) : bool :=
  match s with
  | EmptyString => true
  | String c rest => JsString.isSpace c && allSpace rest
  end.

(** The number of places of [s] where a word starts: a character that is
    not white space and follows white space, or the start of the text when
    [inWord] is [false]. *)
Fixpoint wordStarts (s : string) (inWord : bool) : nat :=
  match s with
  | EmptyString => O
  | String c rest =>
      if JsString.isSpace c then wordStarts rest false
      else ((if inWord then 0 else 1) + wordStarts rest true)%nat
  end.

(** The number of maximal runs of characters that are not white space. *)
Definition wordRuns (s : string) : nat := wordStarts s false.

(** Whether a piece of text holds a character. *)
Definition started (cur : string) : bool := negb (String.eqb cur "").

(** All the keywords of the three lexicons. *)
Definition lexicon : list string :=
  (Fallbacks.positiveWords ++ Fallbacks.negativeWords ++ Fallbacks.neutralWords)%list.

(** ** Bounds kept by the streak walk *)

(** After [k] entries: [currentStreak] is between 0 and the longest run seen
    so far, no run is longer than [k], and before the first entry nothing is
    set. *)
Definition streakBounded (s : Streak.t) (k : Z) : Prop :=
  0 <= Streak.currentStreak s
  /\ Streak.currentStreak s <= Z.max (Streak.longestStreak s) (Streak.streakCount s)
  /\ 0 <= Streak.longestStreak s <= k
  /\ 0 <= Streak.streakCount s <= k
  /\ (Streak.lastDate s = None -> Streak.currentStreak s = 0)
  /\ (Streak.lastDate s <> None -> 1 <= Streak.streakCount s).

(** ** More concrete data *)

Module Samples.

(** A provider that answers every call. *)
Definition providerUp : Gemini.Provider :=
  Gemini.mkProvider
    (fun _ => Returned (Gemini.mkSentimentJson "0.6" (Some "positive") None "0.9"))
    (fun _ => Returned (Some ["nature"; "family"]))
    (fun _ => Returned (Gemini.mkWeeklyJson (Some "A steady week.") None
                                            (Some ["nature"]) None)).

(** The entry [e1] of alice, not yet analysed, with a short text. *)
Definition plain : JournalEntry.t :=
  JournalEntry.mk "e1" "alice" None "Walked by the river" (Some 4)
                  None None None None (Some ["old theme"]) (Some true)
                  (Examples.at_ 2 9) (Some (Examples.at_ 2 9)).

Definition plainStore : Store := Examples.storeOf [plain].

(** An analysed entry of alice, with the score as the column gives it. *)
Definition scored : JournalEntry.t :=
  JournalEntry.mk "e1" "alice" None Examples.longText (Some 13)
                  (Some "0.80") (Some "positive") None (Some "happy")
                  (Some ["work"; "family"]) (Some true)
                  (Examples.at_ 2 9) (Some (Examples.at_ 2 9)).

Definition scoredStore : Store := Examples.storeOf [scored].

End Samples.

(** ** The week of a request *)

(** Start and end of the week of [now], as the weekly route computes them. *)
Definition weekStartOf (tz now : Z) : Z :=
  Clock.startOfDay tz (Clock.addDays now (- Clock.getDay tz now)).

Definition weekEndOf (tz now : Z) : Z :=
  Clock.endOfDay tz (Clock.addDays (weekStartOf tz now) 6).

(** The completed entries of the user in that week. *)
Definition weekCompleted (tz now : Z) (st : Store) (userId : string)
  : list JournalEntry.t :=
  filter (fun entry => truthy (JournalEntry.isCompleted entry))
         (Storage.getJournalEntriesByDateRange st userId
            (weekStartOf tz now) (weekEndOf tz now)).

(** Whether the weekly route of a request at [now] regenerates the insight:
    none is stored or the week has more completed entries than the stored
    one counts, and the week has a completed entry. *)
Definition regenerates (tz now : Z) (st : Store) (userId : string) : bool :=
  match Storage.getWeeklyInsight st userId (weekStartOf tz now) with
  | None => true
  | Some stored =>
      Z.of_nat (length (weekCompleted tz now st userId))
        >? orZero (WeeklyInsight.entryCount stored)
  end
  && (Z.of_nat (length (weekCompleted tz now st userId)) >? 0).

(** What the weekly route answers for an insight that may be missing. *)
Definition insightJson (insight : option WeeklyInsight.t) : Json :=
  match insight with
  | Some stored => JsonInsight stored
  | None => JsonUndefined
  end.

(** Whether a row is an insight of the user for the week starting at
    [weekStart]. *)
Definition insightFor (userId : string) (weekStart : Z) (row : WeeklyInsight.t) : bool :=
  String.eqb (WeeklyInsight.userId row) userId
  && (WeeklyInsight.weekStart row =? weekStart).

(** All the insights stored for the user and the week carry one id. *)
Definition insightsUnique (st : Store) (userId : string) (weekStart : Z) : Prop :=
  forall r1 r2,
    In r1 (weeklyInsights st) -> In r2 (weeklyInsights st) ->
    insightFor userId weekStart r1 = true ->
    insightFor userId weekStart r2 = true ->
    WeeklyInsight.id r1 = WeeklyInsight.id r2.

(** The mood an entry counts for in the weekly insight: its [mood], and
    [neutral] when that is unset or empty. *)
Definition moodLabel (entry : JournalEntry.t) : string :=
  match JournalEntry.mood entry with
  | None => "neutral"
  | Some mood => if String.eqb mood "" then "neutral" else mood
  end.

(** The number of entries that count for [mood]. *)
Definition moodOccurrences (mood : string) (entries : list JournalEntry.t) : Z :=
  Z.of_nat (length (filter (fun entry => String.eqb (moodLabel entry) mood) entries)).

(** The property names that every object inherits from [Object.prototype]. *)
Definition inheritedNames : list string :=
  ["constructor"; "__defineGetter__"; "__defineSetter__"; "hasOwnProperty";
   "__lookupGetter__"; "__lookupSetter__"; "isPrototypeOf"; "propertyIsEnumerable";
   "toString"; "valueOf"; "__proto__"; "toLocaleString"].

Definition startsWithDigit (s : string) : bool :=
  match s with
  | EmptyString => false
  | String c _ => (48 <=? JsString.code c) && (JsString.code c <=? 57)
  end.

(** A key for which an object literal behaves as a table in the order of
    creation: it is not an inherited name, and it does not start with a
    digit, so it is no array index ([Object.keys] lists those first). *)
Definition plainKey (key : string) : bool :=
  negb (startsWithDigit key) && negb (existsb (String.eqb key) inheritedNames).

(** Entries with the moods happy, sad, sad, happy, in that order. *)
Module Moods.

Definition withMood (id mood : string) : JournalEntry.t :=
  JournalEntry.mk id "alice" None "a day" (Some 2) None None None (Some mood) None
                  (Some true) (Examples.at_ 2 9) None.

Definition tied : list JournalEntry.t :=
  [withMood "e1" "happy"; withMood "e2" "sad"; withMood "e3" "sad";
   withMood "e4" "happy"].

(** An entry without a mood. *)
Definition unset : JournalEntry.t :=
  JournalEntry.mk "e0" "alice" None "a day" (Some 2) None None None None None
                  (Some true) (Examples.at_ 2 9) None.

End Moods.

(** ** The civil calendar of [Date]

    [Date] counts in the proleptic Gregorian calendar. The day number of a
    local date is [Clock.dayIndex]; day 0 is 1970-01-01. *)

Module Calendar.

(** Leap years among the years 1 .. [y]. *)
Definition leapsThrough (y : Z) : Z := y / 4 - y / 100 + y / 400.

(** Day number of the first of January of the year [y]. *)
Definition daysBeforeYear (y : Z) : Z :=
  365 * (y - 1970) + (leapsThrough (y - 1) - leapsThrough 1969).

(** The year that holds day [d]: an estimate from the mean length of a
    year, which is off by at most one, then set right. *)
Definition yearOfDay (d : Z) : Z :=
  let y := 1970 + (400 * d) / 146097 in
  if d <? daysBeforeYear y then y - 1
  else if daysBeforeYear (y + 1) <=? d then y + 1
  else y.

Definition isLeap (y : Z) : bool :=
  ((y mod 4 =? 0) && negb (y mod 100 =? 0)) || (y mod 400 =? 0).

Definition monthLengths (y : Z) : list Z :=
  [31; if isLeap y then 29 else 28; 31; 30; 31; 30; 31; 31; 30; 31; 30; 31].

(** Month, from 0, and day of the month, from 1, of the day that comes
    [rest] days after the first day of the month [month], the months left in
    the year having the lengths [lengths]. *)
Fixpoint monthWalk (lengths : list Z) (month rest : Z) : Z * Z :=
  match lengths with
  | [] => (month, rest + 1)
  | n :: more =>
      if rest <? n then (month, rest + 1)
      else monthWalk more (month + 1) (rest - n)
  end.

Section Zone.
Variable tz : Z.

(** [d.getFullYear()], [d.getMonth()], [d.getDate()] *)
Definition getFullYear (t : Z) : Z := yearOfDay (Clock.dayIndex tz t).

Definition getMonth (t : Z) : Z :=
  let y := getFullYear t in
  fst (monthWalk (monthLengths y) 0 (Clock.dayIndex tz t - daysBeforeYear y)).

Definition getDate (t : Z) : Z :=
  let y := getFullYear t in
  snd (monthWalk (monthLengths y) 0 (Clock.dayIndex tz t - daysBeforeYear y)).

(** [new Date(year, 0, day).getTime()]: local midnight of the [day]-th of
    January, day 0 being the last day of the year before; a [year] from 0 to
    99 stands for 1900 + [year]. *)
Definition newDateJanuary (year day : Z) : Z :=
  let y := if (0 <=? year) && (year <=? 99) then 1900 + year else year in
  (daysBeforeYear y + (day - 1)) * Clock.msPerDay - tz.

End Zone.
End Calendar.

(** [array[i]] for a number [i] that is an integer: [None] is [undefined]. *)
Definition jsIndex {A : Type} (l : list A) (i : Z) : option A :=
  if i <? 0 then None else nth_error l (Z.to_nat i).

(** ** server/fallbacks.ts: the curated prompts *)

Module CuratedPrompt.
Record t : Type := mk {
  id : string;
  promptText : string;
  context : string
}.
End CuratedPrompt.

Module DailyFallback.

Definition getCuratedPrompts : list CuratedPrompt.t :=
  [CuratedPrompt.mk "prompt-1"
     "What moment from today am I most grateful for, and why did it stand out to me?"
     "Gratitude and reflection";
   CuratedPrompt.mk "prompt-2"
     "What challenge did I face today, and what did I learn about myself in dealing with it?"
     "Growth and resilience";
   CuratedPrompt.mk "prompt-3"
     "Describe a conversation I had today that made me think differently about something."
     "Perspective and connection";
   CuratedPrompt.mk "prompt-4"
     "What emotions am I carrying from today, and what might be causing them?"
     "Emotional awareness";
   CuratedPrompt.mk "prompt-5"
     "If I could give advice to someone having a day like mine, what would I tell them?"
     "Self-compassion and wisdom";
   CuratedPrompt.mk "prompt-6"
     "What small moment today brought me joy or peace, even if it was brief?"
     "Mindfulness and appreciation";
   CuratedPrompt.mk "prompt-7"
     "What am I looking forward to tomorrow, and how does that make me feel right now?"
     "Hope and anticipation";
   CuratedPrompt.mk "prompt-8"
     "Describe a pattern I've noticed in my thoughts or behaviors lately. Is it serving me?"
     "Self-awareness and growth";
   CuratedPrompt.mk "prompt-9"
     "What would I want to remember about this day five years from now?"
     "Perspective and significance";
   CuratedPrompt.mk "prompt-10"
     "How did I show kindness to myself or others today? How did it feel?"
     "Compassion and connection"].

(** [Math.floor((today.getTime() - new Date(today.getFullYear(), 0, 0).getTime())
    / (1000 * 60 * 60 * 24))], in a zone of fixed offset. Where the offset
    changes within the year the difference is an hour off for part of the
    year, and the quotient changes at 1:00 or 23:00 instead of midnight. *)
Definition dayOfYear (tz now : Z) : Z :=
  (now - Calendar.newDateJanuary tz (Calendar.getFullYear tz now) 0) / Clock.msPerDay.

(** [prompts[dayOfYear % prompts.length]]; [%] is the remainder that takes
    the sign of the dividend. *)
Definition getDailyPrompt (tz now : Z) : option CuratedPrompt.t :=
  let prompts := getCuratedPrompts in
  jsIndex prompts (Z.rem (dayOfYear tz now) (Z.of_nat (length prompts))).

End DailyFallback.

(** ** The prompts: schema, storage, generation and routes *)

Module AiPrompt.
Record t : Type := mk {
  id : string;
  userId : string;
  promptText : string;
  context : option string;
  isUsed : option bool;
  createdAt : Z
}.
End AiPrompt.

Module InsertAiPrompt.
Record t : Type := mk {
  userId : string;
  promptText : string;
  context : option string;
  isUsed : option bool
}.
End InsertAiPrompt.

(** The database with its [ai_prompts] table. *)
Record Db : Type := mkDb {
  base : Store;
  aiPrompts : list AiPrompt.t
}.

(** server/storage.ts, the AI prompt operations. *)
Module PromptStorage.

(** [orderBy(desc(aiPrompts.createdAt))], stable as for the entries. *)
Fixpoint insertDesc (x : AiPrompt.t) (l : list AiPrompt.t) : list AiPrompt.t :=
  match l with
  | [] => [x]
  | y :: rest =>
      if AiPrompt.createdAt x <? AiPrompt.createdAt y
      then y :: insertDesc x rest
      else x :: y :: rest
  end.

Definition sortDesc (l : list AiPrompt.t) : list AiPrompt.t :=
  fold_right insertDesc [] l.


(** The rows that [eq(userId, ...)] and [eq(isUsed, false)] keep. *)
Definition unusedOf (userId : string) (row : AiPrompt.t) : bool :=
  String.eqb (AiPrompt.userId row) userId
  && match AiPrompt.isUsed row with
     | Some false => true
     | _ => false
     end.

Definition getUnusedPromptForUser (db : Db) (userId : string) : option AiPrompt.t :=
  match firstn 1 (sortDesc (filter (unusedOf userId) (aiPrompts db))) with
  | prompt :: _ => Some prompt
  | [] => None
  end.

Definition markPromptAsUsed (db : Db) (promptId : string) : Db :=
  mkDb (base db)
       (map (fun row =>
               if String.eqb (AiPrompt.id row) promptId
               then AiPrompt.mk (AiPrompt.id row) (AiPrompt.userId row)
                                (AiPrompt.promptText row) (AiPrompt.context row)
                                (Some true) (AiPrompt.createdAt row)
               else row)
            (aiPrompts db)).

End PromptStorage.

(** Newest first, for prompts. *)
Definition PromptsDescending : list AiPrompt.t -> Prop :=
  StronglySorted (fun a b => AiPrompt.createdAt b <= AiPrompt.createdAt a).

(** server/gemini.ts, the prompt generators. *)
Module GeminiPrompts.

Record PromptJson : Type := mkPromptJson {
  jsonPrompt : option string;
  jsonCategory : option string;
  jsonTone : option string
}.

(** The provider behind the two generators: for the daily prompt it is
    given the user's history, for the personalised one the recent themes
    and moods, the only parts of the instruction that vary. *)
Record PromptProvider : Type := mkPromptProvider {
  dailyReply : list string -> Outcome PromptJson;
  personalReply : list string -> list string -> Outcome PromptJson
}.

Record DailyPrompt : Type := mkDailyPrompt {
  prompt : string;
  category : string;
  tone : string
}.

Definition fallbackPrompts : list DailyPrompt :=
  [mkDailyPrompt "What small decision surprised you today?" "Personal Growth" "reflective";
   mkDailyPrompt "What would you tell your past self right now?" "Personal Growth"
                 "reflective";
   mkDailyPrompt "When did you feel most 'you' today?" "Emotions" "mindful";
   mkDailyPrompt "What's sparking your curiosity lately?" "Creativity" "creative";
   mkDailyPrompt "Who deserves a thank you from you?" "Relationships" "gratitude"].

(** What a caller hands over for each recent entry. *)
Record UserEntry : Type := mkUserEntry {
  entryContent : string;
  entryMood : option string;
  entryThemes : option (list string)
}.

Section Generators.
Variable ai : PromptProvider.
Variable tz : Z.
Variable now : Z.

(** The result may be [undefined], as an array access is. *)
Definition generateDailyPrompt (userHistory : list string) : option DailyPrompt :=
  match dailyReply ai userHistory with
  | Returned result =>
      Some (mkDailyPrompt
              (orText (jsonPrompt result)
                      "What's something you've learned about yourself recently that surprised you?")
              (orText (jsonCategory result) "Personal Growth")
              (orText (jsonTone result) "reflective"))
  | Thrown _ =>
      (* Use current date to deterministically pick a fallback prompt *)
      let dayIndex :=
        Z.rem (Calendar.getDate tz now + Calendar.getMonth tz now)
              (Z.of_nat (length fallbackPrompts)) in
      jsIndex fallbackPrompts dayIndex
  end.

(** [entry.themes || []] over the entries, and [.filter(Boolean)] on moods. *)
Definition recentThemes (userEntries : list UserEntry) : list string :=
  firstn 10 (flat_map (fun entry => match entryThemes entry with
                                    | Some themes => themes
                                    | None => []
                                    end) userEntries).

Definition recentMoods (userEntries : list UserEntry) : list string :=
  firstn 5 (flat_map (fun entry => match entryMood entry with
                                   | None | Some EmptyString => []
                                   | Some mood => [mood]
                                   end) userEntries).

Definition generatePersonalizedPrompt (userEntries : list UserEntry)
  : option DailyPrompt :=
  match userEntries with
  | [] => generateDailyPrompt []
  | _ =>
      match personalReply ai (recentThemes userEntries) (recentMoods userEntries) with
      | Returned result =>
          Some (mkDailyPrompt
                  (orText (jsonPrompt result)
                          "What patterns do you notice in your recent thoughts and feelings, and what might they be telling you?")
                  (orText (jsonCategory result) "Personal Growth")
                  (orText (jsonTone result) "reflective"))
      | Thrown _ => generateDailyPrompt []
      end
  end.

End Generators.
End GeminiPrompts.

(** server/routes.ts, the prompt routes. *)
Inductive PromptJsonBody : Type :=
| PromptRow : AiPrompt.t -> PromptJsonBody
| PromptSuccess : PromptJsonBody
| PromptMessage : string -> PromptJsonBody.

Module PromptRoutes.

Section Handlers.
Variable ai : GeminiPrompts.PromptProvider.
Variable tz : Z.
Variable now : Z.




(** [app.post("/api/ai-prompts/:id/use", ...)] *)
Definition usePromptRoute (db : Db) (promptId : string) : (Z * PromptJsonBody) * Db :=
  ((200, PromptSuccess), PromptStorage.markPromptAsUsed db promptId).


End Handlers.
End PromptRoutes.

(** Concrete data for the prompts. *)
Module PromptSamples.

Definition providerDown : GeminiPrompts.PromptProvider :=
  GeminiPrompts.mkPromptProvider (fun _ => Thrown "503 Service Unavailable")
                                 (fun _ _ => Thrown "503 Service Unavailable").


End PromptSamples.

(** server/routes.ts, the search route. *)
Inductive SearchBody : Type :=
| SearchResults : list JournalEntry.t -> SearchBody
| SearchMessage : string -> SearchBody.

Module SearchRoute.
Import JsString.

(** The predicate given to [allEntries.filter]; a missing title or missing
    themes make their disjunct [undefined], which is falsy. *)
Definition matches (query : string) (entry : JournalEntry.t) : bool :=
  includes (toLowerCase (JournalEntry.content entry)) (toLowerCase query)
  || match JournalEntry.title entry with
     | Some title => includes (toLowerCase title) (toLowerCase query)
     | None => false
     end
  || match JournalEntry.themes entry with
     | Some themes =>
         existsb (fun theme => includes (toLowerCase theme) (toLowerCase query)) themes
     | None => false
     end.

(** [app.get("/api/search", ...)]; [q] is [req.query.q]. *)
Definition searchRoute (st : Store) (userId : string) (q : option string)
  : Z * SearchBody :=
  match q with
  | None | Some EmptyString => (400, SearchMessage "Search query is required")
  | Some query =>
      let allEntries := Storage.getUserJournalEntries st userId 100 in
      (200, SearchResults (filter (matches query) allEntries))
  end.

End SearchRoute.

(** [text] holds [query], the case of letters apart. *)
Definition holdsIgnoringCase (text query : string) : Prop :=
  exists pre found post,
    text = pre ++ found ++ post /\ sameLetters found query = true.

(** An entry that holds the query in its text, its title or a theme. *)
Definition mentions (query : string) (entry : JournalEntry.t) : Prop :=
  holdsIgnoringCase (JournalEntry.content entry) query
  \/ (exists title, JournalEntry.title entry = Some title
                    /\ holdsIgnoringCase title query)
  \/ (exists themes theme, JournalEntry.themes entry = Some themes
                           /\ In theme themes
                           /\ holdsIgnoringCase theme query).

(** * Properties *)

(** ** The keyword mood classifier *)

Module FallbacksFacts.
Import JsString Fallbacks.

Lemma prefix_app (word text : string) :
  String.prefix word text = true <-> exists post, text = word ++ post.
Proof.
  revert text. induction word as [|c word IH]; intros text.
  - destruct text; simpl; split; eauto.
  - destruct text as [|d text]; simpl.
    + split; [discriminate | intros [post H]; discriminate].
    + destruct (Ascii.ascii_dec c d) as [->|Hcd].
      * rewrite IH. split; intros [post H]; exists post.
        -- now rewrite H.
        -- now inversion H.
      * split; [discriminate | intros [post H]; inversion H; congruence].
Qed.

(** [includes] finds exactly the texts that hold [word] as a substring. *)
Lemma includes_substring (text word : string) :
  includes text word = true <-> exists pre post, text = pre ++ word ++ post.
Proof.
  induction text as [|c text IH]; cbn [includes].
  - destruct (String.prefix word "") eqn:Hp.
    + apply prefix_app in Hp. destruct Hp as [post Hp].
      split; [intros _; exists "", post; exact Hp | reflexivity].
    + split; [discriminate|]. intros [pre [post H]].
      destruct pre; simpl in H; [|discriminate].
      assert (String.prefix word "" = true) by (apply prefix_app; eauto).
      congruence.
  - destruct (String.prefix word (String c text)) eqn:Hp.
    + apply prefix_app in Hp. destruct Hp as [post Hp].
      split; [intros _; exists "", post; exact Hp | reflexivity].
    + rewrite IH. split.
      * intros [pre [post H]]. exists (String c pre), post. simpl. now rewrite H.
      * intros [pre [post H]]. destruct pre as [|d pre]; simpl in H.
        -- assert (String.prefix word (String c text) = true)
             by (apply prefix_app; eauto).
           congruence.
        -- inversion H. eauto.
Qed.

Lemma countHits_from (text : string) (words : list string) (start : Z) :
  fold_left (fun count word => if includes text word then count + 1 else count)
            words start
  = start + Z.of_nat (length (filter (includes text) words)).
Proof.
  revert start. induction words as [|w words IH]; intros start; simpl.
  - lia.
  - rewrite IH. destruct (includes text w); simpl length; lia.
Qed.

(** The loop counts the lexicon words that occur, each one once. *)
Lemma countHits_filter (text : string) (words : list string) :
  countHits text words = Z.of_nat (length (filter (includes text) words)).
Proof. unfold countHits. now rewrite countHits_from. Qed.

Lemma countHits_bounds (text : string) (words : list string) :
  0 <= countHits text words <= Z.of_nat (length words).
Proof.
  rewrite countHits_filter. pose proof (filter_length_le (includes text) words). lia.
Qed.

Lemma detectMood_counts (content : string) :
  detectMoodFromKeywords content
  = moodOfCounts (countHits (toLowerCase content) positiveWords)
                 (countHits (toLowerCase content) negativeWords)
                 (countHits (toLowerCase content) neutralWords).
Proof. reflexivity. Qed.

Lemma moodOfCounts_anxious (p n u : Z) :
  moodOfCounts p n u = "anxious" <-> (0 < n /\ p = 0 /\ n <= u).
Proof.
  unfold moodOfCounts.
  destruct (Z.gtb_spec p n), (Z.gtb_spec p u), (Z.gtb_spec n p), (Z.gtb_spec n u),
    (Z.gtb_spec n 0), (Z.eqb_spec p 0), (Z.gtb_spec p 0), (Z.eqb_spec n 0);
    simpl; split; intros Hm; try discriminate; try lia; try reflexivity.
Qed.

(** C6, as the specification states it, fails: the text is not tagged
    [anxious]. *)
Lemma C6_counterexample :
  detectMoodFromKeywords "I am stressed and anxious" <> "anxious".
Proof. vm_compute. discriminate. Qed.

(** C6 (amended): [detectMoodFromKeywords "I am stressed and anxious"] is
    [negative], because its two negative hits strictly exceed both the
    positive and the neutral count (0 each), and the [negative] rule comes
    before the [anxious] one; [anxious] is what a text gets exactly when it
    has negative hits, no positive hit, and at least as many neutral hits as
    negative ones. *)
Theorem C6_stressed_and_anxious_is_negative :
  detectMoodFromKeywords "I am stressed and anxious" = "negative"
  /\ countHits (toLowerCase "I am stressed and anxious") positiveWords = 0
  /\ countHits (toLowerCase "I am stressed and anxious") negativeWords = 2
  /\ countHits (toLowerCase "I am stressed and anxious") neutralWords = 0
  /\ forall content,
       detectMoodFromKeywords content = "anxious" <->
       (0 < countHits (toLowerCase content) negativeWords
        /\ countHits (toLowerCase content) positiveWords = 0
        /\ countHits (toLowerCase content) negativeWords
           <= countHits (toLowerCase content) neutralWords).
Proof.
  split; [reflexivity|]. split; [reflexivity|].
  split; [reflexivity|]. split; [reflexivity|].
  intros content. rewrite detectMood_counts. apply moodOfCounts_anxious.
Qed.

(** Every character is in the table of all characters. *)
Lemma allAscii_In (c : ascii) : In c allAscii.
Proof.
  unfold allAscii. rewrite <- (ascii_nat_embedding c). apply in_map, in_seq.
  pose proof (nat_ascii_bounded c). lia.
Qed.

(** [lowerChar] identifies exactly the case variants of a letter: it is a
    case folding of the code units below 256. *)
Lemma lowerChar_caseVariant (a b : ascii) :
  Ascii.eqb (lowerChar a) (lowerChar b) = caseVariant a b.
Proof.
  assert (H : forallb
                (fun x => forallb
                            (fun y => Bool.eqb (Ascii.eqb (lowerChar x) (lowerChar y))
                                               (caseVariant x y))
                            allAscii)
                allAscii = true) by (vm_compute; reflexivity).
  rewrite forallb_forall in H. specialize (H a (allAscii_In a)).
  rewrite forallb_forall in H. specialize (H b (allAscii_In b)).
  apply Bool.eqb_prop in H. exact H.
Qed.

Lemma toLowerCase_sameLetters (s t : string) :
  String.eqb (toLowerCase s) (toLowerCase t) = sameLetters s t.
Proof.
  revert t. induction s as [|a s IH]; intros [|b t]; simpl; try reflexivity.
  now rewrite lowerChar_caseVariant, IH.
Qed.

(** Texts that differ only in the case of letters have one lower-cased
    form. *)
Lemma sameLetters_lower (s t : string) :
  sameLetters s t = true <-> toLowerCase s = toLowerCase t.
Proof. rewrite <- toLowerCase_sameLetters. apply String.eqb_eq. Qed.

(** C10: the classifier reads only the lower-cased whole text (its tag is a
    function of the numbers of lexicon words that occur in that text), each
    lexicon word is looked up there by substring containment and counts
    once however often it occurs; so [unhappy], in small or in capital
    letters, holds [happy] and no negative or neutral keyword, and is
    tagged [positive]. *)
Theorem C10_substring_hits_count_once :
  (forall text word,
      includes text word = true <-> exists pre post, text = pre ++ word ++ post)
  /\ (forall content words,
        countHits (toLowerCase content) words
        = Z.of_nat (length (filter (includes (toLowerCase content)) words))
        /\ 0 <= countHits (toLowerCase content) words <= Z.of_nat (length words))
  /\ (forall content,
        detectMoodFromKeywords content
        = moodOfCounts
            (Z.of_nat (length (filter (includes (toLowerCase content)) positiveWords)))
            (Z.of_nat (length (filter (includes (toLowerCase content)) negativeWords)))
            (Z.of_nat (length (filter (includes (toLowerCase content)) neutralWords))))
  /\ toLowerCase "ABCDEFGHIJKLMNOPQRSTUVWXYZ" = "abcdefghijklmnopqrstuvwxyz"
  /\ toLowerCase "So UNHAPPY, so Happy!" = "so unhappy, so happy!"
  /\ countHits (toLowerCase "happy, happy, happy") positiveWords = 1
  /\ countHits (toLowerCase "Happy, HAPPY, happy") positiveWords = 1
  /\ includes (toLowerCase "unhappy") "happy" = true
  /\ countHits (toLowerCase "unhappy") positiveWords = 1
  /\ countHits (toLowerCase "unhappy") negativeWords = 0
  /\ countHits (toLowerCase "unhappy") neutralWords = 0
  /\ detectMoodFromKeywords "unhappy" = "positive"
  /\ includes "UNHAPPY" "happy" = false
  /\ includes (toLowerCase "UNHAPPY") "happy" = true
  /\ countHits (toLowerCase "UNHAPPY") positiveWords = 1
  /\ countHits (toLowerCase "UNHAPPY") negativeWords = 0
  /\ countHits (toLowerCase "UNHAPPY") neutralWords = 0
  /\ detectMoodFromKeywords "UNHAPPY" = "positive"
  /\ detectMoodFromKeywords "Unhappy" = "positive".
Proof.
  split; [exact includes_substring|].
  split; [intros; split; [apply countHits_filter | apply countHits_bounds]|].
  split; [intros content; rewrite detectMood_counts, !countHits_filter; reflexivity|].
  repeat split; reflexivity.
Qed.

End FallbacksFacts.

(** ** Calendar days *)

Module ClockFacts.
Import Clock.

Lemma msPerDay_pos : 0 < msPerDay.
Proof. reflexivity. Qed.

Lemma dayIndex_mono (tz a b : Z) : a <= b -> dayIndex tz a <= dayIndex tz b.
Proof.
  intros H. unfold dayIndex. apply Z.div_le_mono; [exact msPerDay_pos | lia].
Qed.

Lemma dayIndex_addDays (tz t k : Z) : dayIndex tz (addDays t k) = dayIndex tz t + k.
Proof.
  unfold dayIndex, addDays.
  replace (t + k * msPerDay + tz) with (t + tz + k * msPerDay) by lia.
  apply Z.div_add. discriminate.
Qed.

(** Two local midnights are apart by a whole number of days. *)
Lemma startOfDay_diff (tz a b : Z) :
  (startOfDay tz a - startOfDay tz b) / msPerDay = dayIndex tz a - dayIndex tz b.
Proof.
  unfold startOfDay.
  replace (dayIndex tz a * msPerDay - tz - (dayIndex tz b * msPerDay - tz))
    with ((dayIndex tz a - dayIndex tz b) * msPerDay) by lia.
  apply Z.div_mul. discriminate.
Qed.

Lemma startOfDay_eqb (tz a b : Z) :
  (startOfDay tz a =? startOfDay tz b) = (dayIndex tz a =? dayIndex tz b).
Proof.
  unfold startOfDay. pose proof msPerDay_pos.
  destruct (Z.eqb_spec (dayIndex tz a) (dayIndex tz b)) as [E|E].
  - rewrite E. apply Z.eqb_refl.
  - apply Z.eqb_neq. nia.
Qed.

Lemma dayIndex_startOfDay (tz t : Z) : dayIndex tz (startOfDay tz t) = dayIndex tz t.
Proof.
  unfold startOfDay. unfold dayIndex at 1.
  replace (dayIndex tz t * msPerDay - tz + tz) with (dayIndex tz t * msPerDay) by lia.
  apply Z.div_mul. discriminate.
Qed.

End ClockFacts.

(** ** The statistics recomputation *)

Module StatsFacts.
Import Clock ClockFacts Storage.

Lemma insertDesc_perm (x : JournalEntry.t) (l : list JournalEntry.t) :
  Permutation (insertDesc x l) (x :: l).
Proof.
  induction l as [|y l IH]; simpl.
  - apply Permutation_refl.
  - destruct (JournalEntry.createdAt x <? JournalEntry.createdAt y).
    + eapply perm_trans; [apply perm_skip, IH | apply perm_swap].
    + apply Permutation_refl.
Qed.

Lemma sortDesc_perm (l : list JournalEntry.t) : Permutation (sortDesc l) l.
Proof.
  induction l as [|x l IH]; simpl.
  - constructor.
  - eapply perm_trans; [apply insertDesc_perm | now apply perm_skip].
Qed.

Lemma insertDesc_sorted (x : JournalEntry.t) (l : list JournalEntry.t) :
  Descending l -> Descending (insertDesc x l).
Proof.
  unfold Descending. induction l as [|y l IH]; intros Hl; simpl.
  - repeat constructor.
  - inversion Hl as [|? ? Hs Hall]; subst.
    destruct (Z.ltb_spec (JournalEntry.createdAt x) (JournalEntry.createdAt y)) as [Hlt|Hge].
    + constructor; [now apply IH|].
      eapply Permutation_Forall; [symmetry; apply insertDesc_perm|].
      constructor; [lia | exact Hall].
    + constructor; [exact Hl|]. constructor; [lia|].
      eapply Forall_impl; [|exact Hall]. simpl. intros; lia.
Qed.

Lemma sortDesc_sorted (l : list JournalEntry.t) : Descending (sortDesc l).
Proof.
  induction l as [|x l IH]; simpl.
  - constructor.
  - now apply insertDesc_sorted.
Qed.

Lemma sortDesc_In (l : list JournalEntry.t) (e : JournalEntry.t) :
  In e (sortDesc l) <-> In e l.
Proof.
  split; apply Permutation_in; [|symmetry]; apply sortDesc_perm.
Qed.

Lemma completedEntries_In (entries : list JournalEntry.t) (e : JournalEntry.t) :
  In e (completedEntries entries)
  <-> In e entries /\ truthy (JournalEntry.isCompleted e) = true.
Proof.
  unfold completedEntries. rewrite sortDesc_In. apply filter_In.
Qed.

Section Walk.
Variable tz : Z.
Variable now : Z.

Lemma isToday_start (t : Z) :
  isToday tz now (startOfDay tz t) = (dayIndex tz t =? today tz now).
Proof. unfold isToday. apply startOfDay_eqb. Qed.

Lemma isYesterday_start (t : Z) :
  isYesterday tz now (startOfDay tz t) = (dayIndex tz t =? today tz now - 1).
Proof.
  unfold isYesterday. rewrite startOfDay_eqb, dayIndex_addDays. reflexivity.
Qed.

(** The step on the first entry, by calendar days. *)
Lemma streakStep_first (s : Streak.t) (e : JournalEntry.t) :
  Streak.lastDate s = None ->
  streakStep tz now s e
  = Streak.mk (if recent tz now e then 1 else Streak.currentStreak s)
              (Streak.longestStreak s) 1
              (Some (startOfDay tz (JournalEntry.createdAt e))).
Proof.
  intros H. unfold streakStep. rewrite H, isToday_start, isYesterday_start.
  reflexivity.
Qed.

(** The step on a later entry, by calendar days. *)
Lemma streakStep_next (s : Streak.t) (e : JournalEntry.t) (t : Z) :
  Streak.lastDate s = Some (startOfDay tz t) ->
  streakStep tz now s e
  = if dayIndex tz t - day tz e =? 1 then
      Streak.mk (if (Streak.currentStreak s =? 0) && recent tz now e
                 then Streak.streakCount s + 1 else Streak.currentStreak s)
                (Streak.longestStreak s)
                (Streak.streakCount s + 1)
                (Some (startOfDay tz (JournalEntry.createdAt e)))
    else
      Streak.mk (Streak.currentStreak s)
                (Z.max (Streak.longestStreak s) (Streak.streakCount s))
                1
                (Some (startOfDay tz (JournalEntry.createdAt e))).
Proof.
  intros H. unfold streakStep.
  rewrite H, startOfDay_diff, isToday_start, isYesterday_start. reflexivity.
Qed.

End Walk.

(** What [updateUserStats] leaves in the row of the user. *)
Lemma updateUserStats_row (tz now : Z) (st : Store) (userId : string) (u : User.t) :
  In u (users (updateUserStats tz now st userId)) ->
  User.id u = userId ->
  let entries := entriesOf st userId in
  let completed := completedEntries entries in
  u = User.mk userId
              (Some (Streak.currentStreak (streakLoop tz now completed)))
              (Some (finalLongest (streakLoop tz now completed)))
              (Some (totalEntries entries))
              (Some (wordsWritten entries))
              (lastEntryDate completed)
              (Some now).
Proof.
  intros Hin Hid. simpl in Hin. apply in_map_iff in Hin.
  destruct Hin as [u0 [Hu _]].
  destruct (String.eqb_spec (User.id u0) userId) as [E|E].
  - subst u. rewrite E. reflexivity.
  - subst u. contradiction.
Qed.

Section Current.
Variable tz : Z.
Variable now : Z.

(** Once the walk has left its first entry, [currentStreak] no longer moves
    if it is already set, or if no entry to come is of today or yesterday. *)
Lemma currentStreak_frozen (l : list JournalEntry.t) :
  forall (s : Streak.t) (t : Z),
    Streak.lastDate s = Some (startOfDay tz t) ->
    Streak.currentStreak s <> 0 \/ Forall (fun e => recent tz now e = false) l ->
    Streak.currentStreak (fold_left (streakStep tz now) l s) = Streak.currentStreak s.
Proof.
  induction l as [|e l IH]; intros s t Hlast Hcur; simpl.
  - reflexivity.
  - rewrite (streakStep_next tz now s e t Hlast).
    assert (Hkeep : (Streak.currentStreak s =? 0) && recent tz now e = false).
    { destruct Hcur as [Hne|Hall].
      - apply Z.eqb_neq in Hne. now rewrite Hne.
      - inversion Hall; subst. apply andb_false_iff. now right. }
    assert (Hrest : Streak.currentStreak s <> 0
                    \/ Forall (fun e => recent tz now e = false) l).
    { destruct Hcur as [Hne|Hall]; [now left | right; now inversion Hall]. }
    destruct (dayIndex tz t - day tz e =? 1).
    + rewrite (IH _ (JournalEntry.createdAt e)); simpl; rewrite ?Hkeep; auto.
    + rewrite (IH _ (JournalEntry.createdAt e)); simpl; auto.
Qed.

(** On a history sorted newest first with no entry after today, the walk
    ends with [currentStreak] at 1 or 0, as the first entry decides. *)
Lemma streakLoop_current (l : list JournalEntry.t) :
  Descending l ->
  Forall (fun e => day tz e <= today tz now) l ->
  Streak.currentStreak (streakLoop tz now l)
  = match l with
    | [] => 0
    | e :: _ => if recent tz now e then 1 else 0
    end.
Proof.
  intros Hsorted Hpast. destruct l as [|e l]; [reflexivity|].
  unfold streakLoop. simpl fold_left.
  rewrite (streakStep_first tz now streakInit e eq_refl).
  rewrite (currentStreak_frozen l _ (JournalEntry.createdAt e)).
  - reflexivity.
  - reflexivity.
  - simpl. destruct (recent tz now e) eqn:Hrec; [left; discriminate | right].
    inversion Hsorted as [|? ? _ Holder]; subst.
    inversion Hpast as [|? ? Hpe _]; subst.
    apply Forall_forall. intros r Hr.
    pose proof (proj1 (Forall_forall _ _) Holder r Hr) as Hle.
    apply (dayIndex_mono tz) in Hle. fold (day tz r) (day tz e) in Hle.
    unfold recent in *. apply orb_false_iff in Hrec. destruct Hrec as [H1 H2].
    apply Z.eqb_neq in H1, H2. apply orb_false_iff.
    split; apply Z.eqb_neq; lia.
Qed.

End Current.

(** C8: when no completed entry of the user is dated after today, the
    stored [currentStreak] is 0 or 1: it is 1 when the most recent completed
    entry is of today or yesterday and 0 otherwise, whatever the length of
    the run of consecutive days. *)
Theorem C8_currentStreak_at_most_one (tz now : Z) (st : Store) (userId : string) :
  (forall e, In e (entriesOf st userId) ->
             truthy (JournalEntry.isCompleted e) = true ->
             day tz e <= today tz now) ->
  forall u, In u (users (updateUserStats tz now st userId)) ->
            User.id u = userId ->
    (User.currentStreak u = Some 0 \/ User.currentStreak u = Some 1)
    /\ User.currentStreak u
       = Some (match completedEntries (entriesOf st userId) with
               | [] => 0
               | e :: _ => if recent tz now e then 1 else 0
               end).
Proof.
  intros Hpast u Hin Hid.
  rewrite (updateUserStats_row tz now st userId u Hin Hid). simpl.
  rewrite streakLoop_current.
  - split; [|reflexivity].
    destruct (completedEntries (entriesOf st userId)) as [|e l]; [now left|].
    destruct (recent tz now e); [now right | now left].
  - apply sortDesc_sorted.
  - apply Forall_forall. intros e He. apply completedEntries_In in He.
    destruct He as [He Hc]. now apply Hpast.
Qed.

(** C1: on the history of three consecutive days ending today the code
    stores [currentStreak = 1], not 3, together with [longestStreak = 3]:
    the assignment [currentStreak = streakCount] of the loop is guarded by
    [currentStreak === 0], which the first entry has already made false. *)
Theorem C1_three_days_currentStreak_is_1 :
  map aggregates (users (updateUserStats 0 Examples.jan3evening Examples.threeDays "alice"))
  = [(Some 1, Some 3, Some 3, Some 15, Some (Examples.at_ 2 12))].
Proof. vm_compute. reflexivity. Qed.







Lemma C8_witness :
  let u := User.mk "alice" (Some 1) (Some 3) (Some 3) (Some 15)
                   (Some (Examples.at_ 2 12)) (Some Examples.jan3evening) in
  (User.currentStreak u = Some 0 \/ User.currentStreak u = Some 1)
  /\ User.currentStreak u
     = Some (match completedEntries (entriesOf Examples.threeDays "alice") with
             | [] => 0
             | e :: _ => if recent 0 Examples.jan3evening e then 1 else 0
             end).
Proof.
  intros u.
  apply (C8_currentStreak_at_most_one 0 Examples.jan3evening Examples.threeDays "alice").
  - intros e He _. vm_compute in He.
    destruct He as [<-|[<-|[<-|[]]]]; vm_compute; discriminate.
  - vm_compute. left. reflexivity.
  - reflexivity.
Defined.

Lemma longest_doubled (tz now d : Z) (e1 e2 e3 e4 : JournalEntry.t) :
  day tz e1 = d + 2 -> day tz e2 = d + 1 -> day tz e3 = d + 1 -> day tz e4 = d ->
  finalLongest (streakLoop tz now [e1; e2; e3; e4]) = 2.
Proof.
  intros H1 H2 H3 H4. unfold streakLoop. simpl fold_left.
  rewrite (streakStep_first tz now streakInit e1 eq_refl).
  rewrite (streakStep_next tz now _ e2 (JournalEntry.createdAt e1)) by reflexivity.
  fold (day tz e1). rewrite H1, H2.
  replace (d + 2 - (d + 1)) with 1 by lia. cbn [Z.eqb Pos.eqb].
  rewrite (streakStep_next tz now _ e3 (JournalEntry.createdAt e2)) by reflexivity.
  fold (day tz e2). rewrite H2, H3.
  replace (d + 1 - (d + 1)) with 0 by lia. cbn [Z.eqb].
  rewrite (streakStep_next tz now _ e4 (JournalEntry.createdAt e3)) by reflexivity.
  fold (day tz e3). rewrite H3, H4.
  replace (d + 1 - d) with 1 by lia. cbn [Z.eqb Pos.eqb].
  reflexivity.
Qed.

(** C9: an entry on the same calendar day as the one before it takes the
    run-broken branch, which records the run walked so far and restarts
    [streakCount] at 1; so completed entries on the days d, d+1, d+1, d+2
    leave [longestStreak = 2]. *)
Theorem C9_same_day_breaks_the_run (tz now : Z) :
  (forall s e t,
      Streak.lastDate s = Some (startOfDay tz t) ->
      day tz e = dayIndex tz t ->
      streakStep tz now s e
      = Streak.mk (Streak.currentStreak s)
                  (Z.max (Streak.longestStreak s) (Streak.streakCount s))
                  1
                  (Some (startOfDay tz (JournalEntry.createdAt e))))
  /\ (forall st userId d,
        map (day tz) (completedEntries (entriesOf st userId)) = [d + 2; d + 1; d + 1; d] ->
        forall u, In u (users (updateUserStats tz now st userId)) ->
                  User.id u = userId ->
                  User.longestStreak u = Some 2).
Proof.
  split.
  - intros s e t Hlast Hday. rewrite (streakStep_next tz now s e t Hlast).
    rewrite Hday, Z.sub_diag. reflexivity.
  - intros st userId d Hdays u Hin Hid.
    rewrite (updateUserStats_row tz now st userId u Hin Hid). simpl.
    destruct (completedEntries (entriesOf st userId))
      as [|e1 [|e2 [|e3 [|e4 [|e5 l]]]]]; try discriminate.
    simpl in Hdays. injection Hdays as H1 H2 H3 H4. f_equal.
    apply (longest_doubled tz now d); assumption.
Qed.

Lemma C9_witness :
  let s := Streak.mk 1 0 2 (Some (startOfDay 0 (Examples.at_ 1 21))) in
  let e := Examples.entryOn "e2" (Examples.at_ 1 9) true 5 in
  let u := User.mk "alice" (Some 1) (Some 2) (Some 4) (Some 20)
                   (Some (Examples.at_ 2 12)) (Some Examples.jan3evening) in
  streakStep 0 Examples.jan3evening s e
  = Streak.mk 1 2 1 (Some (startOfDay 0 (Examples.at_ 1 9)))
  /\ User.longestStreak u = Some 2.
Proof.
  intros s e u. split.
  - apply (proj1 (C9_same_day_breaks_the_run 0 Examples.jan3evening) s e (Examples.at_ 1 21));
      reflexivity.
  - apply (proj2 (C9_same_day_breaks_the_run 0 Examples.jan3evening)
             Examples.doubledDay "alice" 19723 eq_refl u).
    + vm_compute. left. reflexivity.
    + reflexivity.
Defined.

End StatsFacts.

(** ** The journal-entry routes *)

Module RoutesFacts.
Import Storage Routes.

(** [deleteJournalEntry] leaves the users table as it is. *)
Lemma deleteJournalEntry_users (st : Store) (id : string) :
  users (deleteJournalEntry st id) = users st.
Proof. reflexivity. Qed.

(** So does the whole DELETE route, whatever it answers. *)
Lemma deleteRoute_users (st : Store) (userId entryId : string) :
  users (snd (deleteJournalEntryRoute st userId entryId)) = users st.
Proof.
  unfold deleteJournalEntryRoute.
  destruct (getJournalEntry st entryId) as [existing|]; [|reflexivity].
  destruct (negb (String.eqb (JournalEntry.userId existing) userId)); reflexivity.
Qed.

(** The two sibling operations end with the recomputation. *)
Lemma createJournalEntry_recomputes (tz now : Z) (st : Store) (entry : InsertJournalEntry.t) :
  exists st1,
    journalEntries st1 = (journalEntries st ++ [insertedEntry now st entry])%list
    /\ snd (createJournalEntry tz now st entry)
       = updateUserStats tz now st1 (InsertJournalEntry.userId entry).
Proof. eexists. split; [|reflexivity]. reflexivity. Qed.

Lemma updateJournalEntry_recomputes (tz now : Z) (st : Store) (id : string)
  (entry : EntryPatch.t) (row : JournalEntry.t) :
  fst (updateJournalEntry tz now st id entry) = Some row ->
  exists st1,
    snd (updateJournalEntry tz now st id entry)
    = updateUserStats tz now st1 (JournalEntry.userId row).
Proof.
  unfold updateJournalEntry.
  destruct (find _ _) as [r|]; simpl; intros H; [|discriminate].
  injection H as <-. eexists. reflexivity.
Qed.

(** C2: the DELETE route answers success and removes the row, but the
    aggregates of the owner stay those of the history with the entry; a
    recomputation on the resulting store would have reset them. *)
Theorem C2_delete_leaves_aggregates_stale :
  let st := Examples.afterPost in
  let r := deleteJournalEntryRoute st "alice" (Examples.uuid 0) in
  map aggregates (users st)
  = [(Some 1, Some 1, Some 1, Some 4, Some Examples.jan3evening)]
  /\ fst r = mkResponse 200 (JsonMessage "Entry deleted successfully")
  /\ journalEntries (snd r) = []
  /\ map aggregates (users (snd r))
     = [(Some 1, Some 1, Some 1, Some 4, Some Examples.jan3evening)]
  /\ map aggregates (users (updateUserStats 0 Examples.jan3evening (snd r) "alice"))
     = [(Some 0, Some 0, Some 0, Some 0, None)].
Proof. vm_compute. repeat split; reflexivity. Qed.

(** When [analyzeSentiment] throws on a changed text of more than 10 words,
    the PATCH route answers 500 and updates nothing. *)
Lemma patch_provider_failure (ai : Gemini.Provider) (tz now : Z) (st : Store)
  (userId entryId : string) (body : EntryPatch.t) (existing : JournalEntry.t)
  (content error : string) :
  getJournalEntry st entryId = Some existing ->
  JournalEntry.userId existing = userId ->
  EntryPatch.content body = Some content ->
  10 < countWords content ->
  content <> JournalEntry.content existing ->
  Gemini.sentimentReply ai content = Thrown error ->
  patchJournalEntry ai tz now st userId entryId body
  = (mkResponse 500 (JsonMessage "Failed to update journal entry"), st).
Proof.
  intros Hget Hown Hbody Hlong Hnew Hdown.
  unfold patchJournalEntry. rewrite Hget, Hown, String.eqb_refl. simpl negb. cbv iota.
  unfold prepareUpdate. rewrite Hbody.
  destruct content as [|c content]; [vm_compute in Hlong; discriminate|].
  assert (Hgt : (countWords (String c content) >? 10) = true)
    by (apply Z.gtb_lt; lia).
  apply String.eqb_neq in Hnew. rewrite Hgt, Hnew. simpl andb. cbv iota.
  unfold Gemini.analyzeSentiment. rewrite Hdown. reflexivity.
Qed.

(** C3: with the provider down, an edit that changes the text to one of 13
    words is answered 500 [Failed to update journal entry] and nothing is
    stored, while the same text posted as a new entry is answered 200 with
    the fallback mood. *)
Theorem C3_edit_surfaces_provider_failure :
  let st := Examples.afterPost in
  countWords Examples.longText = 13
  /\ patchJournalEntry Examples.providerDown 0 Examples.jan3evening st
       "alice" (Examples.uuid 0) (Examples.contentPatch Examples.longText)
     = (mkResponse 500 (JsonMessage "Failed to update journal entry"), st)
  /\ match fst (postJournalEntry Examples.providerDown 0 Examples.jan3evening st "alice"
                  (EntryBody.mk None (Some Examples.longText) None None None None
                                None None (Some true))) with
     | mkResponse 200 (JsonEntry entry) =>
         analysisFields entry
         = (Some "0", Some "neutral", Some "neutral", Some [])
     | _ => False
     end.
Proof. vm_compute. repeat split; reflexivity. Qed.

Lemma find_patched (id : string) (f : JournalEntry.t -> JournalEntry.t)
  (rows : list JournalEntry.t) :
  (forall row, JournalEntry.id (f row) = JournalEntry.id row) ->
  find (fun row => String.eqb (JournalEntry.id row) id)
       (map (fun row => if String.eqb (JournalEntry.id row) id then f row else row) rows)
  = option_map f (find (fun row => String.eqb (JournalEntry.id row) id) rows).
Proof.
  intros Hid. induction rows as [|row rows IH]; simpl; [reflexivity|].
  destruct (String.eqb (JournalEntry.id row) id) eqn:E.
  - now rewrite Hid, E.
  - now rewrite E.
Qed.

(** What the update of an existing row returns and stores. *)
Lemma updateJournalEntry_existing (tz now : Z) (st : Store) (id : string)
  (entry : EntryPatch.t) (existing : JournalEntry.t) :
  getJournalEntry st id = Some existing ->
  fst (updateJournalEntry tz now st id entry) = Some (patchedEntry now entry existing)
  /\ In (patchedEntry now entry existing)
        (journalEntries (snd (updateJournalEntry tz now st id entry))).
Proof.
  intros Hget. unfold getJournalEntry in Hget. unfold updateJournalEntry.
  pose proof (find_patched id (patchedEntry now entry) (journalEntries st)
                (fun _ => eq_refl)) as Hfind.
  rewrite Hget in Hfind. simpl in Hfind. rewrite Hfind. simpl.
  split; [reflexivity|]. apply find_some in Hfind. apply Hfind.
Qed.

(** C5, as the specification states it, fails on the edit path: an entry
    that was analysed keeps its sentiment, mood and themes when its text is
    replaced by one of three words. *)
Lemma C5_counterexample :
  countWords "too short now" = 3
  /\ match patchJournalEntry Examples.providerDown 0 Examples.jan3evening
             Samples.scoredStore "alice" "e1"
             (Examples.contentPatch "too short now") with
     | (mkResponse 200 (JsonEntry entry), st') =>
         In entry (journalEntries st')
         /\ JournalEntry.content entry = "too short now"
         /\ JournalEntry.wordCount entry = Some 3
         /\ analysisFields entry
            = (Some "0.80", Some "positive", Some "happy", Some ["work"; "family"])
     | _ => False
     end.
Proof. vm_compute. repeat split; try reflexivity. left. reflexivity. Qed.

(** C5 (amended): at a word count of 10 or less the handlers run no analysis
    and write none of the four derived fields themselves. For a request
    that carries no [sentimentScore] of its own and that the database
    accepts ([databaseAccepts]: storable values, the owner a stored user,
    aggregates within their integer columns): a created entry has no
    [sentimentScore], and as [sentimentLabel], [mood] and [themes] what the
    request body gave (nothing, when the body leaves them out); an edited
    entry, for a new non-empty text, keeps for each of the four the stored
    value unless the body sets it, so an entry that was analysed before
    stays analysed. *)
Theorem C5_short_text_is_not_analysed (ai : Gemini.Provider) (tz now : Z) (st : Store)
  (userId : string) :
  (forall body content,
      EntryBody.content body = Some content ->
      countWords content <= 10 ->
      EntryBody.sentimentScore body = None ->
      wordCountFits (EntryBody.wordCount body) ->
      databaseAccepts (postJournalEntry ai tz now st userId body) ->
      exists entry st',
        postJournalEntry ai tz now st userId body
        = (mkResponse 200 (JsonEntry entry), st')
        /\ In entry (journalEntries st')
        /\ JournalEntry.content entry = content
        /\ JournalEntry.wordCount entry = Some (countWords content)
        /\ analysisFields entry
           = (None, EntryBody.sentimentLabel body,
              EntryBody.mood body, EntryBody.themes body))
  /\ (forall entryId body existing content,
        getJournalEntry st entryId = Some existing ->
        JournalEntry.userId existing = userId ->
        EntryPatch.content body = Some content ->
        content <> "" ->
        countWords content <= 10 ->
        (EntryPatch.sentimentScore body = Absent
         \/ EntryPatch.sentimentScore body = Null) ->
        databaseAccepts (patchJournalEntry ai tz now st userId entryId body) ->
        exists entry st',
          patchJournalEntry ai tz now st userId entryId body
          = (mkResponse 200 (JsonEntry entry), st')
          /\ In entry (journalEntries st')
          /\ JournalEntry.content entry = content
          /\ JournalEntry.wordCount entry = Some (countWords content)
          /\ analysisFields entry
             = (applyPatch (EntryPatch.sentimentScore body)
                           (JournalEntry.sentimentScore existing),
                applyPatch (EntryPatch.sentimentLabel body)
                           (JournalEntry.sentimentLabel existing),
                applyPatch (EntryPatch.mood body) (JournalEntry.mood existing),
                applyPatch (EntryPatch.themes body) (JournalEntry.themes existing))).
Proof.
  split.
  - intros body content Hbody Hshort Hscore _ _.
    unfold postJournalEntry, parseEntry. rewrite Hbody.
    cbn [InsertJournalEntry.content].
    assert (Hgt : (countWords content >? 10) = false)
      by (rewrite Z.gtb_ltb; apply Z.ltb_ge; exact Hshort).
    rewrite Hgt. unfold createJournalEntry.
    eexists. eexists. split; [reflexivity|].
    split; [simpl; apply in_or_app; right; left; reflexivity|].
    unfold analysisFields. simpl. rewrite Hscore. repeat split.
  - intros entryId body existing content Hget Hown Hbody Hne Hshort _ _.
    unfold patchJournalEntry. rewrite Hget, Hown, String.eqb_refl.
    simpl negb. cbv iota.
    unfold prepareUpdate. rewrite Hbody.
    destruct content as [|c content]; [contradiction|].
    assert (Hgt : (countWords (String c content) >? 10) = false)
      by (rewrite Z.gtb_ltb; apply Z.ltb_ge; exact Hshort).
    rewrite Hgt. simpl andb. cbv iota.
    destruct (updateJournalEntry_existing tz now st entryId
                (setWordCount body (countWords (String c content))) existing Hget)
      as [Hfst Hin].
    destruct (updateJournalEntry tz now st entryId _) as [r st'] eqn:Hupd.
    simpl in Hfst, Hin. subst r.
    eexists. eexists. split; [reflexivity|].
    split; [exact Hin|].
    unfold patchedEntry, analysisFields. simpl. rewrite Hbody.
    repeat split.
Qed.

Lemma C5_witness :
  (exists entry st',
      postJournalEntry Examples.providerDown 0 Examples.jan3evening
        Examples.emptyStore "alice" Examples.shortBody
      = (mkResponse 200 (JsonEntry entry), st')
      /\ In entry (journalEntries st')
      /\ JournalEntry.content entry = "Walked by the river"
      /\ JournalEntry.wordCount entry = Some (countWords "Walked by the river")
      /\ analysisFields entry = (None, None, None, None))
  /\ (exists entry st',
        patchJournalEntry Examples.providerDown 0 Examples.jan3evening
          Samples.scoredStore "alice" "e1" (Examples.contentPatch "too short now")
        = (mkResponse 200 (JsonEntry entry), st')
        /\ In entry (journalEntries st')
        /\ JournalEntry.content entry = "too short now"
        /\ JournalEntry.wordCount entry = Some (countWords "too short now")
        /\ analysisFields entry
           = (Some "0.80", Some "positive", Some "happy", Some ["work"; "family"])).
Proof.
  split.
  - apply (proj1 (C5_short_text_is_not_analysed Examples.providerDown 0
                    Examples.jan3evening Examples.emptyStore "alice")
             Examples.shortBody "Walked by the river").
    + reflexivity.
    + vm_compute. discriminate.
    + reflexivity.
    + exact I.
    + unfold databaseAccepts, rowStorable, aggregatesFit, wordCountFits, int32.
      vm_compute. intuition discriminate.
  - apply (proj2 (C5_short_text_is_not_analysed Examples.providerDown 0
                    Examples.jan3evening Samples.scoredStore "alice")
             "e1" (Examples.contentPatch "too short now") Samples.scored
             "too short now").
    + reflexivity.
    + reflexivity.
    + reflexivity.
    + discriminate.
    + vm_compute. discriminate.
    + left. reflexivity.
    + unfold databaseAccepts, rowStorable, aggregatesFit, wordCountFits, int32.
      vm_compute. intuition discriminate.
Defined.

(** C7: when an insight is stored for the week and the completed entries of
    the week are no more than its [entryCount] ([null] counting for 0), the
    weekly route answers with that stored insight and leaves the store as it
    was: nothing deleted, nothing inserted, no key drawn; a second request
    on the resulting store answers the same. *)
Theorem C7_stored_insight_is_reused (ai : Gemini.Provider) (tz now : Z)
  (averageText : list (option string) -> string) (st : Store) (userId : string)
  (stored : WeeklyInsight.t) :
  let weekStart := Clock.startOfDay tz (Clock.addDays now (- Clock.getDay tz now)) in
  let weekEnd := Clock.endOfDay tz (Clock.addDays weekStart 6) in
  getWeeklyInsight st userId weekStart = Some stored ->
  Z.of_nat (length (filter (fun entry => truthy (JournalEntry.isCompleted entry))
                           (getJournalEntriesByDateRange st userId weekStart weekEnd)))
    <= orZero (WeeklyInsight.entryCount stored) ->
  let r := weeklyInsightRoute ai averageText tz now st userId in
  r = (mkResponse 200 (JsonInsight stored), st)
  /\ weeklyInsights (snd r) = weeklyInsights st
  /\ drawn (snd r) = drawn st
  /\ weeklyInsightRoute ai averageText tz now (snd r) userId = r.
Proof.
  intros weekStart weekEnd Hstored Hcount r.
  assert (Hr : r = (mkResponse 200 (JsonInsight stored), st)).
  { subst r. unfold weeklyInsightRoute.
    fold weekStart. fold weekEnd. rewrite Hstored.
    assert (Hfresh :
      (Z.of_nat (length (filter (fun entry => truthy (JournalEntry.isCompleted entry))
                                (getJournalEntriesByDateRange st userId weekStart weekEnd)))
       >? orZero (WeeklyInsight.entryCount stored)) = false)
      by (rewrite Z.gtb_ltb; apply Z.ltb_ge; exact Hcount).
    rewrite Hfresh. reflexivity. }
  split; [exact Hr|]. rewrite Hr. simpl snd.
  split; [reflexivity|]. split; [reflexivity|]. exact Hr.
Qed.

(** The store after the weekly route has built alice's first insight of the
    week of 2024-01-03, and that insight. *)
Lemma C7_witness :
  let averageText := fun _ : list (option string) => "0" in
  let st := snd (weeklyInsightRoute Examples.providerDown averageText 0
                   Examples.jan3evening Examples.afterPost "alice") in
  let stored :=
    WeeklyInsight.mk "uuid-1" "alice" (Examples.at_ (-1) 0) (Examples.at_ 6 0 - 1)
      (Some "You wrote 1 entries this week with an average of 4 words. Your journaling shows thoughtful reflection on your experiences.")
      (Some ["personal reflection"; "self-awareness"]) (Some "Reflective") (Some "0")
      (Some 1) Examples.jan3evening in
  let r := weeklyInsightRoute Examples.providerDown averageText 0
             Examples.jan3evening st "alice" in
  r = (mkResponse 200 (JsonInsight stored), st)
  /\ weeklyInsights (snd r) = weeklyInsights st
  /\ drawn (snd r) = drawn st
  /\ weeklyInsightRoute Examples.providerDown averageText 0 Examples.jan3evening
       (snd r) "alice" = r.
Proof.
  intros averageText st stored.
  apply (C7_stored_insight_is_reused Examples.providerDown 0 Examples.jan3evening
           averageText st "alice" stored).
  - vm_compute. reflexivity.
  - vm_compute. discriminate.
Defined.

End RoutesFacts.

(** ** Word counting and the classifier, further *)

Module TextFacts.
Import JsString Fallbacks.

Lemma append_assoc (a b c : string) : (a ++ b) ++ c = a ++ b ++ c.
Proof. induction a as [|x a IH]; simpl; [reflexivity | now rewrite IH]. Qed.

Lemma rev_acc_app (s acc : string) : rev_acc s acc = rev_acc s "" ++ acc.
Proof.
  revert acc. induction s as [|c s IH]; intros acc; simpl.
  - reflexivity.
  - rewrite (IH (String c acc)), (IH (String c "")).
    now rewrite append_assoc.
Qed.

Lemma append_empty_r (s : string) : s ++ "" = s.
Proof. induction s as [|c s IH]; simpl; [reflexivity | now rewrite IH]. Qed.

Lemma rev_app (a b : string) : rev (a ++ b) = rev b ++ rev a.
Proof.
  unfold rev. induction a as [|c a IH]; simpl.
  - now rewrite append_empty_r.
  - rewrite (rev_acc_app (a ++ b)), IH, (rev_acc_app a (String c "")).
    now rewrite append_assoc.
Qed.

Lemma rev_rev (s : string) : rev (rev s) = s.
Proof.
  induction s as [|c s IH]; [reflexivity|].
  unfold rev at 2. simpl. rewrite rev_acc_app. fold (rev s).
  rewrite rev_app, IH. reflexivity.
Qed.

Lemma rev_empty (s : string) : rev s = "" -> s = "".
Proof. intros H. rewrite <- (rev_rev s), H. reflexivity. Qed.

Lemma allSpace_app (a b : string) : allSpace (a ++ b) = allSpace a && allSpace b.
Proof.
  induction a as [|c a IH]; simpl; [reflexivity|].
  now rewrite IH, andb_assoc.
Qed.

Lemma allSpace_rev (s : string) : allSpace (rev s) = allSpace s.
Proof.
  induction s as [|c s IH]; [reflexivity|].
  unfold rev. simpl. rewrite rev_acc_app. fold (rev s).
  rewrite allSpace_app, IH. simpl. rewrite andb_true_r. apply andb_comm.
Qed.

(** [trimStart] removes a prefix of white space. *)
Lemma trimStart_split (s : string) :
  exists w, s = w ++ trimStart s /\ allSpace w = true.
Proof.
  induction s as [|c s [w [Hs Hw]]]; simpl.
  - exists "". now split.
  - destruct (isSpace c) eqn:Hc.
    + exists (String c w). simpl. rewrite Hc, Hw. split; [now rewrite <- Hs | reflexivity].
    + exists "". now split.
Qed.

(** [trim] removes white space at both ends and nothing else. *)
Lemma trim_split (s : string) :
  exists w1 w2, s = w1 ++ trim s ++ w2 /\ allSpace w1 = true /\ allSpace w2 = true.
Proof.
  destruct (trimStart_split s) as [w1 [H1 Hw1]].
  destruct (trimStart_split (rev (trimStart s))) as [w2 [H2 Hw2]].
  exists w1, (rev w2). split; [|split; [exact Hw1 | now rewrite allSpace_rev]].
  unfold trim. rewrite <- rev_app, <- H2, rev_rev. exact H1.
Qed.

Lemma wordStarts_space (w rest : string) (inWord : bool) :
  allSpace w = true -> w <> "" -> wordStarts (w ++ rest) inWord = wordStarts rest false.
Proof.
  revert inWord. induction w as [|c w IH]; intros inWord Hw Hne; [contradiction|].
  simpl in *. apply andb_true_iff in Hw. destruct Hw as [Hc Hw]. rewrite Hc.
  destruct w as [|d w]; [reflexivity|]. apply IH; [exact Hw | discriminate].
Qed.

Lemma wordStarts_allSpace (w : string) (inWord : bool) :
  allSpace w = true -> wordStarts w inWord = O.
Proof.
  revert inWord. induction w as [|c w IH]; intros inWord Hw; [reflexivity|].
  simpl in *. apply andb_true_iff in Hw. destruct Hw as [Hc Hw]. rewrite Hc. now apply IH.
Qed.

Lemma wordStarts_trailing (s w : string) (inWord : bool) :
  allSpace w = true -> wordStarts (s ++ w) inWord = wordStarts s inWord.
Proof.
  intros Hw. revert inWord. induction s as [|c s IH]; intros inWord; simpl.
  - now apply wordStarts_allSpace.
  - destruct (isSpace c); now rewrite IH.
Qed.

Lemma wordStarts_leading (w s : string) :
  allSpace w = true -> wordStarts (w ++ s) false = wordStarts s false.
Proof.
  intros Hw. destruct w as [|c w]; [reflexivity|].
  apply wordStarts_space; [exact Hw | discriminate].
Qed.

Lemma wordRuns_trim (s : string) : wordRuns (trim s) = wordRuns s.
Proof.
  destruct (trim_split s) as [w1 [w2 [Hs [H1 H2]]]]. unfold wordRuns.
  rewrite Hs at 2. now rewrite wordStarts_leading, wordStarts_trailing.
Qed.

Lemma started_rev (cur : string) : started (rev cur) = started cur.
Proof.
  unfold started. destruct cur as [|c cur]; [reflexivity|].
  destruct (rev (String c cur)) eqn:E; [|reflexivity].
  apply rev_empty in E. discriminate.
Qed.

(** The pieces of [splitWs] that are not empty: the one being read, if
    any, and one for each word that starts later. *)
Lemma splitWs_pieces (s : string) :
  forall cur inGap,
    (inGap = true -> cur = "") ->
    length (filter (fun word => negb (String.eqb word "")) (splitWs s cur inGap))
    = ((if started cur then 1 else 0) + wordStarts s (started cur))%nat.
Proof.
  induction s as [|c s IH]; intros cur inGap Hgap; simpl.
  - fold (started (rev cur)). rewrite started_rev.
    destruct (started cur); simpl; lia.
  - destruct (isSpace c).
    + destruct inGap.
      * rewrite (Hgap eq_refl). rewrite IH by reflexivity. reflexivity.
      * simpl. fold (started (rev cur)). rewrite started_rev.
        destruct (started cur); simpl; rewrite IH by reflexivity; reflexivity.
    + rewrite IH by discriminate. change (started (String c cur)) with true.
      simpl. destruct (started cur); lia.
Qed.

Lemma countWords_wordRuns (text : string) :
  Routes.countWords text = Z.of_nat (wordRuns text).
Proof.
  unfold Routes.countWords, split_ws.
  rewrite splitWs_pieces by discriminate. change (started "") with false.
  cbv iota. rewrite Nat.add_0_l. fold (wordRuns (trim text)).
  now rewrite wordRuns_trim.
Qed.

Lemma wordStarts_join (a w b : string) (inWord : bool) :
  allSpace w = true -> w <> "" ->
  wordStarts (a ++ w ++ b) inWord = (wordStarts a inWord + wordStarts b false)%nat.
Proof.
  intros Hw Hne. revert inWord. induction a as [|c a IH]; intros inWord; simpl.
  - now apply wordStarts_space.
  - destruct (isSpace c); rewrite IH; lia.
Qed.

(** The word count of the handlers is the number of maximal runs of
    characters that are not white space; white space around the text does
    not change it. *)
Theorem countWords_counts_runs (text : string) :
  Routes.countWords text = Z.of_nat (wordRuns text)
  /\ Routes.countWords (trim text) = Routes.countWords text.
Proof.
  split; [apply countWords_wordRuns|].
  now rewrite !countWords_wordRuns, wordRuns_trim.
Qed.

(** A text of white space only has no word, and two texts joined by a
    non-empty stretch of white space have the words of both. *)
Theorem countWords_join (w : string) :
  allSpace w = true ->
  Routes.countWords w = 0
  /\ (w <> "" ->
      forall a b, Routes.countWords (a ++ w ++ b)
                  = Routes.countWords a + Routes.countWords b).
Proof.
  intros Hw. split.
  - rewrite countWords_wordRuns. unfold wordRuns.
    now rewrite wordStarts_allSpace.
  - intros Hne a b. rewrite !countWords_wordRuns. unfold wordRuns.
    rewrite wordStarts_join by assumption. lia.
Qed.

Lemma countWords_join_witness :
  Routes.countWords "  " = 0
  /\ Routes.countWords ("good morning" ++ "  " ++ "dear diary")
     = Routes.countWords "good morning" + Routes.countWords "dear diary".
Proof.
  destruct (countWords_join "  " eq_refl) as [H0 Hjoin].
  split; [exact H0|].
  apply Hjoin. discriminate.
Defined.

Lemma lowerChar_idem (c : ascii) : lowerChar (lowerChar c) = lowerChar c.
Proof.
  destruct c as [[] [] [] [] [] [] [] []]; vm_compute; reflexivity.
Qed.

Lemma toLowerCase_idem (s : string) : toLowerCase (toLowerCase s) = toLowerCase s.
Proof.
  induction s as [|c s IH]; simpl; [reflexivity|].
  now rewrite lowerChar_idem, IH.
Qed.

Lemma toLowerCase_app (a b : string) :
  toLowerCase (a ++ b) = toLowerCase a ++ toLowerCase b.
Proof. induction a as [|c a IH]; simpl; [reflexivity | now rewrite IH]. Qed.

(** The classifier does not see the case of letters. [lowerChar] maps two
    characters to one exactly when they are the same letter in whatever
    case, by the table of the capital and small letters below 256; so two
    texts of such characters that differ only in the case of their letters
    get the same tag. *)
Theorem detectMood_same_letters :
  (forall c d, lowerChar c = lowerChar d <-> caseVariant c d = true)
  /\ (forall a b,
        sameLetters a b = true ->
        toLowerCase a = toLowerCase b
        /\ detectMoodFromKeywords a = detectMoodFromKeywords b).
Proof.
  split.
  - intros c d. rewrite <- FallbacksFacts.lowerChar_caseVariant. symmetry.
    apply Ascii.eqb_eq.
  - intros a b Hsame. apply FallbacksFacts.sameLetters_lower in Hsame.
    split; [exact Hsame|]. unfold detectMoodFromKeywords. now rewrite Hsame.
Qed.

Lemma detectMood_same_letters_witness :
  toLowerCase "What a GREAT Day, I Love It" = toLowerCase "what a great day, i love it"
  /\ detectMoodFromKeywords "What a GREAT Day, I Love It"
     = detectMoodFromKeywords "what a great day, i love it".
Proof.
  apply (proj2 detectMood_same_letters
           "What a GREAT Day, I Love It" "what a great day, i love it").
  vm_compute. reflexivity.
Defined.

Lemma filter_none {A : Type} (f : A -> bool) (l : list A) :
  (forall x, In x l -> f x = false) -> filter f l = [].
Proof.
  induction l as [|x l IH]; intros H; simpl; [reflexivity|].
  rewrite (H x (or_introl eq_refl)). apply IH. intros y Hy. apply H. now right.
Qed.

Lemma countHits_none (text : string) (words : list string) :
  (forall w, In w words -> includes text w = false) -> countHits text words = 0.
Proof.
  intros H. rewrite FallbacksFacts.countHits_filter, filter_none by exact H. reflexivity.
Qed.

Lemma moodOfCounts_range (p n u : Z) :
  In (moodOfCounts p n u) ["positive"; "negative"; "anxious"; "content"; "neutral"].
Proof.
  unfold moodOfCounts.
  destruct ((p >? n) && (p >? u)); [simpl; tauto|].
  destruct ((n >? p) && (n >? u)); [simpl; tauto|].
  destruct ((n >? 0) && (p =? 0)); [simpl; tauto|].
  destruct ((p >? 0) && (n =? 0)); simpl; tauto.
Qed.

(** The tag is always one of five, and a text in which no keyword of the
    three lexicons occurs, in any case of letters, is [neutral]. *)
Theorem detectMood_range_and_default (content : string) :
  In (detectMoodFromKeywords content)
     ["positive"; "negative"; "anxious"; "content"; "neutral"]
  /\ ((forall w, In w lexicon -> includes (toLowerCase content) w = false) ->
      detectMoodFromKeywords content = "neutral").
Proof.
  split.
  - rewrite FallbacksFacts.detectMood_counts. apply moodOfCounts_range.
  - intros H. rewrite FallbacksFacts.detectMood_counts.
    rewrite !countHits_none; [reflexivity | | |];
      intros w Hw; apply H; unfold lexicon; rewrite !in_app_iff; tauto.
Qed.

Lemma detectMood_default_witness :
  detectMoodFromKeywords "Rain on the roof all night" = "neutral".
Proof.
  apply (proj2 (detectMood_range_and_default "Rain on the roof all night")).
  intros w Hw. vm_compute in Hw.
  repeat (destruct Hw as [<-|Hw]; [vm_compute; reflexivity|]). destruct Hw.
Defined.

(** Without a hit in the neutral lexicon the tag is a plain majority vote
    between positive and negative hits: [anxious] and [content] are given
    only to texts that also hold a neutral keyword. *)
Theorem detectMood_without_neutral_hits (content : string) :
  countHits (toLowerCase content) neutralWords = 0 ->
  let positiveCount := countHits (toLowerCase content) positiveWords in
  let negativeCount := countHits (toLowerCase content) negativeWords in
  detectMoodFromKeywords content
  = (if positiveCount >? negativeCount then "positive"
     else if negativeCount >? positiveCount then "negative"
     else "neutral")
  /\ detectMoodFromKeywords content <> "anxious"
  /\ detectMoodFromKeywords content <> "content".
Proof.
  intros Hu p n. rewrite FallbacksFacts.detectMood_counts, Hu. fold p n.
  pose proof (FallbacksFacts.countHits_bounds (toLowerCase content) positiveWords) as Hp.
  pose proof (FallbacksFacts.countHits_bounds (toLowerCase content) negativeWords) as Hn.
  fold p in Hp. fold n in Hn. clearbody p n. unfold moodOfCounts.
  destruct (Z.gtb_spec p n), (Z.gtb_spec p 0), (Z.gtb_spec n p), (Z.gtb_spec n 0),
    (Z.eqb_spec p 0), (Z.eqb_spec n 0); simpl;
    try lia; repeat split; discriminate.
Qed.

Lemma detectMood_without_neutral_hits_witness :
  detectMoodFromKeywords "sad, sad news, yet I love this town"
  = (if countHits (toLowerCase "sad, sad news, yet I love this town") positiveWords
        >? countHits (toLowerCase "sad, sad news, yet I love this town") negativeWords
     then "positive"
     else if countHits (toLowerCase "sad, sad news, yet I love this town") negativeWords
             >? countHits (toLowerCase "sad, sad news, yet I love this town") positiveWords
          then "negative"
          else "neutral")
  /\ detectMoodFromKeywords "sad, sad news, yet I love this town" <> "anxious"
  /\ detectMoodFromKeywords "sad, sad news, yet I love this town" <> "content".
Proof.
  apply (detectMood_without_neutral_hits "sad, sad news, yet I love this town").
  reflexivity.
Defined.

End TextFacts.

(** ** The storage operations, further *)

Module StorageFacts.
Import Clock Storage.

(** The recomputation rewrites the aggregates of the named user and nothing
    else, and running it twice at the same instant is running it once. *)
Theorem updateUserStats_idempotent (tz now : Z) (st : Store) (userId : string) :
  updateUserStats tz now (updateUserStats tz now st userId) userId
  = updateUserStats tz now st userId
  /\ journalEntries (updateUserStats tz now st userId) = journalEntries st
  /\ weeklyInsights (updateUserStats tz now st userId) = weeklyInsights st
  /\ drawn (updateUserStats tz now st userId) = drawn st
  /\ map User.id (users (updateUserStats tz now st userId)) = map User.id (users st)
  /\ filter (fun u => negb (String.eqb (User.id u) userId))
            (users (updateUserStats tz now st userId))
     = filter (fun u => negb (String.eqb (User.id u) userId)) (users st).
Proof.
  split; [|split; [reflexivity|split; [reflexivity|split; [reflexivity|split]]]].
  - unfold updateUserStats at 1 2. unfold entriesOf. simpl journalEntries.
    unfold updateUserStats, entriesOf. simpl. f_equal.
    rewrite map_map. apply map_ext. intros u.
    destruct (String.eqb (User.id u) userId) eqn:E; simpl; now rewrite E.
  - simpl. rewrite map_map. apply map_ext. intros u.
    destruct (String.eqb (User.id u) userId); reflexivity.
  - simpl. induction (users st) as [|u l IH]; simpl; [reflexivity|].
    destruct (String.eqb (User.id u) userId) eqn:E; simpl; rewrite E; simpl;
      now rewrite IH.
Qed.

Lemma streakStep_bounded (tz now : Z) (s : Streak.t) (e : JournalEntry.t) (k : Z) :
  streakBounded s k -> streakBounded (streakStep tz now s e) (k + 1).
Proof.
  unfold streakBounded, streakStep.
  intros (H0 & H1 & H2 & H3 & H4 & H5).
  destruct (Streak.lastDate s) as [lastDate|].
  - assert (1 <= Streak.streakCount s) by (apply H5; discriminate).
    destruct (_ =? 1); simpl.
    + destruct (_ && _); repeat split; try lia; discriminate.
    + repeat split; try lia; discriminate.
  - rewrite (H4 eq_refl) in *. simpl.
    destruct (_ || _); repeat split; try lia; discriminate.
Qed.

Lemma streakLoop_bounded (tz now : Z) (l : list JournalEntry.t) :
  forall s k, streakBounded s k ->
              streakBounded (fold_left (streakStep tz now) l s) (k + Z.of_nat (length l)).
Proof.
  induction l as [|e l IH]; intros s k H; simpl fold_left.
  - simpl. now rewrite Z.add_0_r.
  - replace (k + Z.of_nat (length (e :: l))) with (k + 1 + Z.of_nat (length l))
      by (simpl length; lia).
    apply IH. now apply streakStep_bounded.
Qed.

Lemma streakInit_bounded : streakBounded streakInit 0.
Proof. unfold streakBounded, streakInit. simpl. repeat split; try lia; congruence. Qed.

Lemma fold_lastDate (tz now : Z) (l : list JournalEntry.t) (s : Streak.t) :
  (l <> [] \/ Streak.lastDate s <> None) ->
  Streak.lastDate (fold_left (streakStep tz now) l s) <> None.
Proof.
  revert s. induction l as [|e l IH]; intros s H; simpl.
  - destruct H as [H|H]; [contradiction | exact H].
  - apply IH. right. unfold streakStep.
    destruct (Streak.lastDate s); [destruct (_ =? 1)|]; simpl; discriminate.
Qed.

(** For every history: the stored [currentStreak] is at least 0 and at most
    the stored [longestStreak], which is at most [totalEntries], and at
    least 1 as soon as the user has a completed entry. *)
Theorem stored_streaks_bounded (tz now : Z) (st : Store) (userId : string) :
  forall u, In u (users (updateUserStats tz now st userId)) ->
            User.id u = userId ->
    exists current longest total,
      User.currentStreak u = Some current
      /\ User.longestStreak u = Some longest
      /\ User.totalEntries u = Some total
      /\ 0 <= current <= longest
      /\ longest <= total
      /\ (0 < total -> 1 <= longest).
Proof.
  intros u Hin Hid.
  rewrite (StatsFacts.updateUserStats_row tz now st userId u Hin Hid). simpl.
  eexists. eexists. eexists.
  split; [reflexivity|]. split; [reflexivity|]. split; [reflexivity|].
  set (entries := entriesOf st userId).
  pose proof (streakLoop_bounded tz now (completedEntries entries) streakInit 0
                streakInit_bounded) as Hb.
  fold (streakLoop tz now (completedEntries entries)) in Hb.
  assert (Hlen : Z.of_nat (length (completedEntries entries)) = totalEntries entries).
  { unfold completedEntries, totalEntries.
    now rewrite (Permutation_length (StatsFacts.sortDesc_perm _)). }
  rewrite Z.add_0_l, Hlen in Hb.
  destruct Hb as (H0 & H1 & H2 & H3 & _ & H5). unfold finalLongest.
  split; [lia|]. split; [lia|]. intros Hpos.
  assert (Hne : completedEntries entries <> []).
  { intros E. rewrite E in Hlen. simpl in Hlen. lia. }
  pose proof (fold_lastDate tz now (completedEntries entries) streakInit (or_introl Hne)) as Hl.
  fold (streakLoop tz now (completedEntries entries)) in Hl.
  specialize (H5 Hl). lia.
Qed.

Lemma stored_streaks_bounded_witness :
  exists current longest total,
    Some 1 = Some current /\ Some 2 = Some longest /\ Some 4 = Some total
    /\ 0 <= current <= longest /\ longest <= total /\ (0 < total -> 1 <= longest).
Proof.
  apply (stored_streaks_bounded 0 Examples.jan3evening Examples.doubledDay "alice"
           (User.mk "alice" (Some 1) (Some 2) (Some 4) (Some 20)
                    (Some (Examples.at_ 2 12)) (Some Examples.jan3evening))).
  - vm_compute. left. reflexivity.
  - reflexivity.
Defined.

Lemma find_snoc {A : Type} (p : A -> bool) (l : list A) (x : A) :
  find p (l ++ [x])
  = match find p l with
    | Some y => Some y
    | None => if p x then Some x else None
    end.
Proof.
  induction l as [|y l IH]; simpl; [reflexivity|].
  destruct (p y); [reflexivity | exact IH].
Qed.




Lemma find_after_delete (id id' : string) (rows : list JournalEntry.t) :
  find (fun row => String.eqb (JournalEntry.id row) id')
       (filter (fun row => negb (String.eqb (JournalEntry.id row) id)) rows)
  = if String.eqb id' id then None
    else find (fun row => String.eqb (JournalEntry.id row) id') rows.
Proof.
  induction rows as [|row rows IH]; simpl.
  - destruct (String.eqb id' id); reflexivity.
  - destruct (String.eqb_spec (JournalEntry.id row) id) as [E|E]; simpl.
    + rewrite IH. destruct (String.eqb_spec id' id) as [E'|E']; [reflexivity|].
      destruct (String.eqb_spec (JournalEntry.id row) id'); [congruence | reflexivity].
    + destruct (String.eqb_spec (JournalEntry.id row) id') as [E'|E'].
      * destruct (String.eqb_spec id' id); [congruence | reflexivity].
      * exact IH.
Qed.

(** Delete, then look up: the key is no longer found, every other key is
    found as before, and no row of another key leaves the table. *)
Theorem deleteJournalEntry_lookup (st : Store) (id : string) :
  (forall id', getJournalEntry (deleteJournalEntry st id) id'
               = if String.eqb id' id then None else getJournalEntry st id')
  /\ (forall row, In row (journalEntries (deleteJournalEntry st id))
                  <-> In row (journalEntries st) /\ JournalEntry.id row <> id).
Proof.
  split.
  - intros id'. apply find_after_delete.
  - intros row. simpl. rewrite filter_In, negb_true_iff, String.eqb_neq. reflexivity.
Qed.



Lemma updateJournalEntry_found (tz now : Z) (st : Store) (id : string)
  (entry : EntryPatch.t) (existing : JournalEntry.t) :
  getJournalEntry st id = Some existing ->
  fst (updateJournalEntry tz now st id entry) = Some (patchedEntry now entry existing)
  /\ getJournalEntry (snd (updateJournalEntry tz now st id entry)) id
     = Some (patchedEntry now entry existing).
Proof.
  intros Hget.
  pose proof (RoutesFacts.find_patched id (patchedEntry now entry) (journalEntries st)
                (fun _ => eq_refl)) as Hfind.
  unfold getJournalEntry in Hget. rewrite Hget in Hfind. simpl in Hfind.
  unfold updateJournalEntry, getJournalEntry. rewrite Hfind. simpl.
  split; [reflexivity | exact Hfind].
Qed.



Lemma In_firstn {A : Type} (n : nat) (l : list A) (x : A) :
  In x (firstn n l) -> In x l.
Proof.
  intros H. rewrite <- (firstn_skipn n l). apply in_or_app. now left.
Qed.

Lemma Descending_firstn (n : nat) (l : list JournalEntry.t) :
  Descending l -> Descending (firstn n l).
Proof.
  unfold Descending. revert n. induction l as [|x l IH]; intros n H.
  - rewrite firstn_nil. constructor.
  - destruct n as [|n]; simpl; [constructor|].
    inversion H as [|? ? Hs Hall]; subst. constructor; [now apply IH|].
    apply Forall_forall. intros y Hy.
    apply (proj1 (Forall_forall _ _) Hall). revert Hy. apply In_firstn.
Qed.

Lemma filter_owned_completed (userId : string) (rows : list JournalEntry.t) :
  filter (fun row => String.eqb (JournalEntry.userId row) userId
                     && match JournalEntry.isCompleted row with
                        | Some true => true
                        | _ => false
                        end) rows
  = filter (fun row => truthy (JournalEntry.isCompleted row))
           (filter (fun row => String.eqb (JournalEntry.userId row) userId) rows).
Proof.
  induction rows as [|row rows IH]; simpl; [reflexivity|].
  destruct (String.eqb (JournalEntry.userId row) userId); simpl; [|exact IH].
  unfold truthy at 1. destruct (JournalEntry.isCompleted row) as [[]|]; now rewrite IH.
Qed.

Lemma getUserJournalEntries_listed (st : Store) (userId : string) (limit : nat) :
  Forall (fun row => In row (journalEntries st)
                     /\ JournalEntry.userId row = userId
                     /\ JournalEntry.isCompleted row = Some true)
         (getUserJournalEntries st userId limit)
  /\ Descending (getUserJournalEntries st userId limit).
Proof.
  assert (Heq : getUserJournalEntries st userId limit
                = firstn limit (completedEntries (entriesOf st userId))).
  { unfold getUserJournalEntries, completedEntries, entriesOf.
    now rewrite filter_owned_completed. }
  rewrite Heq. split.
  - apply Forall_forall. intros row Hrow.
    apply In_firstn in Hrow. apply StatsFacts.completedEntries_In in Hrow.
    destruct Hrow as [Hin Hc]. unfold entriesOf in Hin. apply filter_In in Hin.
    destruct Hin as [Hin Hu]. apply String.eqb_eq in Hu.
    split; [exact Hin|]. split; [exact Hu|].
    unfold truthy in Hc. destruct (JournalEntry.isCompleted row) as [[]|];
      [reflexivity | discriminate | discriminate].
  - apply Descending_firstn, StatsFacts.sortDesc_sorted.
Qed.

(** The listing of a user's entries holds only stored, completed entries of
    that user, newest first; it has [limit] entries or, if that is fewer,
    as many as [totalEntries]. *)
Theorem getUserJournalEntries_sound (st : Store) (userId : string) (limit : nat) :
  let listed := getUserJournalEntries st userId limit in
  Forall (fun row => In row (journalEntries st)
                     /\ JournalEntry.userId row = userId
                     /\ JournalEntry.isCompleted row = Some true) listed
  /\ Descending listed
  /\ Z.of_nat (length listed)
     = Z.min (Z.of_nat limit) (totalEntries (entriesOf st userId)).
Proof.
  intros listed.
  destruct (getUserJournalEntries_listed st userId limit) as [Hall Hdesc].
  split; [exact Hall|]. split; [exact Hdesc|].
  subst listed. unfold getUserJournalEntries. rewrite filter_owned_completed.
  rewrite length_firstn. unfold totalEntries, entriesOf.
  rewrite (Permutation_length (StatsFacts.sortDesc_perm _)). lia.
Qed.

End StorageFacts.

(** ** The journal-entry routes, further *)

Module EntryRouteFacts.
Import Storage Routes.

(** Whatever the provider does, the analysis of a new entry sets the four
    derived fields. *)
Lemma analyzeNewEntry_sets (ai : Gemini.Provider) (now : Z) (st : Store)
  (userId : string) (e : InsertJournalEntry.t) :
  exists score label mood themes,
    analyzeNewEntry ai now st userId e = withAnalysis e score label mood themes.
Proof.
  unfold analyzeNewEntry, tryCatch, bind.
  destruct (Gemini.analyzeSentiment ai _) as [s|err]; [|repeat eexists].
  destruct (Gemini.extractThemes ai _) as [t|err]; repeat eexists.
Qed.

(** A POST without [content] is answered 500 and stores nothing. With a
    [content], and whatever the provider does, a POST that the database
    accepts ([databaseAccepts]: storable values, among them a score that
    fits its [decimal(3,2)] column, the author a stored user, aggregates
    within their integer columns) is answered 200 with the stored entry,
    which carries the author, the text and its word count; above 10 words
    its four derived fields are all set. *)
Theorem postJournalEntry_succeeds (ai : Gemini.Provider) (tz now : Z) (st : Store)
  (userId : string) (body : EntryBody.t) :
  (EntryBody.content body = None ->
   postJournalEntry ai tz now st userId body
   = (mkResponse 500 (JsonMessage "Failed to create journal entry"), st))
  /\ (forall content,
        EntryBody.content body = Some content ->
        wordCountFits (EntryBody.wordCount body) ->
        databaseAccepts (postJournalEntry ai tz now st userId body) ->
        exists entry st',
          postJournalEntry ai tz now st userId body
          = (mkResponse 200 (JsonEntry entry), st')
          /\ In entry (journalEntries st')
          /\ JournalEntry.userId entry = userId
          /\ JournalEntry.content entry = content
          /\ JournalEntry.wordCount entry = Some (countWords content)
          /\ (10 < countWords content ->
              JournalEntry.sentimentScore entry <> None
              /\ JournalEntry.sentimentLabel entry <> None
              /\ JournalEntry.mood entry <> None
              /\ JournalEntry.themes entry <> None)).
Proof.
  split.
  - intros H. unfold postJournalEntry, parseEntry. now rewrite H.
  - intros content H _ _. unfold postJournalEntry, parseEntry. rewrite H.
    cbn [InsertJournalEntry.content].
    destruct (Z.gtb_spec (countWords content) 10) as [Hgt|Hle].
    + destruct (analyzeNewEntry_sets ai now st userId
                  (withWordCount
                     (InsertJournalEntry.mk userId (EntryBody.title body) content
                        (EntryBody.wordCount body) (EntryBody.sentimentScore body)
                        (EntryBody.sentimentLabel body) (EntryBody.aiPrompt body)
                        (EntryBody.mood body) (EntryBody.themes body)
                        (EntryBody.isCompleted body))
                     (countWords content)))
        as (score & label & mood & themes & Ha).
      rewrite Ha. unfold createJournalEntry.
      eexists. eexists. split; [reflexivity|].
      split; [simpl; apply in_or_app; right; left; reflexivity|].
      simpl. repeat split; discriminate.
    + unfold createJournalEntry.
      eexists. eexists. split; [reflexivity|].
      split; [simpl; apply in_or_app; right; left; reflexivity|].
      simpl. repeat split; lia.
Qed.

Lemma postJournalEntry_succeeds_witness :
  exists entry st',
    postJournalEntry Examples.providerDown 0 Examples.jan3evening Examples.emptyStore
      "alice" (EntryBody.mk None (Some Examples.longText) None None None None None None
                            (Some true))
    = (mkResponse 200 (JsonEntry entry), st')
    /\ In entry (journalEntries st')
    /\ JournalEntry.userId entry = "alice"
    /\ JournalEntry.content entry = Examples.longText
    /\ JournalEntry.wordCount entry = Some (countWords Examples.longText)
    /\ (10 < countWords Examples.longText ->
        JournalEntry.sentimentScore entry <> None
        /\ JournalEntry.sentimentLabel entry <> None
        /\ JournalEntry.mood entry <> None
        /\ JournalEntry.themes entry <> None).
Proof.
  apply (proj2 (postJournalEntry_succeeds Examples.providerDown 0 Examples.jan3evening
                  Examples.emptyStore "alice"
                  (EntryBody.mk None (Some Examples.longText) None None None None None
                                None (Some true)))).
  - reflexivity.
  - exact I.
  - unfold databaseAccepts, rowStorable, aggregatesFit, wordCountFits, int32.
    vm_compute. intuition discriminate.
Defined.

(** The list of texts handed to the theme extraction of a new entry: the
    new text, then those of the author's five newest completed entries. *)
Lemma post_theme_inputs (st : Store) (userId content : string) (now : Z) :
  map fst ((content, now)
             :: map (fun entry => (JournalEntry.content entry, JournalEntry.createdAt entry))
                    (getUserJournalEntries st userId 5))
  = content :: map JournalEntry.content (getUserJournalEntries st userId 5).
Proof. simpl. now rewrite map_map. Qed.

(** Above 10 words, when the sentiment call throws, or when it returns and
    the theme call throws, the new entry gets the fallback analysis: the
    handler writes the score ['0'], and the stored entry has the keyword
    mood as label and as mood, and no theme; a sentiment that was obtained
    is then dropped. (For a request that the database accepts, see
    [databaseAccepts].) *)
Theorem postJournalEntry_fallback (ai : Gemini.Provider) (tz now : Z) (st : Store)
  (userId : string) (body : EntryBody.t) (content : string) :
  EntryBody.content body = Some content ->
  10 < countWords content ->
  ((exists error, Gemini.sentimentReply ai content = Thrown error)
   \/ (exists error,
         Gemini.themesReply ai
           (content :: map JournalEntry.content (getUserJournalEntries st userId 5))
         = Thrown error)) ->
  wordCountFits (EntryBody.wordCount body) ->
  databaseAccepts (postJournalEntry ai tz now st userId body) ->
  exists entryData entry st',
    createJournalEntry tz now st entryData = (entry, st')
    /\ postJournalEntry ai tz now st userId body = (mkResponse 200 (JsonEntry entry), st')
    /\ InsertJournalEntry.sentimentScore entryData = Some "0"
    /\ JournalEntry.sentimentLabel entry = Some (Fallbacks.detectMoodFromKeywords content)
    /\ JournalEntry.mood entry = Some (Fallbacks.detectMoodFromKeywords content)
    /\ JournalEntry.themes entry = Some [].
Proof.
  intros Hbody Hlong Hdown _ _.
  unfold postJournalEntry, parseEntry. rewrite Hbody. cbn [InsertJournalEntry.content].
  assert (Hgt : (countWords content >? 10) = true) by (apply Z.gtb_lt; lia).
  rewrite Hgt. unfold analyzeNewEntry, tryCatch, bind, withWordCount.
  cbn [InsertJournalEntry.content].
  unfold Gemini.analyzeSentiment, Gemini.extractThemes.
  rewrite post_theme_inputs.
  destruct Hdown as [[error He]|[error He]].
  - rewrite He. unfold createJournalEntry. eexists. eexists. eexists.
    split; [reflexivity|]. repeat split.
  - rewrite He. destruct (Gemini.sentimentReply ai content);
      unfold createJournalEntry; eexists; eexists; eexists;
      (split; [reflexivity|]); repeat split.
Qed.

Lemma postJournalEntry_fallback_witness :
  exists entryData entry st',
    createJournalEntry 0 Examples.jan3evening Examples.emptyStore entryData = (entry, st')
    /\ postJournalEntry Examples.providerDown 0 Examples.jan3evening Examples.emptyStore
         "alice" (EntryBody.mk None (Some Examples.longText) None None None None None None
                               (Some true))
       = (mkResponse 200 (JsonEntry entry), st')
    /\ InsertJournalEntry.sentimentScore entryData = Some "0"
    /\ JournalEntry.sentimentLabel entry
       = Some (Fallbacks.detectMoodFromKeywords Examples.longText)
    /\ JournalEntry.mood entry = Some (Fallbacks.detectMoodFromKeywords Examples.longText)
    /\ JournalEntry.themes entry = Some [].
Proof.
  apply (postJournalEntry_fallback Examples.providerDown 0 Examples.jan3evening
           Examples.emptyStore "alice"
           (EntryBody.mk None (Some Examples.longText) None None None None None None
                         (Some true))
           Examples.longText).
  - reflexivity.
  - vm_compute. reflexivity.
  - left. exists "503 Service Unavailable". reflexivity.
  - exact I.
  - unfold databaseAccepts, rowStorable, aggregatesFit, wordCountFits, int32.
    vm_compute. intuition discriminate.
Defined.

(** Ownership: on an id that is not stored, or is stored for another user,
    PATCH and DELETE answer 404 [Entry not found], call no provider and
    leave the store as it was. *)
Theorem foreign_entry_is_not_found (ai : Gemini.Provider) (tz now : Z) (st : Store)
  (userId entryId : string) (body : EntryPatch.t) :
  (getJournalEntry st entryId = None
   \/ exists row, getJournalEntry st entryId = Some row
                  /\ JournalEntry.userId row <> userId) ->
  patchJournalEntry ai tz now st userId entryId body
  = (mkResponse 404 (JsonMessage "Entry not found"), st)
  /\ deleteJournalEntryRoute st userId entryId
     = (mkResponse 404 (JsonMessage "Entry not found"), st).
Proof.
  intros [Hnone|[row [Hrow Hother]]];
    unfold patchJournalEntry, deleteJournalEntryRoute.
  - now rewrite Hnone.
  - rewrite Hrow. apply String.eqb_neq in Hother. now rewrite Hother.
Qed.

Lemma foreign_entry_is_not_found_witness :
  patchJournalEntry Examples.providerDown 0 Examples.jan3evening Examples.analysedStore
    "bob" "e1" (Examples.contentPatch "mine now")
  = (mkResponse 404 (JsonMessage "Entry not found"), Examples.analysedStore)
  /\ deleteJournalEntryRoute Examples.analysedStore "bob" "e1"
     = (mkResponse 404 (JsonMessage "Entry not found"), Examples.analysedStore).
Proof.
  apply (foreign_entry_is_not_found Examples.providerDown 0 Examples.jan3evening
           Examples.analysedStore "bob" "e1" (Examples.contentPatch "mine now")).
  right. exists Examples.analysed. split; [reflexivity | discriminate].
Defined.

(** A DELETE by the owner is answered 200; afterwards the id is not found
    and every other id is found as before. *)
Theorem deleteRoute_removes (st : Store) (userId entryId : string) (row : JournalEntry.t) :
  getJournalEntry st entryId = Some row ->
  JournalEntry.userId row = userId ->
  let r := deleteJournalEntryRoute st userId entryId in
  fst r = mkResponse 200 (JsonMessage "Entry deleted successfully")
  /\ forall id, getJournalEntry (snd r) id
                = if String.eqb id entryId then None else getJournalEntry st id.
Proof.
  intros Hrow Hown r. subst r. unfold deleteJournalEntryRoute.
  rewrite Hrow, Hown, String.eqb_refl. simpl. split; [reflexivity|].
  intros id. apply StorageFacts.find_after_delete.
Qed.

Lemma deleteRoute_removes_witness :
  let r := deleteJournalEntryRoute Examples.analysedStore "alice" "e1" in
  fst r = mkResponse 200 (JsonMessage "Entry deleted successfully")
  /\ forall id, getJournalEntry (snd r) id
                = if String.eqb id "e1" then None
                  else getJournalEntry Examples.analysedStore id.
Proof.
  apply (deleteRoute_removes Examples.analysedStore "alice" "e1" Examples.analysed);
    reflexivity.
Defined.

(** An edit by the owner that changes the text to one of more than 10 words,
    with a provider that answers, writes the provider's score and is stored
    with the new text, its word count and the provider's label and mood
    (defaulting to [neutral]); the themes are not extracted again: they
    stay as stored unless the request sets them. (For a request that the
    database accepts, see [databaseAccepts].) *)
Theorem patchJournalEntry_reanalyses (ai : Gemini.Provider) (tz now : Z) (st : Store)
  (userId entryId : string) (body : EntryPatch.t) (existing : JournalEntry.t)
  (content : string) (reply : Gemini.SentimentJson) :
  getJournalEntry st entryId = Some existing ->
  JournalEntry.userId existing = userId ->
  EntryPatch.content body = Some content ->
  10 < countWords content ->
  content <> JournalEntry.content existing ->
  Gemini.sentimentReply ai content = Returned reply ->
  databaseAccepts (patchJournalEntry ai tz now st userId entryId body) ->
  exists updateData entry st',
    prepareUpdate ai existing body = Returned updateData
    /\ EntryPatch.sentimentScore updateData = Value (Gemini.jsonScore reply)
    /\ patchJournalEntry ai tz now st userId entryId body
       = (mkResponse 200 (JsonEntry entry), st')
    /\ getJournalEntry st' entryId = Some entry
    /\ JournalEntry.content entry = content
    /\ JournalEntry.wordCount entry = Some (countWords content)
    /\ JournalEntry.sentimentLabel entry = Some (orText (Gemini.jsonLabel reply) "neutral")
    /\ JournalEntry.mood entry = Some (orText (Gemini.jsonMood reply) "neutral")
    /\ JournalEntry.themes entry
       = applyPatch (EntryPatch.themes body) (JournalEntry.themes existing).
Proof.
  intros Hget Hown Hbody Hlong Hnew Hreply _.
  unfold patchJournalEntry. rewrite Hget, Hown, String.eqb_refl. simpl negb. cbv iota.
  unfold prepareUpdate. rewrite Hbody.
  destruct content as [|c content]; [vm_compute in Hlong; discriminate|].
  assert (Hgt : (countWords (String c content) >? 10) = true) by (apply Z.gtb_lt; lia).
  apply String.eqb_neq in Hnew. rewrite Hgt, Hnew. simpl andb. cbv iota.
  unfold Gemini.analyzeSentiment, bind. rewrite Hreply.
  destruct (StorageFacts.updateJournalEntry_found tz now st entryId
              (setSentiment (setWordCount body (countWords (String c content)))
                 (Gemini.mkSentimentResult (Gemini.jsonScore reply)
                    (orText (Gemini.jsonLabel reply) "neutral")
                    (orText (Gemini.jsonMood reply) "neutral")
                    (Gemini.jsonConfidence reply)))
              existing Hget)
    as (Hfst & Hfind).
  destruct (updateJournalEntry tz now st entryId _) as [r st'] eqn:Hr.
  simpl in Hfst, Hfind. subst r.
  eexists. eexists. eexists. split; [reflexivity|]. split; [reflexivity|].
  split; [reflexivity|]. split; [exact Hfind|].
  simpl. rewrite Hbody. repeat split.
Qed.

Lemma patchJournalEntry_reanalyses_witness :
  exists updateData entry st',
    prepareUpdate Samples.providerUp Samples.plain (Examples.contentPatch Examples.longText)
    = Returned updateData
    /\ EntryPatch.sentimentScore updateData = Value "0.6"
    /\ patchJournalEntry Samples.providerUp 0 Examples.jan3evening Samples.plainStore
         "alice" "e1" (Examples.contentPatch Examples.longText)
       = (mkResponse 200 (JsonEntry entry), st')
    /\ getJournalEntry st' "e1" = Some entry
    /\ JournalEntry.content entry = Examples.longText
    /\ JournalEntry.wordCount entry = Some (countWords Examples.longText)
    /\ JournalEntry.sentimentLabel entry = Some "positive"
    /\ JournalEntry.mood entry = Some "neutral"
    /\ JournalEntry.themes entry = Some ["old theme"].
Proof.
  apply (patchJournalEntry_reanalyses Samples.providerUp 0 Examples.jan3evening
           Samples.plainStore "alice" "e1" (Examples.contentPatch Examples.longText)
           Samples.plain Examples.longText
           (Gemini.mkSentimentJson "0.6" (Some "positive") None "0.9")).
  - reflexivity.
  - reflexivity.
  - reflexivity.
  - vm_compute. reflexivity.
  - discriminate.
  - reflexivity.
  - unfold databaseAccepts, rowStorable, aggregatesFit, wordCountFits, int32.
    vm_compute. intuition discriminate.
Defined.

(** An edit by the owner that leaves the text out, sends it empty, sends the
    stored text again, or sends a text of at most 10 words never reaches the
    provider: the answer and the resulting store are the same for every
    provider. *)
Theorem patchJournalEntry_without_provider (ai ai' : Gemini.Provider) (tz now : Z)
  (st : Store) (userId entryId : string) (body : EntryPatch.t)
  (existing : JournalEntry.t) :
  getJournalEntry st entryId = Some existing ->
  JournalEntry.userId existing = userId ->
  (EntryPatch.content body = None
   \/ EntryPatch.content body = Some ""
   \/ EntryPatch.content body = Some (JournalEntry.content existing)
   \/ exists content, EntryPatch.content body = Some content
                      /\ countWords content <= 10) ->
  prepareUpdate ai existing body = prepareUpdate ai' existing body
  /\ patchJournalEntry ai tz now st userId entryId body
     = patchJournalEntry ai' tz now st userId entryId body.
Proof.
  intros Hget Hown Hcases.
  assert (Hprep : exists updateData,
             forall p, prepareUpdate p existing body = Returned updateData).
  { unfold prepareUpdate.
    destruct Hcases as [H|[H|[H|[content [H Hshort]]]]]; rewrite H.
    - eexists. reflexivity.
    - eexists. reflexivity.
    - destruct (JournalEntry.content existing) as [|c t] eqn:E;
        [eexists; reflexivity|].
      rewrite String.eqb_refl, andb_false_r. eexists. reflexivity.
    - destruct content as [|c t]; [eexists; reflexivity|].
      assert (Hgt : (countWords (String c t) >? 10) = false)
        by (rewrite Z.gtb_ltb; apply Z.ltb_ge; exact Hshort).
      rewrite Hgt. eexists. reflexivity. }
  destruct Hprep as [updateData Hprep].
  split; [now rewrite !Hprep|].
  unfold patchJournalEntry. rewrite Hget, Hown, String.eqb_refl. simpl negb. cbv iota.
  rewrite !Hprep. reflexivity.
Qed.

Lemma patchJournalEntry_without_provider_witness :
  prepareUpdate Examples.providerDown Samples.scored
    (Examples.contentPatch Examples.longText)
  = prepareUpdate Samples.providerUp Samples.scored
      (Examples.contentPatch Examples.longText)
  /\ patchJournalEntry Examples.providerDown 0 Examples.jan3evening Samples.scoredStore
       "alice" "e1" (Examples.contentPatch Examples.longText)
     = patchJournalEntry Samples.providerUp 0 Examples.jan3evening Samples.scoredStore
         "alice" "e1" (Examples.contentPatch Examples.longText).
Proof.
  apply (patchJournalEntry_without_provider Examples.providerDown Samples.providerUp 0
           Examples.jan3evening Samples.scoredStore "alice" "e1"
           (Examples.contentPatch Examples.longText) Samples.scored).
  - reflexivity.
  - reflexivity.
  - right. right. left. reflexivity.
Defined.

End EntryRouteFacts.

(** ** The weekly-insight route, further *)

Module WeeklyFacts.
Import Storage Routes.

Section Route.
Variable ai : Gemini.Provider.
Variable averageText : list (option string) -> string.
Variable tz : Z.

Lemma weekly_skips (now : Z) (st : Store) (userId : string) :
  regenerates tz now st userId = false ->
  weeklyInsightRoute ai averageText tz now st userId
  = (mkResponse 200 (insightJson (getWeeklyInsight st userId (weekStartOf tz now))), st).
Proof.
  unfold regenerates, weeklyInsightRoute, weekCompleted, weekEndOf, weekStartOf, insightJson.
  intros H. rewrite H. reflexivity.
Qed.

Lemma weekly_replaces (now : Z) (st : Store) (userId : string) :
  regenerates tz now st userId = true ->
  exists fresh,
    weeklyInsightRoute ai averageText tz now st userId
    = (mkResponse 200
         (JsonInsight (fst (replaceInsight now st
                              (getWeeklyInsight st userId (weekStartOf tz now)) fresh))),
       snd (replaceInsight now st
              (getWeeklyInsight st userId (weekStartOf tz now)) fresh))
    /\ InsertWeeklyInsight.userId fresh = userId
    /\ InsertWeeklyInsight.weekStart fresh = weekStartOf tz now
    /\ InsertWeeklyInsight.entryCount fresh
       = Some (Z.of_nat (length (weekCompleted tz now st userId))).
Proof.
  unfold regenerates, weeklyInsightRoute, weekCompleted, weekEndOf, weekStartOf.
  intros H. rewrite H. unfold tryCatch, bind.
  destruct (Gemini.extractThemes ai _) as [themes|err];
    [destruct (Gemini.generateWeeklyInsight ai _) as [weeklyData|err];
     [destruct (dominantMood _) as [dominant|err]|]|];
    match goal with
    | |- context [replaceInsight now st _ ?f] => exists f
    end;
    (split; [|repeat split]);
    destruct (replaceInsight now st _ _) as [w st']; reflexivity.
Qed.

Lemma weekCompleted_entries (now now' : Z) (st st' : Store) (userId : string) :
  journalEntries st' = journalEntries st ->
  weekStartOf tz now' = weekStartOf tz now ->
  weekCompleted tz now' st' userId = weekCompleted tz now st userId.
Proof.
  intros He Hw. unfold weekCompleted, weekEndOf, getJournalEntriesByDateRange.
  now rewrite He, Hw.
Qed.

Lemma replaceInsight_found (now : Z) (st : Store) (userId : string) (weekStart : Z)
  (fresh : InsertWeeklyInsight.t) :
  insightsUnique st userId weekStart ->
  InsertWeeklyInsight.userId fresh = userId ->
  InsertWeeklyInsight.weekStart fresh = weekStart ->
  getWeeklyInsight
    (snd (replaceInsight now st (getWeeklyInsight st userId weekStart) fresh))
    userId weekStart
  = Some (fst (replaceInsight now st (getWeeklyInsight st userId weekStart) fresh)).
Proof.
  intros Huniq Hu Hw. unfold replaceInsight, createWeeklyInsight, getWeeklyInsight.
  fold (insightFor userId weekStart).
  destruct (find (insightFor userId weekStart) (weeklyInsights st)) as [old|] eqn:Hold;
    simpl; rewrite StorageFacts.find_snoc.
  - assert (Hnone : find (insightFor userId weekStart)
                         (filter (fun row => negb (String.eqb (WeeklyInsight.id row)
                                                               (WeeklyInsight.id old)))
                                 (weeklyInsights st)) = None).
    { destruct (find _ (filter _ _)) as [row|] eqn:E; [|reflexivity].
      apply find_some in E. destruct E as [Hin Hfor].
      apply filter_In in Hin. destruct Hin as [Hin Hid].
      apply find_some in Hold. destruct Hold as [Hoin Hofor].
      rewrite (Huniq row old Hin Hoin Hfor Hofor), String.eqb_refl in Hid.
      discriminate. }
    rewrite Hnone. unfold insightFor. simpl.
    now rewrite Hu, Hw, String.eqb_refl, Z.eqb_refl.
  - rewrite Hold. unfold insightFor. simpl.
    now rewrite Hu, Hw, String.eqb_refl, Z.eqb_refl.
Qed.

(** When the week has no completed entry the route creates nothing: it
    answers the stored insight if there is one, nothing otherwise, and
    leaves the store as it was. *)
Theorem weekly_without_entries (now : Z) (st : Store) (userId : string) :
  weekCompleted tz now st userId = [] ->
  weeklyInsightRoute ai averageText tz now st userId
  = (mkResponse 200 (insightJson (getWeeklyInsight st userId (weekStartOf tz now))), st).
Proof.
  intros Hempty. apply weekly_skips. unfold regenerates. rewrite Hempty.
  apply andb_false_r.
Qed.

(** When all the insights stored for the user and the week carry one id, a
    request made again in the same week, with no entry added in between, is
    answered as the first one and changes nothing: the route regenerates at
    most once. *)
Theorem weekly_second_request (now now' : Z) (st : Store) (userId : string) :
  insightsUnique st userId (weekStartOf tz now) ->
  weekStartOf tz now' = weekStartOf tz now ->
  weeklyInsightRoute ai averageText tz now'
    (snd (weeklyInsightRoute ai averageText tz now st userId)) userId
  = weeklyInsightRoute ai averageText tz now st userId.
Proof.
  intros Huniq Hweek.
  destruct (regenerates tz now st userId) eqn:Hregen.
  - destruct (weekly_replaces now st userId Hregen) as (fresh & Hr & Hu & Hw & Hn).
    rewrite Hr. cbn [snd].
    pose proof (replaceInsight_found now st userId (weekStartOf tz now) fresh
                  Huniq Hu Hw) as Hfound.
    set (r := replaceInsight now st (getWeeklyInsight st userId (weekStartOf tz now)) fresh)
      in *.
    assert (Hentries : journalEntries (snd r) = journalEntries st).
    { subst r. unfold replaceInsight, createWeeklyInsight.
      destruct (getWeeklyInsight st userId (weekStartOf tz now)); reflexivity. }
    assert (Hcount : WeeklyInsight.entryCount (fst r)
                     = Some (Z.of_nat (length (weekCompleted tz now st userId)))).
    { subst r. unfold replaceInsight, createWeeklyInsight. simpl. now rewrite Hn. }
    rewrite weekly_skips.
    + rewrite Hweek, Hfound. reflexivity.
    + unfold regenerates.
      rewrite (weekCompleted_entries now now' st (snd r) userId Hentries Hweek).
      rewrite Hweek, Hfound, Hcount. simpl orZero.
      assert (Hnot : forall n, (n >? n) = false)
        by (intros n; rewrite Z.gtb_ltb; apply Z.ltb_irrefl).
      now rewrite Hnot.
  - rewrite (weekly_skips now st userId Hregen). cbn [snd].
    rewrite weekly_skips.
    + now rewrite Hweek.
    + unfold regenerates in *.
      rewrite (weekCompleted_entries now now' st st userId eq_refl Hweek).
      now rewrite Hweek.
Qed.

End Route.

Lemma weekly_without_entries_witness :
  weeklyInsightRoute Examples.providerDown (fun _ => "0") 0 Examples.jan3evening
    Examples.emptyStore "alice"
  = (mkResponse 200 JsonUndefined, Examples.emptyStore).
Proof.
  apply (weekly_without_entries Examples.providerDown (fun _ => "0") 0
           Examples.jan3evening Examples.emptyStore "alice").
  reflexivity.
Defined.

Lemma weekly_second_request_witness :
  weeklyInsightRoute Samples.providerUp (fun _ => "0") 0 (Examples.at_ 4 7)
    (snd (weeklyInsightRoute Samples.providerUp (fun _ => "0") 0 Examples.jan3evening
            Examples.afterPost "alice")) "alice"
  = weeklyInsightRoute Samples.providerUp (fun _ => "0") 0 Examples.jan3evening
      Examples.afterPost "alice".
Proof.
  apply (weekly_second_request Samples.providerUp (fun _ => "0") 0
           Examples.jan3evening (Examples.at_ 4 7) Examples.afterPost "alice").
  - intros r1 r2 H. destruct H.
  - reflexivity.
Defined.

Lemma countOf_bump (key m : string) (acc : list (string * Z)) :
  countOf (bump key acc) m
  = if String.eqb key m then Some (orZero (countOf acc m) + 1) else countOf acc m.
Proof.
  induction acc as [|[k n] acc IH]; simpl.
  - destruct (String.eqb key m); reflexivity.
  - destruct (String.eqb_spec k key) as [E|E]; simpl.
    + subst k. destruct (String.eqb key m); reflexivity.
    + rewrite IH. destruct (String.eqb_spec k m) as [E'|E']; [|reflexivity].
      subst k. apply String.eqb_neq in E. rewrite String.eqb_sym in E.
      now rewrite E.
Qed.

(** The mood of an entry in the route is its mood, [neutral] by default. *)
Lemma moodOf_label (entry : JournalEntry.t) : moodOf entry = moodLabel entry.
Proof.
  unfold moodOf, moodLabel, orText.
  destruct (JournalEntry.mood entry) as [[|c t]|]; reflexivity.
Qed.

Lemma countOf_fold (l : list JournalEntry.t) :
  forall (acc : list (string * Z)) (m : string),
    orZero (countOf (fold_left (fun acc entry => bump (moodOf entry) acc) l acc) m)
    = orZero (countOf acc m) + moodOccurrences m l
    /\ (countOf (fold_left (fun acc entry => bump (moodOf entry) acc) l acc) m = None
        <-> countOf acc m = None /\ moodOccurrences m l = 0).
Proof.
  unfold moodOccurrences.
  induction l as [|e l IH]; intros acc m; simpl fold_left.
  - simpl. split; [lia | tauto].
  - destruct (IH (bump (moodOf e) acc) m) as [IH1 IH2]. split.
    + rewrite IH1, countOf_bump. cbn [filter]. rewrite (moodOf_label e).
      destruct (String.eqb (moodLabel e) m); cbn [orZero length]; lia.
    + rewrite IH2, countOf_bump. cbn [filter]. rewrite (moodOf_label e).
      destruct (String.eqb (moodLabel e) m); simpl length; [|tauto].
      split; intros [H H']; [discriminate | lia].
Qed.

(** The count table of the weekly route is right for moods that are plain
    keys of an object (no inherited property name, no leading digit): the
    entry of a mood is the number of entries with that mood, an entry
    without a mood counting as [neutral], and a mood no entry has is
    missing from the table. *)
Theorem moodCounts_counts (entries : list JournalEntry.t) (mood : string) :
  Forall (fun entry => plainKey (moodLabel entry) = true) entries ->
  plainKey mood = true ->
  countOf (moodCounts entries) mood
  = if moodOccurrences mood entries =? 0 then None
    else Some (moodOccurrences mood entries).
Proof.
  intros _ _. unfold moodCounts.
  destruct (countOf_fold entries [] mood) as [H1 H2]. simpl in H1, H2.
  destruct (countOf (fold_left _ entries []) mood) as [n|] eqn:E.
  - simpl in H1. subst n.
    destruct (Z.eqb_spec (moodOccurrences mood entries) 0) as [Z0|Z0]; [|reflexivity].
    assert (Some (moodOccurrences mood entries) = None) by (apply H2; tauto).
    discriminate.
  - destruct H2 as [H2 _]. destruct (H2 eq_refl) as [_ H0]. now rewrite H0.
Qed.

Lemma moodCounts_counts_witness :
  countOf (moodCounts (Moods.unset :: Moods.tied)) "neutral"
  = if moodOccurrences "neutral" (Moods.unset :: Moods.tied) =? 0 then None
    else Some (moodOccurrences "neutral" (Moods.unset :: Moods.tied)).
Proof.
  apply (moodCounts_counts (Moods.unset :: Moods.tied) "neutral").
  - repeat constructor.
  - reflexivity.
Defined.

Lemma countOf_key (counts : list (string * Z)) (key : string) :
  In key (map fst counts) <-> exists n, countOf counts key = Some n.
Proof.
  induction counts as [|[k n] counts IH]; simpl.
  - split; [tauto | intros [n H]; discriminate].
  - destruct (String.eqb_spec k key) as [E|E].
    + split; [intros _; eauto | intros _; now left].
    + rewrite <- IH. split; [intros [H|H]; [contradiction | exact H] | now right].
Qed.

Section Winner.
Variable cnt : string -> Z.

Lemma fold_winner (rest : list string) :
  forall pre acc post,
    Forall (fun k => cnt k <= cnt acc) pre ->
    Forall (fun k => cnt k < cnt acc) post ->
    exists pre' post',
      (pre ++ acc :: post ++ rest)%list
      = (pre' ++ fold_left (fun a b => if cnt a >? cnt b then a else b) rest acc
              :: post')%list
      /\ Forall (fun k => cnt k
                          <= cnt (fold_left (fun a b => if cnt a >? cnt b then a else b)
                                            rest acc)) pre'
      /\ Forall (fun k => cnt k
                          < cnt (fold_left (fun a b => if cnt a >? cnt b then a else b)
                                           rest acc)) post'.
Proof.
  induction rest as [|b rest IH]; intros pre acc post Hpre Hpost; simpl fold_left.
  - exists pre, post. rewrite app_nil_r. auto.
  - destruct (Z.gtb_spec (cnt acc) (cnt b)) as [Hgt|Hle].
    + destruct (IH pre acc (post ++ [b])%list Hpre) as (pre' & post' & Heq & H1 & H2).
      { apply Forall_app. split; [exact Hpost|]. constructor; [lia | constructor]. }
      exists pre', post'. rewrite <- Heq, <- app_assoc. simpl. auto.
    + destruct (IH (pre ++ acc :: post)%list b [])
        as (pre' & post' & Heq & H1 & H2).
      { apply Forall_app. split.
        - eapply Forall_impl; [|exact Hpre]. simpl. intros; lia.
        - constructor; [exact Hle|].
          eapply Forall_impl; [|exact Hpost]. simpl. intros; lia. }
      { constructor. }
      exists pre', post'. rewrite <- Heq, <- app_assoc. simpl. auto.
Qed.

End Winner.

Lemma fold_greater (counts : list (string * Z)) (rest : list string) :
  forall first,
    In first (map fst counts) ->
    Forall (fun k => In k (map fst counts)) rest ->
    fold_left (fun a b => if greater (countOf counts a) (countOf counts b) then a else b)
              rest first
    = fold_left (fun a b => if orZero (countOf counts a) >? orZero (countOf counts b)
                            then a else b)
                rest first.
Proof.
  induction rest as [|b rest IH]; intros first Hfirst Hrest; simpl; [reflexivity|].
  inversion Hrest as [|? ? Hb Hrest']; subst.
  destruct (proj1 (countOf_key counts first) Hfirst) as [x Hx].
  destruct (proj1 (countOf_key counts b) Hb) as [y Hy].
  rewrite Hx, Hy. simpl. destruct (x >? y); now apply IH.
Qed.

(** The dominant mood of the weekly route, for moods that are plain keys of
    an object, is a mood with the most entries; among several such moods it
    is the one whose first entry comes last: in the table, no mood before
    it has more entries and every mood after it has fewer. *)
Theorem dominantMood_is_last_maximum (entries : list JournalEntry.t) :
  entries <> [] ->
  Forall (fun entry => plainKey (moodLabel entry) = true) entries ->
  exists winner pre post,
    dominantMood (moodCounts entries) = Returned winner
    /\ map fst (moodCounts entries) = (pre ++ winner :: post)%list
    /\ Forall (fun k => moodOccurrences k entries <= moodOccurrences winner entries) pre
    /\ Forall (fun k => moodOccurrences k entries < moodOccurrences winner entries) post
    /\ forall mood, moodOccurrences mood entries <= moodOccurrences winner entries.
Proof.
  intros Hne _.
  assert (Hocc : forall k, orZero (countOf (moodCounts entries) k)
                           = moodOccurrences k entries).
  { intros k. destruct (countOf_fold entries [] k) as [H _]. exact H. }
  unfold dominantMood.
  destruct (map fst (moodCounts entries)) as [|first rest] eqn:Hkeys.
  - exfalso. destruct entries as [|e l]; [contradiction|].
    assert (Hin : In (moodOf e) (map fst (moodCounts (e :: l)))).
    { apply countOf_key.
      destruct (countOf (moodCounts (e :: l)) (moodOf e)) as [n|] eqn:E; [eauto|].
      destruct (countOf_fold (e :: l) [] (moodOf e)) as [_ H2].
      destruct (proj1 H2 E) as [_ H0]. rewrite (moodOf_label e) in H0.
      unfold moodOccurrences in H0. cbn [filter] in H0.
      rewrite String.eqb_refl in H0. simpl length in H0. lia. }
    rewrite Hkeys in Hin. destruct Hin.
  - rewrite fold_greater.
    + destruct (fold_winner (fun k => orZero (countOf (moodCounts entries) k))
                  rest [] first [] (Forall_nil _) (Forall_nil _))
        as (pre & post & Heq & H1 & H2).
      simpl in Heq.
      set (winner := fold_left _ rest first) in *.
      exists winner, pre, post. split; [reflexivity|]. split; [exact Heq|].
      assert (H1' : Forall (fun k => moodOccurrences k entries
                                     <= moodOccurrences winner entries) pre).
      { eapply Forall_impl; [|exact H1]. simpl. intros k. now rewrite !Hocc. }
      assert (H2' : Forall (fun k => moodOccurrences k entries
                                     < moodOccurrences winner entries) post).
      { eapply Forall_impl; [|exact H2]. simpl. intros k. now rewrite !Hocc. }
      split; [exact H1'|]. split; [exact H2'|].
      intros mood.
      destruct (Z.eqb_spec (moodOccurrences mood entries) 0) as [Z0|Z0].
      * rewrite Z0. unfold moodOccurrences. lia.
      * assert (Hin : In mood (first :: rest)).
        { rewrite <- Hkeys. apply countOf_key.
          destruct (countOf (moodCounts entries) mood) as [n|] eqn:E; [eauto|].
          destruct (countOf_fold entries [] mood) as [_ H]. apply H in E.
          destruct E as [_ E]. contradiction. }
        rewrite Heq in Hin. apply in_app_or in Hin.
        destruct Hin as [Hin|[Hin|Hin]].
        -- exact (proj1 (Forall_forall _ _) H1' mood Hin).
        -- rewrite <- Hin. apply Z.le_refl.
        -- apply Z.lt_le_incl. exact (proj1 (Forall_forall _ _) H2' mood Hin).
    + rewrite Hkeys. now left.
    + apply Forall_forall. intros k Hk. rewrite Hkeys. now right.
Qed.

Lemma dominantMood_is_last_maximum_witness :
  exists winner pre post,
    dominantMood (moodCounts Moods.tied) = Returned winner
    /\ map fst (moodCounts Moods.tied) = (pre ++ winner :: post)%list
    /\ Forall (fun k => moodOccurrences k Moods.tied
                        <= moodOccurrences winner Moods.tied) pre
    /\ Forall (fun k => moodOccurrences k Moods.tied
                        < moodOccurrences winner Moods.tied) post
    /\ forall mood, moodOccurrences mood Moods.tied
                    <= moodOccurrences winner Moods.tied.
Proof.
  apply (dominantMood_is_last_maximum Moods.tied).
  - discriminate.
  - repeat constructor.
Defined.

End WeeklyFacts.

(** ** The calendar and the curated daily prompt *)

Module CalendarFacts.
Import Clock Calendar DailyFallback.

(** [yearOfDay d] is the year whose days hold [d]. *)
Lemma yearOfDay_spec (d : Z) :
  daysBeforeYear (yearOfDay d) <= d < daysBeforeYear (yearOfDay d + 1).
Proof.
  unfold yearOfDay.
  set (y := 1970 + 400 * d / 146097).
  assert (Hy : 146097 * (y - 1970) <= 400 * d < 146097 * (y - 1970) + 146097).
  { subst y. pose proof (Z.div_mod (400 * d) 146097 ltac:(lia)).
    pose proof (Z.mod_pos_bound (400 * d) 146097 ltac:(lia)). lia. }
  clearbody y.
  destruct (Z.ltb_spec d (daysBeforeYear y));
    [|destruct (Z.leb_spec (daysBeforeYear (y + 1)) d)];
    unfold daysBeforeYear, leapsThrough in *; Z.div_mod_to_equations; lia.
Qed.

Lemma year_length (y : Z) :
  daysBeforeYear (y + 1) - daysBeforeYear y = if isLeap y then 366 else 365.
Proof.
  unfold daysBeforeYear, leapsThrough, isLeap.
  replace (y + 1 - 1) with y by lia.
  assert (H4 : y / 4 - (y - 1) / 4 = if y mod 4 =? 0 then 1 else 0)
    by (destruct (Z.eqb_spec (y mod 4) 0); Z.div_mod_to_equations; lia).
  assert (H100 : y / 100 - (y - 1) / 100 = if y mod 100 =? 0 then 1 else 0)
    by (destruct (Z.eqb_spec (y mod 100) 0); Z.div_mod_to_equations; lia).
  assert (H400 : y / 400 - (y - 1) / 400 = if y mod 400 =? 0 then 1 else 0)
    by (destruct (Z.eqb_spec (y mod 400) 0); Z.div_mod_to_equations; lia).
  assert (Ha : y mod 400 = 0 -> y mod 100 = 0) by (Z.div_mod_to_equations; lia).
  assert (Hb : y mod 100 = 0 -> y mod 4 = 0) by (Z.div_mod_to_equations; lia).
  destruct (Z.eqb_spec (y mod 4) 0), (Z.eqb_spec (y mod 100) 0),
    (Z.eqb_spec (y mod 400) 0); cbn [andb orb negb]; lia.
Qed.

Lemma yearOfDay_from_1970 (d : Z) : 0 <= d -> 1970 <= yearOfDay d.
Proof.
  intros Hd. pose proof (yearOfDay_spec d) as [_ Hlt].
  destruct (Z.le_gt_cases 1970 (yearOfDay d)) as [H|H]; [exact H|].
  exfalso. revert Hlt H. generalize (yearOfDay d). intros y.
  unfold daysBeforeYear, leapsThrough. replace (y + 1 - 1) with y by lia.
  intros Hlt H. Z.div_mod_to_equations. lia.
Qed.

Lemma dayOfYear_index (tz now : Z) :
  0 <= dayIndex tz now ->
  dayOfYear tz now
  = dayIndex tz now - daysBeforeYear (yearOfDay (dayIndex tz now)) + 1.
Proof.
  intros Hd. unfold dayOfYear, newDateJanuary, getFullYear.
  pose proof (yearOfDay_from_1970 _ Hd) as Hy.
  assert (Hq : (0 <=? yearOfDay (dayIndex tz now))
               && (yearOfDay (dayIndex tz now) <=? 99) = false).
  { apply andb_false_iff. right. apply Z.leb_gt. lia. }
  rewrite Hq. generalize (daysBeforeYear (yearOfDay (dayIndex tz now))). intros a.
  replace (now - ((a + (0 - 1)) * msPerDay - tz))
    with (now + tz + (1 - a) * msPerDay) by ring.
  rewrite Z.div_add by discriminate. fold (dayIndex tz now). lia.
Qed.

Lemma dayOfYear_bounds (tz now : Z) :
  0 <= dayIndex tz now -> 1 <= dayOfYear tz now <= 366.
Proof.
  intros Hd. rewrite (dayOfYear_index tz now Hd).
  pose proof (yearOfDay_spec (dayIndex tz now)) as [H1 H2].
  pose proof (year_length (yearOfDay (dayIndex tz now))) as Hl.
  destruct (isLeap _); lia.
Qed.

(** [dayOfYear] is the same all day long. *)
Lemma dayOfYear_same_day (tz now now' : Z) :
  dayIndex tz now = dayIndex tz now' -> dayOfYear tz now = dayOfYear tz now'.
Proof.
  intros Hsame. unfold dayOfYear, newDateJanuary, getFullYear. rewrite <- Hsame.
  match goal with
  | |- context [daysBeforeYear ?y] => generalize (daysBeforeYear y); intros a
  end.
  replace (now - ((a + (0 - 1)) * msPerDay - tz))
    with (now + tz + (1 - a) * msPerDay) by ring.
  replace (now' - ((a + (0 - 1)) * msPerDay - tz))
    with (now' + tz + (1 - a) * msPerDay) by ring.
  rewrite !Z.div_add by discriminate. fold (dayIndex tz now) (dayIndex tz now').
  now rewrite Hsame.
Qed.

Lemma jsIndex_in_range {A : Type} (l : list A) (i : Z) :
  0 <= i < Z.of_nat (length l) ->
  exists x, jsIndex l i = Some x /\ In x l.
Proof.
  intros Hi. unfold jsIndex.
  destruct (Z.ltb_spec i 0) as [H|_]; [lia|].
  destruct (nth_error l (Z.to_nat i)) as [x|] eqn:E.
  - exists x. split; [reflexivity|]. now apply nth_error_In in E.
  - apply nth_error_None in E. lia.
Qed.

Lemma curated_NoDup : NoDup getCuratedPrompts.
Proof.
  unfold getCuratedPrompts.
  repeat (constructor; [simpl; intuition discriminate|]). constructor.
Qed.

Lemma jsIndex_injective {A : Type} (l : list A) (i j : Z) :
  NoDup l ->
  0 <= i < Z.of_nat (length l) -> 0 <= j < Z.of_nat (length l) ->
  jsIndex l i = jsIndex l j -> i = j.
Proof.
  intros Hnd Hi Hj. unfold jsIndex.
  destruct (Z.ltb_spec i 0); [lia|]. destruct (Z.ltb_spec j 0); [lia|].
  intros Heq.
  assert (Z.to_nat i = Z.to_nat j).
  { apply (proj1 (NoDup_nth_error l) Hnd); [lia | exact Heq]. }
  lia.
Qed.

(** For an instant whose local date is in 1970 or later, [getDailyPrompt]
    returns one of the ten curated prompts, the one at the place of the day
    of the year (1 to 366) modulo 10. *)
Theorem getDailyPrompt_of_the_day (tz now : Z) :
  0 <= dayIndex tz now ->
  1 <= dayOfYear tz now <= 366
  /\ (exists prompt,
        getDailyPrompt tz now = Some prompt
        /\ In prompt getCuratedPrompts
        /\ nth_error getCuratedPrompts (Z.to_nat (dayOfYear tz now mod 10))
           = Some prompt).
Proof.
  intros Hd. pose proof (dayOfYear_bounds tz now Hd) as Hb.
  split; [exact Hb|].
  unfold getDailyPrompt. change (Z.of_nat (length getCuratedPrompts)) with 10.
  rewrite Z.rem_mod_nonneg by lia.
  pose proof (Z.mod_pos_bound (dayOfYear tz now) 10 ltac:(lia)) as Hm.
  destruct (jsIndex_in_range getCuratedPrompts (dayOfYear tz now mod 10))
    as [prompt [Hp Hin]]; [exact Hm|].
  exists prompt. split; [exact Hp|]. split; [exact Hin|].
  unfold jsIndex in Hp. destruct (Z.ltb_spec (dayOfYear tz now mod 10) 0); [lia|].
  exact Hp.
Qed.

Lemma getDailyPrompt_of_the_day_witness :
  1 <= dayOfYear 0 Examples.jan3evening <= 366
  /\ (exists prompt,
        getDailyPrompt 0 Examples.jan3evening = Some prompt
        /\ In prompt getCuratedPrompts
        /\ nth_error getCuratedPrompts (Z.to_nat (dayOfYear 0 Examples.jan3evening mod 10))
           = Some prompt).
Proof.
  apply (getDailyPrompt_of_the_day 0 Examples.jan3evening).
  vm_compute. discriminate.
Defined.

(** On a server whose local time is at a fixed offset [tz] from UTC (no
    daylight saving), two instants of one local day have the same day of
    the year and get the same curated prompt. *)
Theorem getDailyPrompt_fixed_offset_same_day (tz now now' : Z) :
  dayIndex tz now' = dayIndex tz now ->
  dayOfYear tz now' = dayOfYear tz now
  /\ getDailyPrompt tz now' = getDailyPrompt tz now.
Proof.
  intros Hsame. pose proof (dayOfYear_same_day tz now' now Hsame) as Hday.
  split; [exact Hday|]. unfold getDailyPrompt. now rewrite Hday.
Qed.

Lemma getDailyPrompt_fixed_offset_same_day_witness :
  dayOfYear 0 (Examples.at_ 2 7) = dayOfYear 0 Examples.jan3evening
  /\ getDailyPrompt 0 (Examples.at_ 2 7) = getDailyPrompt 0 Examples.jan3evening.
Proof.
  apply (getDailyPrompt_fixed_offset_same_day 0 Examples.jan3evening (Examples.at_ 2 7)).
  reflexivity.
Defined.

(** Within one calendar year (1970 or later) the curated prompt of a day
    comes back ten days later and on none of the nine days in between. *)
Theorem getDailyPrompt_cycle (tz now k : Z) :
  0 <= dayIndex tz now ->
  0 < k <= 10 ->
  getFullYear tz (addDays now k) = getFullYear tz now ->
  (getDailyPrompt tz (addDays now k) = getDailyPrompt tz now <-> k = 10).
Proof.
  intros Hd Hk Hyear.
  assert (Hd' : 0 <= dayIndex tz (addDays now k))
    by (rewrite ClockFacts.dayIndex_addDays; lia).
  assert (Hshift : dayOfYear tz (addDays now k) = dayOfYear tz now + k).
  { rewrite (dayOfYear_index _ _ Hd), (dayOfYear_index _ _ Hd').
    unfold getFullYear in Hyear. rewrite Hyear.
    rewrite ClockFacts.dayIndex_addDays. lia. }
  pose proof (dayOfYear_bounds tz now Hd) as Hb.
  unfold getDailyPrompt. change (Z.of_nat (length getCuratedPrompts)) with 10.
  rewrite Hshift, !Z.rem_mod_nonneg by lia.
  pose proof (Z.mod_pos_bound (dayOfYear tz now) 10 ltac:(lia)) as Hm.
  pose proof (Z.mod_pos_bound (dayOfYear tz now + k) 10 ltac:(lia)) as Hm'.
  split.
  - intros Heq.
    apply (jsIndex_injective _ _ _ curated_NoDup) in Heq; [|exact Hm'|exact Hm].
    Z.div_mod_to_equations. lia.
  - intros ->. f_equal. Z.div_mod_to_equations. lia.
Qed.

Lemma getDailyPrompt_cycle_witness :
  getDailyPrompt 0 (addDays Examples.jan3evening 10) = getDailyPrompt 0 Examples.jan3evening
  <-> 10 = 10.
Proof.
  apply (getDailyPrompt_cycle 0 Examples.jan3evening 10).
  - vm_compute. discriminate.
  - lia.
  - reflexivity.
Defined.

End CalendarFacts.

(** ** The prompts *)

Module PromptFacts.
Import PromptStorage GeminiPrompts PromptRoutes.

Lemma monthWalk_from (lengths : list Z) :
  forall month rest, 0 <= month -> 0 <= rest ->
    0 <= fst (Calendar.monthWalk lengths month rest)
    /\ 1 <= snd (Calendar.monthWalk lengths month rest).
Proof.
  induction lengths as [|n more IH]; intros month rest Hm Hr; simpl.
  - lia.
  - destruct (Z.ltb_spec rest n); simpl; [lia|]. apply IH; lia.
Qed.

Lemma date_plus_month (tz now : Z) :
  1 <= Calendar.getDate tz now + Calendar.getMonth tz now.
Proof.
  unfold Calendar.getDate, Calendar.getMonth, Calendar.getFullYear. cbv zeta.
  pose proof (CalendarFacts.yearOfDay_spec (Clock.dayIndex tz now)) as [Hy _].
  destruct (monthWalk_from
              (Calendar.monthLengths (Calendar.yearOfDay (Clock.dayIndex tz now))) 0
              (Clock.dayIndex tz now
               - Calendar.daysBeforeYear (Calendar.yearOfDay (Clock.dayIndex tz now))))
    as [H1 H2]; [lia | lia | idtac].
  revert H1 H2. generalize (Calendar.monthWalk
    (Calendar.monthLengths (Calendar.yearOfDay (Clock.dayIndex tz now))) 0
    (Clock.dayIndex tz now
     - Calendar.daysBeforeYear (Calendar.yearOfDay (Clock.dayIndex tz now)))).
  intros [month date]. simpl. lia.
Qed.

Lemma orText_nonempty (s : option string) (d : string) : d <> "" -> orText s d <> "".
Proof. intros Hd. destruct s as [[|c t]|]; simpl; [exact Hd | discriminate | exact Hd]. Qed.

Lemma generateDailyPrompt_defined (ai : PromptProvider) (tz now : Z)
  (userHistory : list string) :
  exists generated,
    generateDailyPrompt ai tz now userHistory = Some generated
    /\ match dailyReply ai userHistory with
       | Thrown _ => In generated fallbackPrompts
       | Returned _ => GeminiPrompts.prompt generated <> ""
       end.
Proof.
  unfold generateDailyPrompt. destruct (dailyReply ai userHistory) as [result|error].
  - eexists. split; [reflexivity|]. simpl. apply orText_nonempty. discriminate.
  - change (Z.of_nat (length fallbackPrompts)) with 5.
    pose proof (date_plus_month tz now) as Hsum.
    rewrite Z.rem_mod_nonneg by lia.
    destruct (CalendarFacts.jsIndex_in_range fallbackPrompts
                ((Calendar.getDate tz now + Calendar.getMonth tz now) mod 5))
      as [g [Hg Hin]].
    + change (Z.of_nat (length fallbackPrompts)) with 5.
      apply Z.mod_pos_bound. lia.
    + exists g. split; assumption.
Qed.

Lemma generatePersonalizedPrompt_defined (ai : PromptProvider) (tz now : Z)
  (userEntries : list UserEntry) :
  exists generated,
    generatePersonalizedPrompt ai tz now userEntries = Some generated.
Proof.
  unfold generatePersonalizedPrompt.
  destruct userEntries as [|e l].
  - destruct (generateDailyPrompt_defined ai tz now []) as [g [Hg _]]. eauto.
  - destruct (personalReply ai _ _); [eauto|].
    destruct (generateDailyPrompt_defined ai tz now []) as [g [Hg _]]. eauto.
Qed.

(** The two generators always yield a prompt, whatever the provider does
    and whatever the date: when the provider fails the daily generator
    picks one of its five built-in prompts, and when it answers the prompt
    text is never empty. *)
Theorem generators_always_answer (ai : PromptProvider) (tz now : Z) :
  (forall userHistory,
      exists generated,
        generateDailyPrompt ai tz now userHistory = Some generated
        /\ match dailyReply ai userHistory with
           | Thrown _ => In generated fallbackPrompts
           | Returned _ => GeminiPrompts.prompt generated <> ""
           end)
  /\ (forall userEntries,
        exists generated,
          generatePersonalizedPrompt ai tz now userEntries = Some generated).
Proof.
  split.
  - apply generateDailyPrompt_defined.
  - apply generatePersonalizedPrompt_defined.
Qed.


Lemma promptInsert_perm (x : AiPrompt.t) (l : list AiPrompt.t) :
  Permutation (insertDesc x l) (x :: l).
Proof.
  induction l as [|y l IH]; simpl.
  - apply Permutation_refl.
  - destruct (AiPrompt.createdAt x <? AiPrompt.createdAt y).
    + eapply perm_trans; [apply perm_skip, IH | apply perm_swap].
    + apply Permutation_refl.
Qed.

Lemma promptSort_perm (l : list AiPrompt.t) : Permutation (sortDesc l) l.
Proof.
  induction l as [|x l IH]; simpl.
  - constructor.
  - eapply perm_trans; [apply promptInsert_perm | now apply perm_skip].
Qed.

Lemma promptInsert_sorted (x : AiPrompt.t) (l : list AiPrompt.t) :
  PromptsDescending l -> PromptsDescending (insertDesc x l).
Proof.
  unfold PromptsDescending. induction l as [|y l IH]; intros Hl; simpl.
  - repeat constructor.
  - inversion Hl as [|? ? Hs Hall]; subst.
    destruct (Z.ltb_spec (AiPrompt.createdAt x) (AiPrompt.createdAt y)) as [Hlt|Hge].
    + constructor; [now apply IH|].
      eapply Permutation_Forall; [symmetry; apply promptInsert_perm|].
      constructor; [lia | exact Hall].
    + constructor; [exact Hl|]. constructor; [lia|].
      eapply Forall_impl; [|exact Hall]. simpl. intros; lia.
Qed.

Lemma promptSort_sorted (l : list AiPrompt.t) : PromptsDescending (sortDesc l).
Proof.
  induction l as [|x l IH]; simpl; [constructor | now apply promptInsert_sorted].
Qed.

Lemma promptSort_In (l : list AiPrompt.t) (p : AiPrompt.t) :
  In p (sortDesc l) <-> In p l.
Proof. split; apply Permutation_in; [|symmetry]; apply promptSort_perm. Qed.

Lemma getUnused_none (db : Db) (userId : string) :
  getUnusedPromptForUser db userId = None
  <-> filter (unusedOf userId) (aiPrompts db) = [].
Proof.
  unfold getUnusedPromptForUser.
  pose proof (promptSort_perm (filter (unusedOf userId) (aiPrompts db))) as Hp.
  destruct (sortDesc (filter (unusedOf userId) (aiPrompts db))) as [|p l] eqn:E; simpl.
  - split; [intros _ | reflexivity].
    apply Permutation_nil. exact Hp.
  - split; [discriminate|]. intros H. rewrite H in Hp.
    apply Permutation_sym, Permutation_nil in Hp. discriminate.
Qed.

Lemma getUnused_some (db : Db) (userId : string) (p : AiPrompt.t) :
  getUnusedPromptForUser db userId = Some p ->
  In p (filter (unusedOf userId) (aiPrompts db))
  /\ Forall (fun q => AiPrompt.createdAt q <= AiPrompt.createdAt p)
            (filter (unusedOf userId) (aiPrompts db)).
Proof.
  unfold getUnusedPromptForUser.
  pose proof (promptSort_perm (filter (unusedOf userId) (aiPrompts db))) as Hp.
  pose proof (promptSort_sorted (filter (unusedOf userId) (aiPrompts db))) as Hs.
  destruct (sortDesc (filter (unusedOf userId) (aiPrompts db))) as [|q l] eqn:E; simpl;
    [discriminate|].
  intros H. injection H as <-. split.
  - eapply Permutation_in; [exact Hp | now left].
  - eapply Permutation_Forall; [exact Hp|].
    inversion Hs as [|? ? _ Hall]; subst. constructor; [lia | exact Hall].
Qed.

Lemma unusedOf_true (userId : string) (p : AiPrompt.t) :
  unusedOf userId p = true <-> AiPrompt.userId p = userId /\ AiPrompt.isUsed p = Some false.
Proof.
  unfold unusedOf. rewrite andb_true_iff, String.eqb_eq.
  destruct (AiPrompt.isUsed p) as [[]|]; split; intros [H1 H2];
    (split; [exact H1|]); try reflexivity; discriminate.
Qed.

(** [getUnusedPromptForUser] returns a stored prompt of the user that is
    not used and that no other unused prompt of the user is newer than; it
    returns nothing exactly when the user has no unused prompt. *)
Theorem getUnusedPromptForUser_newest (db : Db) (userId : string) :
  match getUnusedPromptForUser db userId with
  | Some p =>
      In p (aiPrompts db)
      /\ AiPrompt.userId p = userId
      /\ AiPrompt.isUsed p = Some false
      /\ Forall (fun q => AiPrompt.createdAt q <= AiPrompt.createdAt p)
                (filter (unusedOf userId) (aiPrompts db))
  | None => filter (unusedOf userId) (aiPrompts db) = []
  end.
Proof.
  destruct (getUnusedPromptForUser db userId) as [p|] eqn:E.
  - destruct (getUnused_some db userId p E) as [Hin Hall].
    apply filter_In in Hin. destruct Hin as [Hin Hu].
    apply unusedOf_true in Hu. tauto.
  - now apply getUnused_none.
Qed.

(** Marking a prompt as used looks at the id only, not at the owner: every
    row of that id becomes used, the other rows stay as they are, and the
    id is never again returned as anybody's unused prompt. *)
Theorem markPromptAsUsed_effect (db : Db) (promptId : string) :
  (forall userId,
      match getUnusedPromptForUser (markPromptAsUsed db promptId) userId with
      | Some p => AiPrompt.id p <> promptId
      | None => True
      end)
  /\ Forall (fun row => AiPrompt.isUsed row = Some true)
            (filter (fun row => String.eqb (AiPrompt.id row) promptId)
                    (aiPrompts (markPromptAsUsed db promptId)))
  /\ filter (fun row => negb (String.eqb (AiPrompt.id row) promptId))
            (aiPrompts (markPromptAsUsed db promptId))
     = filter (fun row => negb (String.eqb (AiPrompt.id row) promptId)) (aiPrompts db)
  /\ map AiPrompt.id (aiPrompts (markPromptAsUsed db promptId))
     = map AiPrompt.id (aiPrompts db)
  /\ base (markPromptAsUsed db promptId) = base db.
Proof.
  split; [|split; [|split; [|split; [|reflexivity]]]].
  - intros userId.
    destruct (getUnusedPromptForUser _ userId) as [p|] eqn:E; [|exact I].
    apply getUnused_some in E. destruct E as [Hin _].
    apply filter_In in Hin. destruct Hin as [Hin Hu].
    apply unusedOf_true in Hu. destruct Hu as [_ Hu].
    simpl in Hin. apply in_map_iff in Hin. destruct Hin as [row [Hrow _]].
    destruct (String.eqb_spec (AiPrompt.id row) promptId) as [Eid|Eid].
    + subst p. simpl in Hu. discriminate.
    + now subst p.
  - apply Forall_forall. intros row Hrow. apply filter_In in Hrow.
    destruct Hrow as [Hin Hid]. simpl in Hin. apply in_map_iff in Hin.
    destruct Hin as [row0 [Hrow0 _]].
    destruct (String.eqb_spec (AiPrompt.id row0) promptId) as [Eid|Eid].
    + now subst row.
    + subst row. apply String.eqb_eq in Hid. contradiction.
  - simpl. induction (aiPrompts db) as [|row rows IH]; simpl; [reflexivity|].
    destruct (String.eqb (AiPrompt.id row) promptId) eqn:Eid; simpl; rewrite Eid; simpl;
      now rewrite IH.
  - simpl. rewrite map_map. apply map_ext. intros row.
    destruct (String.eqb (AiPrompt.id row) promptId); reflexivity.
Qed.








End PromptFacts.

(** ** The search route *)

Module SearchFacts.
Import JsString SearchRoute.

Lemma Descending_filter (f : JournalEntry.t -> bool) (l : list JournalEntry.t) :
  Descending l -> Descending (filter f l).
Proof.
  unfold Descending. induction l as [|x l IH]; intros H; simpl; [constructor|].
  inversion H as [|? ? Hs Hall]; subst.
  destruct (f x); [|now apply IH].
  constructor; [now apply IH|].
  apply Forall_forall. intros y Hy. apply filter_In in Hy.
  exact (proj1 (Forall_forall _ _) Hall y (proj1 Hy)).
Qed.

(** A lower-cased text splits where the text splits. *)
Lemma toLowerCase_split (a b : string) :
  forall s, toLowerCase s = a ++ b ->
            exists s1 s2, s = s1 ++ s2 /\ toLowerCase s1 = a /\ toLowerCase s2 = b.
Proof.
  induction a as [|c a IH]; intros s H.
  - exists "", s. auto.
  - destruct s as [|d s]; simpl in H; [discriminate|].
    injection H as Hc Hs. destruct (IH s Hs) as (s1 & s2 & E & H1 & H2).
    exists (String d s1), s2. simpl. now rewrite E, Hc, H1, H2.
Qed.

(** The test of the search on one text: the text holds the query, the case
    of letters apart. *)
Lemma includes_ignoring_case (text query : string) :
  includes (toLowerCase text) (toLowerCase query) = true
  <-> holdsIgnoringCase text query.
Proof.
  rewrite FallbacksFacts.includes_substring. unfold holdsIgnoringCase. split.
  - intros (pre' & post' & H).
    destruct (toLowerCase_split _ _ _ H) as (pre & rest & E & _ & Hrest).
    destruct (toLowerCase_split _ _ _ Hrest) as (found & post & E' & Hfound & _).
    exists pre, found, post. split; [now rewrite E, E'|].
    now apply FallbacksFacts.sameLetters_lower.
  - intros (pre & found & post & E & Hsame).
    apply FallbacksFacts.sameLetters_lower in Hsame.
    exists (toLowerCase pre), (toLowerCase post).
    now rewrite E, !TextFacts.toLowerCase_app, Hsame.
Qed.

Lemma matches_mentions (query : string) (entry : JournalEntry.t) :
  matches query entry = true <-> mentions query entry.
Proof.
  unfold matches, mentions. rewrite !orb_true_iff, includes_ignoring_case.
  rewrite or_assoc. apply or_iff_compat_l. split.
  - intros [H|H].
    + destruct (JournalEntry.title entry) as [title|]; [|discriminate].
      left. exists title. split; [reflexivity|]. now apply includes_ignoring_case.
    + destruct (JournalEntry.themes entry) as [themes|]; [|discriminate].
      apply existsb_exists in H. destruct H as (theme & Hin & H).
      right. exists themes, theme. split; [reflexivity|]. split; [exact Hin|].
      now apply includes_ignoring_case.
  - intros [(title & E & H)|(themes & theme & E & Hin & H)]; rewrite E.
    + left. now apply includes_ignoring_case.
    + right. apply existsb_exists. exists theme. split; [exact Hin|].
      now apply includes_ignoring_case.
Qed.

Lemma matches_same_letters (query query' : string) (entry : JournalEntry.t) :
  sameLetters query' query = true -> matches query' entry = matches query entry.
Proof.
  intros H. apply FallbacksFacts.sameLetters_lower in H. unfold matches. now rewrite H.
Qed.

(** With at most [limit] completed entries the listing holds them all. *)
Lemma getUserJournalEntries_all (st : Store) (userId : string) (limit : nat)
  (entry : JournalEntry.t) :
  Storage.totalEntries (Storage.entriesOf st userId) <= Z.of_nat limit ->
  In entry (journalEntries st) ->
  JournalEntry.userId entry = userId ->
  JournalEntry.isCompleted entry = Some true ->
  In entry (Storage.getUserJournalEntries st userId limit).
Proof.
  intros Hfew Hin Hown Hdone. unfold Storage.getUserJournalEntries.
  rewrite StorageFacts.filter_owned_completed.
  rewrite firstn_all2.
  - apply (Permutation_in _ (Permutation_sym (StatsFacts.sortDesc_perm _))).
    apply filter_In. split.
    + apply filter_In. split; [exact Hin|]. now apply String.eqb_eq.
    + now rewrite Hdone.
  - rewrite (Permutation_length (StatsFacts.sortDesc_perm _)).
    unfold Storage.totalEntries, Storage.entriesOf in Hfew. lia.
Qed.

(** Search, for texts of code units below 256. A search with a non-empty
    query is answered 200 with entries that are all stored, completed and
    owned by the user, newest first, and that hold the query in their text,
    their title or one of their themes, the case of letters apart; when the
    user has at most 100 completed entries it finds every one of them that
    does; and the answer is the same for a query that differs only in the
    case of its letters. *)
Theorem searchRoute_finds (st : Store) (userId query : string) :
  query <> "" ->
  exists results,
    searchRoute st userId (Some query) = (200, SearchResults results)
    /\ Forall (fun entry => In entry (journalEntries st)
                            /\ JournalEntry.userId entry = userId
                            /\ JournalEntry.isCompleted entry = Some true
                            /\ mentions query entry) results
    /\ Descending results
    /\ (forall entry,
           Storage.totalEntries (Storage.entriesOf st userId) <= 100 ->
           In entry (journalEntries st) ->
           JournalEntry.userId entry = userId ->
           JournalEntry.isCompleted entry = Some true ->
           mentions query entry ->
           In entry results)
    /\ (forall query',
           sameLetters query' query = true ->
           searchRoute st userId (Some query') = (200, SearchResults results)).
Proof.
  intros Hne.
  exists (filter (matches query) (Storage.getUserJournalEntries st userId 100)).
  split; [destruct query; [contradiction | reflexivity]|].
  split; [|split; [|split]].
  - apply Forall_forall. intros entry Hin. apply filter_In in Hin.
    destruct Hin as [Hin Hm]. apply matches_mentions in Hm.
    destruct (StorageFacts.getUserJournalEntries_listed st userId 100) as [Hall _].
    pose proof (proj1 (Forall_forall _ _) Hall entry Hin) as (H1 & H2 & H3).
    tauto.
  - apply Descending_filter.
    now destruct (StorageFacts.getUserJournalEntries_listed st userId 100) as [_ H].
  - intros entry Hfew Hin Hown Hdone Hm.
    apply filter_In. split; [|now apply matches_mentions].
    now apply getUserJournalEntries_all.
  - intros query' Hsame.
    destruct query' as [|c q]; [destruct query; [contradiction | discriminate]|].
    unfold searchRoute. f_equal. f_equal. apply filter_ext. intros entry.
    now apply matches_same_letters.
Qed.

Lemma searchRoute_finds_witness :
  exists results,
    searchRoute Samples.scoredStore "alice" (Some "RIVER") = (200, SearchResults results)
    /\ Forall (fun entry => In entry (journalEntries Samples.scoredStore)
                            /\ JournalEntry.userId entry = "alice"
                            /\ JournalEntry.isCompleted entry = Some true
                            /\ mentions "RIVER" entry) results
    /\ Descending results
    /\ (forall entry,
           Storage.totalEntries (Storage.entriesOf Samples.scoredStore "alice") <= 100 ->
           In entry (journalEntries Samples.scoredStore) ->
           JournalEntry.userId entry = "alice" ->
           JournalEntry.isCompleted entry = Some true ->
           mentions "RIVER" entry ->
           In entry results)
    /\ (forall query',
           sameLetters query' "RIVER" = true ->
           searchRoute Samples.scoredStore "alice" (Some query')
           = (200, SearchResults results)).
Proof.
  apply (searchRoute_finds Samples.scoredStore "alice" "RIVER"). discriminate.
Defined.

End SearchFacts.
